(** * keychange: key estimation, plugin chain and streaming session

    A shallow embedding of the Python sources
    - [src/keydetector.py]  (class [KeyDetector]),
    - [src/vst_stream.py]   (class [VSTStreamSource]),
    - [src/vst_chain.py]    (class [VSTPluginChain]),
    - [src/srt_stream.py]   (class [SRTStreamSource]),
    - [tests/mock_vst.py]   (class [MockVST], the plugin the tests host).

    Python floats and numpy float64 values are binary64 numbers: they are
    modelled by Rocq's primitive floats, whose operations are the IEEE 754
    ones (NaN included).  Python objects that are mutated in place are
    records threaded through the functions; calls into the external
    libraries (sounddevice, PyAV, the vst3 host) are recorded in an event
    log. *)

From Stdlib Require Import ZArith List Bool Lia.
From Stdlib Require Import Floats.
From stdpp Require Import gmap strings list fin_maps.
Import ListNotations.

(* The decimal literals of the sources denote the nearest binary64 values,
   in Python as here. *)
Set Warnings "-inexact-float".

(* ===================================================================== *)
(** ** Binary64 comparisons, as Python sees them *)
(* ===================================================================== *)

Module PyFloat.

Local Open Scope Z_scope.

(** Python's [a > b], [a >= b] and [a == b] on floats. *)
Definition gt (a b : float) : bool := PrimFloat.ltb b a.
Definition ge (a b : float) : bool := PrimFloat.leb b a.
Definition eq (a b : float) : bool := PrimFloat.eqb a b.

(** [x != x] holds exactly for NaN. *)
Definition isnan (x : float) : bool := PrimFloat.is_nan x.

(** A number (anything but NaN). *)
Definition number (x : float) : Prop := isnan x = false.

(** The order of the non-NaN values, read off the specification of the
    comparison: a class for the sign and infinities, then exponent and
    mantissa, compared lexicographically. *)
Definition sf_key (f : spec_float) : Z * Z * Z :=
  match f with
  | S754_zero _ => (0, 0, 0)
  | S754_infinity s => (if s then -2 else 2, 0, 0)
  | S754_nan => (0, 0, 0)
  | S754_finite s m e => if s then (-1, - e, Z.neg m) else (1, e, Z.pos m)
  end.

Definition lex3 (a b : Z * Z * Z) : comparison :=
  match a, b with
  | (a1, a2, a3), (b1, b2, b3) =>
      match a1 ?= b1 with
      | Eq => match a2 ?= b2 with
              | Eq => a3 ?= b3
              | c => c
              end
      | c => c
      end
  end.

Definition key (x : float) : Z * Z * Z := sf_key (Prim2SF x).

Lemma SFcompare_key (f g : spec_float) :
  f <> S754_nan -> g <> S754_nan ->
  SFcompare f g = Some (lex3 (sf_key f) (sf_key g)).
Proof.
  intros Hf Hg.
  destruct f as [sf|sf| |sf mf ef], g as [sg|sg| |sg mg eg];
    try congruence; try (destruct sf); try (destruct sg); try reflexivity.
  (* two negative finite numbers: the larger magnitude is the smaller *)
  cbn [SFcompare sf_key lex3]. change (-1 ?= -1) with Eq. cbv iota.
  rewrite (Z.compare_opp ef eg), (Z.compare_antisym ef eg).
  destruct (ef ?= eg) eqn:E; reflexivity.
Qed.

Lemma lex3_refl k : lex3 k k = Eq.
Proof.
  destruct k as [[a b] c]. cbn [lex3]. now rewrite !Z.compare_refl.
Qed.

Lemma lex3_antisym a b : lex3 b a = CompOpp (lex3 a b).
Proof.
  destruct a as [[a1 a2] a3], b as [[b1 b2] b3]. cbn [lex3].
  rewrite (Z.compare_antisym a1 b1), (Z.compare_antisym a2 b2),
    (Z.compare_antisym a3 b3).
  destruct (a1 ?= b1), (a2 ?= b2), (a3 ?= b3); reflexivity.
Qed.

(** [lex3] as arithmetic, for [lia]. *)
Definition lex_le (a b : Z * Z * Z) : Prop :=
  match a, b with
  | (a1, a2, a3), (b1, b2, b3) =>
      a1 < b1 \/ (a1 = b1 /\ (a2 < b2 \/ (a2 = b2 /\ a3 <= b3)))
  end.

Lemma lex3_le a b : lex3 a b <> Gt <-> lex_le a b.
Proof.
  destruct a as [[a1 a2] a3], b as [[b1 b2] b3]. cbn [lex3 lex_le].
  destruct (Z.compare_spec a1 b1); [|split; [lia|congruence]|split; [congruence|lia]].
  destruct (Z.compare_spec a2 b2); [|split; [lia|congruence]|split; [congruence|lia]].
  destruct (Z.compare_spec a3 b3); split; (congruence || lia).
Qed.

Lemma lex_le_trans a b c : lex_le a b -> lex_le b c -> lex_le a c.
Proof.
  destruct a as [[a1 a2] a3], b as [[b1 b2] b3], c as [[c1 c2] c3].
  cbn [lex_le]. lia.
Qed.

Lemma number_spec x : number x <-> Prim2SF x <> S754_nan.
Proof.
  unfold number, isnan, PrimFloat.is_nan. rewrite FloatAxioms.eqb_spec. unfold SFeqb.
  split.
  - intros H E. rewrite E in H. discriminate.
  - intros H. rewrite (SFcompare_key _ _ H H), lex3_refl. reflexivity.
Qed.

(** Comparisons of numbers are comparisons of their keys. *)
Lemma leb_key x y :
  number x -> number y -> (PrimFloat.leb x y = true <-> lex_le (key x) (key y)).
Proof.
  intros Hx%number_spec Hy%number_spec. rewrite FloatAxioms.leb_spec. unfold SFleb.
  rewrite (SFcompare_key _ _ Hx Hy), <- lex3_le. fold (key x) (key y).
  destruct (lex3 (key x) (key y)); split; congruence.
Qed.

Lemma ltb_key x y :
  number x -> number y ->
  (PrimFloat.ltb x y = false <-> lex_le (key y) (key x)).
Proof.
  intros Hx%number_spec Hy%number_spec. rewrite FloatAxioms.ltb_spec. unfold SFltb.
  rewrite (SFcompare_key _ _ Hx Hy), <- lex3_le. fold (key x) (key y).
  rewrite (lex3_antisym (key x) (key y)).
  destruct (lex3 (key x) (key y)); cbn [CompOpp]; split; congruence.
Qed.

Lemma eqb_key x y :
  number x -> number y ->
  (PrimFloat.eqb x y = true <-> lex_le (key x) (key y) /\ lex_le (key y) (key x)).
Proof.
  intros Hx%number_spec Hy%number_spec. rewrite FloatAxioms.eqb_spec. unfold SFeqb.
  rewrite (SFcompare_key _ _ Hx Hy), <- !lex3_le. fold (key x) (key y).
  rewrite (lex3_antisym (key x) (key y)).
  destruct (lex3 (key x) (key y)); cbn [CompOpp]; split;
    (congruence || (intros [? ?]; congruence) || (split; congruence)).
Qed.

(** A comparison that answers [True] has two numbers as operands. *)
Lemma ltb_number x y : PrimFloat.ltb x y = true -> number x /\ number y.
Proof.
  rewrite FloatAxioms.ltb_spec, !number_spec. unfold SFltb.
  destruct (Prim2SF x), (Prim2SF y); cbn [SFcompare]; intros H;
    split; congruence.
Qed.

Lemma eqb_number x y : PrimFloat.eqb x y = true -> number x /\ number y.
Proof.
  rewrite FloatAxioms.eqb_spec, !number_spec. unfold SFeqb.
  destruct (Prim2SF x), (Prim2SF y); cbn [SFcompare]; intros H;
    split; congruence.
Qed.

Lemma nan_spec x : isnan x = true <-> Prim2SF x = S754_nan.
Proof.
  split.
  - intros H. destruct (Prim2SF x) eqn:E; trivial;
      assert (N : number x) by (apply number_spec; congruence);
      unfold number in N; congruence.
  - intros E. destruct (isnan x) eqn:N; trivial.
    apply number_spec in N. contradiction.
Qed.

Lemma nan_ge_false x y : isnan x = true -> ge x y = false.
Proof.
  intros H%nan_spec. unfold ge. rewrite FloatAxioms.leb_spec, H.
  unfold SFleb. destruct (Prim2SF y); reflexivity.
Qed.

Lemma ge_refl x : number x -> ge x x = true.
Proof.
  intros H. unfold ge. apply leb_key; trivial.
  destruct (key x) as [[a b] c]. cbn. lia.
Qed.

Lemma ge_trans x y z :
  number x -> number y -> number z ->
  ge x y = true -> ge y z = true -> ge x z = true.
Proof.
  unfold ge. intros Hx Hy Hz H1%leb_key H2%leb_key; trivial.
  apply leb_key; trivial. eapply lex_le_trans; eassumption.
Qed.

Lemma not_gt_ge x y :
  number x -> number y -> gt x y = false -> ge y x = true.
Proof.
  unfold gt, ge. intros Hx Hy H%ltb_key; trivial. now apply leb_key.
Qed.

Lemma gt_ge x y : gt x y = true -> ge x y = true.
Proof.
  unfold gt, ge. intros H. destruct (ltb_number _ _ H) as [Hy Hx].
  apply leb_key; trivial.
  destruct (PrimFloat.ltb x y) eqn:E.
  - (* both strict comparisons cannot hold *)
    exfalso. revert H E. rewrite !FloatAxioms.ltb_spec. unfold SFltb.
    apply number_spec in Hx, Hy.
    rewrite (SFcompare_key _ _ Hx Hy), (SFcompare_key _ _ Hy Hx).
    rewrite (lex3_antisym (sf_key (Prim2SF y)) (sf_key (Prim2SF x))).
    destruct (lex3 (sf_key (Prim2SF y)) (sf_key (Prim2SF x))); cbn; congruence.
  - now apply ltb_key in E.
Qed.

Lemma eq_ge x y : eq x y = true -> ge x y = true /\ ge y x = true.
Proof.
  unfold eq, ge. intros H. destruct (eqb_number _ _ H) as [Hx Hy].
  apply eqb_key in H as [H1 H2]; trivial.
  split; apply leb_key; trivial.
Qed.

Lemma ge_key x y :
  number x -> number y -> (ge x y = true <-> lex_le (key y) (key x)).
Proof. unfold ge. intros Hx Hy. now apply leb_key. Qed.

Lemma gt_key x y :
  number x -> number y -> (gt x y = true <-> ~ lex_le (key x) (key y)).
Proof.
  unfold gt. intros Hx Hy. destruct (PrimFloat.ltb y x) eqn:E.
  - split; trivial. intros _ H. apply ltb_key in H; trivial. congruence.
  - split; [discriminate|]. intros H. exfalso. apply H. now apply ltb_key.
Qed.

Lemma gt_number x y : gt x y = true -> number x /\ number y.
Proof. unfold gt. intros H. destruct (ltb_number _ _ H). now split. Qed.

(** Turns comparisons of numbers into inequalities on their keys. *)
Ltac to_keys :=
  repeat match goal with
    | H : ge ?x ?y = true |- _ => apply ge_key in H; [|assumption..]
    | H : gt ?x ?y = true |- _ => apply gt_key in H; [|assumption..]
    | |- ge ?x ?y = true => apply ge_key; [assumption..|]
    | |- gt ?x ?y = true => apply gt_key; [assumption..|]
    end;
  repeat match goal with
    | |- context [key ?x] =>
        let a := fresh "k" in let b := fresh "k" in let c := fresh "k" in
        destruct (key x) as [[a b] c]
    | H : context [key ?x] |- _ =>
        let a := fresh "k" in let b := fresh "k" in let c := fresh "k" in
        destruct (key x) as [[a b] c]
    end;
  cbn [lex_le] in *.

Lemma gt_ge_trans x y z :
  number x -> number y -> number z ->
  gt x y = true -> ge y z = true -> gt x z = true.
Proof. intros Hx Hy Hz H1 H2. to_keys. lia. Qed.

Lemma ge_gt_trans x y z :
  number x -> number y -> number z ->
  ge x y = true -> gt y z = true -> gt x z = true.
Proof. intros Hx Hy Hz H1 H2. to_keys. lia. Qed.

Lemma gt_not_eq x y : gt x y = true -> eq y x = false.
Proof.
  intros H. destruct (gt_number _ _ H) as [Hx Hy].
  destruct (eq y x) eqn:E; trivial. exfalso.
  apply eq_ge in E as [E1 E2]. to_keys. lia.
Qed.

Lemma eq_refl_number x : number x -> eq x x = true.
Proof.
  unfold number, isnan, PrimFloat.is_nan, eq. now intros ->%negb_false_iff.
Qed.

End PyFloat.

(* ===================================================================== *)
(** ** Python results *)
(* ===================================================================== *)

(** The exceptions the modelled code can raise.  [Blocked] is not a Python
    exception: it stands for a call that does not return, a [put] left
    waiting on a full queue. *)
Inductive exn : Type :=
| ValueError
| IndexError
| KeyError
| RuntimeError
| FileNotFoundError
| AttributeError
| OverflowError
| PortAudioError
| Blocked.

(** A call either returns a value or raises. *)
Inductive result (A : Type) : Type :=
| Ok (a : A)
| Raise (e : exn).

Arguments Ok {A} a.
Arguments Raise {A} e.

(* ===================================================================== *)
(** ** The key estimator: [KeyDetector._analyze_audio] *)
(* ===================================================================== *)

Module Estimator.

(** Class constants of [KeyDetector]. *)
Definition PITCH_CLASSES : list string :=
  ["C"; "C#"; "D"; "D#"; "E"; "F"; "F#"; "G"; "G#"; "A"; "A#"; "B"]%string.

Definition MAJOR_PROFILE : list float :=
  [6.35; 2.23; 3.48; 2.33; 4.38; 4.09; 2.52; 5.19; 2.39; 3.66; 2.29; 2.88]%float.

Definition MINOR_PROFILE : list float :=
  [6.33; 2.68; 3.52; 5.38; 2.60; 3.53; 2.54; 4.75; 3.98; 2.69; 3.34; 3.17]%float.

(** [a.sum()]: the bins added up.  (numpy adds pairwise; the two orders
    differ by rounding only, and nothing below depends on the order.) *)
Definition np_sum (a : list float) : float :=
  fold_left PrimFloat.add a 0%float.

(** [np.roll(a, i)]: the element at [j] moves to [(j + i) mod len(a)]. *)
Definition np_roll (a : list float) (i : nat) : list float :=
  let n := length a in
  let k := n - i mod n in
  skipn k a ++ firstn k a.

(** [chroma_means / chroma_means.sum()]: every bin divided by the sum.
    The division is numpy's: a zero divisor gives NaN or an infinity
    (and a warning), not an exception.  There is no test of the sum. *)
Definition normalize (chroma_means : list float) : list float :=
  let s := np_sum chroma_means in
  map (fun v => PrimFloat.div v s) chroma_means.

(** A Python object of a list of floats: its value, and its position in
    the list as its identity (the twelve appended scores are twelve
    distinct objects). *)
Definition obj : Type := (nat * float)%type.

(** [max(l)]: an item replaces the current one when it is [>] it. *)
Fixpoint max_from (cur : obj) (i : nat) (l : list float) : obj :=
  match l with
  | [] => cur
  | x :: t =>
      if PyFloat.gt x (snd cur) then max_from (i, x) (S i) t
      else max_from cur (S i) t
  end.

Definition py_max (l : list float) : result obj :=
  match l with
  | [] => Raise ValueError
  | x :: t => Ok (max_from (0, x) 1 t)
  end.

(** [l.index(o)]: the first position whose item is [o] or [==] it. *)
Fixpoint index_from (i : nat) (o : obj) (l : list float) : result nat :=
  match l with
  | [] => Raise ValueError
  | x :: t =>
      if (i =? fst o) || PyFloat.eq x (snd o) then Ok i
      else index_from (S i) o t
  end.

Definition py_index (l : list float) (o : obj) : result nat :=
  index_from 0 o l.

(** Lines 281-291: the winning (rotation, mode). *)
Definition select_candidate (major_correlations minor_correlations : list float)
  : result (nat * string) :=
  match py_max major_correlations with
  | Raise e => Raise e
  | Ok max_major_corr =>
      match py_max minor_correlations with
      | Raise e => Raise e
      | Ok max_minor_corr =>
          if PyFloat.gt (snd max_major_corr) (snd max_minor_corr) then
            match py_index major_correlations max_major_corr with
            | Raise e => Raise e
            | Ok key_idx => Ok (key_idx, "major"%string)
            end
          else
            match py_index minor_correlations max_minor_corr with
            | Raise e => Raise e
            | Ok key_idx => Ok (key_idx, "minor"%string)
            end
      end
  end.

(** Line 293: [f"{self.PITCH_CLASSES[key_idx]} {mode}"]. *)
Definition key_name (c : nat * string) : result string :=
  match PITCH_CLASSES !! fst c with
  | None => Raise IndexError
  | Some name => Ok (String.append name (String.append " " (snd c)))
  end.

(** The score of a candidate. *)
Definition score (major_correlations minor_correlations : list float)
  (c : nat * string) : float :=
  if String.eqb (snd c) "major"
  then nth (fst c) major_correlations PrimFloat.nan
  else nth (fst c) minor_correlations PrimFloat.nan.

Section Analysis.

(** [np.corrcoef(a, b)[0, 1]], numpy's Pearson correlation. *)
Variable corrcoef : list float -> list float -> float.

(** The averaged chromagram of a window,
    [np.mean(librosa.feature.chroma_cqt(y=y, sr=sr), axis=1)]. *)
Variable chroma_mean : list float -> Z -> list float.

(** Lines 273-279: the twelve scores of a profile. *)
Definition correlations (profile chroma_means : list float) : list float :=
  map (fun i => corrcoef profile (np_roll chroma_means i)) (seq 0 12).

(** Lines 269-293, from the averaged chroma vector on. *)
Definition analyze_chroma (chroma_means : list float) : result string :=
  let chroma_means := normalize chroma_means in
  let major_correlations := correlations MAJOR_PROFILE chroma_means in
  let minor_correlations := correlations MINOR_PROFILE chroma_means in
  match select_candidate major_correlations minor_correlations with
  | Raise e => Raise e
  | Ok c => key_name c
  end.

Definition _analyze_audio (y : list float) (sr : Z) : result string :=
  analyze_chroma (chroma_mean y sr).

End Analysis.

(** *** A reference [corrcoef]

    The covariance of the two rows over the product of their standard
    deviations, as [np.cov] and [np.corrcoef] compute it: deviations from
    the row means, dot products scaled by [1 / (n - 1)], division by each
    standard deviation in turn, and the result clipped to [-1, 1].  The
    theorems hold for any [corrcoef]; this one evaluates the estimator on
    concrete windows.  (Where numpy adds in another order the last digit of
    a score may differ; a NaN stays a NaN.) *)

Definition of_nat (n : nat) : float :=
  PrimFloat.of_uint63 (Uint63.of_Z (Z.of_nat n)).

Definition np_mean (a : list float) : float :=
  PrimFloat.div (np_sum a) (of_nat (length a)).

Definition np_dot (a b : list float) : float :=
  np_sum (zip_with PrimFloat.mul a b).

Definition np_clip (x lo hi : float) : float :=
  if PyFloat.isnan x then x
  else if PrimFloat.ltb x lo then lo
  else if PrimFloat.ltb hi x then hi
  else x.

Definition pearson (a b : list float) : float :=
  let da := map (fun v => PrimFloat.sub v (np_mean a)) a in
  let db := map (fun v => PrimFloat.sub v (np_mean b)) b in
  let fact := PrimFloat.sub (of_nat (length a)) 1%float in
  let scale := PrimFloat.div 1%float fact in
  let caa := PrimFloat.mul (np_dot da da) scale in
  let cab := PrimFloat.mul (np_dot da db) scale in
  let cbb := PrimFloat.mul (np_dot db db) scale in
  let r := PrimFloat.div (PrimFloat.div cab (PrimFloat.sqrt caa)) (PrimFloat.sqrt cbb) in
  np_clip r (-1)%float 1%float.

End Estimator.


(* ===================================================================== *)
(** ** Facts about [max], [index] and the selection *)
(* ===================================================================== *)

Module Selection.

Import Estimator.
Import PyFloat.

(** [max] returns one of the objects it was given. *)
Lemma max_from_valid (l : list float) : forall (cur : obj) (i : nat),
  let o := max_from cur i l in
  o = cur \/ (i <= fst o < i + length l /\ l !! (fst o - i) = Some (snd o)).
Proof.
  induction l as [|x t IH]; intros cur i; cbn [max_from]; [now left|].
  destruct (gt x (snd cur)).
  - right. destruct (IH (i, x) (S i)) as [-> | [Hp Hv]]; cbn [fst snd length].
    + rewrite Nat.sub_diag. split; [lia | reflexivity].
    + split; [lia|]. replace (fst (max_from (i, x) (S i) t) - i)
        with (S (fst (max_from (i, x) (S i) t) - S i)) by lia. exact Hv.
  - destruct (IH cur (S i)) as [-> | [Hp Hv]]; [now left|]. right.
    cbn [length]. split; [lia|].
    replace (fst (max_from cur (S i) t) - i)
      with (S (fst (max_from cur (S i) t) - S i)) by lia. exact Hv.
Qed.

Lemma py_max_valid (l : list float) :
  l <> [] ->
  exists o, py_max l = Ok o /\ fst o < length l /\ l !! fst o = Some (snd o).
Proof.
  destruct l as [|x t]; [congruence|]. intros _. eexists. split; [reflexivity|].
  destruct (max_from_valid t (0, x) 1) as [-> | [Hp Hv]]; cbn [fst snd length].
  - split; [lia | reflexivity].
  - split; [lia|].
    replace (fst (max_from (0, x) 1 t)) with (S (fst (max_from (0, x) 1 t) - 1)) at 1 by lia.
    exact Hv.
Qed.

(** [index] finds an object of the list, at its position or before. *)
Lemma index_from_found (l : list float) : forall (i : nat) (o : obj),
  i <= fst o < i + length l ->
  exists k, index_from i o l = Ok k /\ i <= k <= fst o.
Proof.
  induction l as [|x t IH]; intros i o Hp; cbn [length] in Hp; [lia|].
  cbn [index_from]. destruct (Nat.eqb_spec i (fst o)) as [E|E]; cbn [orb].
  - exists i. split; [reflexivity | lia].
  - destruct (eq x (snd o)).
    + exists i. split; [reflexivity | lia].
    + destruct (IH (S i) o) as (k & Hk & Hle); [lia|]. exists k. split; [exact Hk | lia].
Qed.

(** The selection never raises on non-empty lists, and its index is in
    range for the list it was taken from. *)
Lemma select_candidate_total (major minor : list float) :
  major <> [] -> minor <> [] ->
  exists k, select_candidate major minor = Ok k /\
    ((snd k = "major"%string /\ fst k < length major) \/
     (snd k = "minor"%string /\ fst k < length minor)).
Proof.
  intros HM Hm. unfold select_candidate.
  destruct (py_max_valid major HM) as (oM & -> & HpM & _).
  destruct (py_max_valid minor Hm) as (om & -> & Hpm & _).
  destruct (gt (snd oM) (snd om)).
  - destruct (index_from_found major 0 oM) as (k & Hk & Hle); [lia|].
    unfold py_index. rewrite Hk. exists (k, "major"%string). split; [reflexivity|].
    left. cbn. split; [reflexivity | lia].
  - destruct (index_from_found minor 0 om) as (k & Hk & Hle); [lia|].
    unfold py_index. rewrite Hk. exists (k, "minor"%string). split; [reflexivity|].
    right. cbn. split; [reflexivity | lia].
Qed.

(** On numbers, [max] is an upper bound, and it is the first item that
    attains it: every earlier item is strictly smaller. *)
Lemma max_from_numbers (l : list float) : forall (cur : obj) (i : nat),
  Forall number l -> number (snd cur) ->
  let o := max_from cur i l in
  number (snd o) /\ ge (snd o) (snd cur) = true /\
  Forall (fun x => ge (snd o) x = true) l /\
  (o = cur \/
   (i <= fst o /\ gt (snd o) (snd cur) = true /\
    forall j x, j < fst o - i -> l !! j = Some x -> gt (snd o) x = true)).
Proof.
  induction l as [|x t IH]; intros cur i Hl Hc; cbn [max_from].
  - repeat split; [exact Hc | now apply ge_refl | constructor | now left].
  - apply Forall_cons in Hl as [Hx Ht].
    destruct (gt x (snd cur)) eqn:G.
    + destruct (IH (i, x) (S i) Ht Hx) as (Ho & Hge & Hall & Hfirst).
      cbn [snd] in Hge.
      set (o := max_from (i, x) (S i) t) in *.
      assert (Gc : gt (snd o) (snd cur) = true)
        by (apply (ge_gt_trans _ x); assumption).
      repeat split; [exact Ho | now apply gt_ge | | ].
      * constructor; [exact Hge | exact Hall].
      * right. destruct Hfirst as [E | (Hi & Hgt & Hj)].
        -- rewrite E. cbn [fst snd]. rewrite E in Gc. cbn [snd] in Gc.
           repeat split; [lia | exact Gc | intros j y Hlt; lia].
        -- cbn [snd] in Hgt. repeat split; [lia | exact Gc |].
           intros [|j] y Hlt Hy; cbn in Hy.
           ++ now inversion Hy; subst.
           ++ apply (Hj j); [lia | exact Hy].
    + destruct (IH cur (S i) Ht Hc) as (Ho & Hge & Hall & Hfirst).
      set (o := max_from cur (S i) t) in *.
      assert (Gx : ge (snd cur) x = true) by (now apply not_gt_ge).
      repeat split; [exact Ho | exact Hge | | ].
      * constructor; [|exact Hall]. apply (ge_trans _ (snd cur)); assumption.
      * destruct Hfirst as [E | (Hi & Hgt & Hj)]; [now left|]. right.
        repeat split; [lia | exact Hgt |].
        intros [|j] y Hlt Hy; cbn in Hy.
        -- inversion Hy; subst. apply (gt_ge_trans _ (snd cur)); assumption.
        -- apply (Hj j); [lia | exact Hy].
Qed.

Lemma py_max_numbers (l : list float) :
  l <> [] -> Forall number l ->
  exists o, py_max l = Ok o /\ number (snd o) /\
    l !! fst o = Some (snd o) /\
    Forall (fun x => ge (snd o) x = true) l /\
    forall j x, j < fst o -> l !! j = Some x -> gt (snd o) x = true.
Proof.
  destruct l as [|x t]; [congruence|]. intros _ [Hx Ht]%Forall_cons.
  exists (max_from (0, x) 1 t). split; [reflexivity|].
  destruct (py_max_valid (x :: t)) as (o' & E & _ & Hv); [congruence|].
  cbn [py_max] in E. injection E as <-.
  destruct (max_from_numbers t (0, x) 1 Ht Hx) as (Ho & Hge & Hall & Hfirst).
  cbn [snd] in Hge.
  repeat split; [exact Ho | exact Hv | constructor; assumption |].
  destruct Hfirst as [E | (Hi & Hgt & Hj)].
  - rewrite E. cbn [fst]. intros j y Hlt. lia.
  - cbn [snd] in Hgt. intros [|j] y Hlt Hy; cbn in Hy.
    + now inversion Hy; subst.
    + apply (Hj j); [lia | exact Hy].
Qed.

(** When every earlier item differs from the object, [index] is its
    position. *)
Lemma index_from_first (l : list float) : forall (i : nat) (o : obj),
  i <= fst o < i + length l ->
  (forall j x, j < fst o - i -> l !! j = Some x -> eq x (snd o) = false) ->
  index_from i o l = Ok (fst o).
Proof.
  induction l as [|x t IH]; intros i o Hp Hne; cbn [length] in Hp; [lia|].
  cbn [index_from]. destruct (Nat.eqb_spec i (fst o)) as [E|E]; cbn [orb].
  - now rewrite E.
  - rewrite (Hne 0 x); [|lia|reflexivity].
    apply IH; [lia|]. intros j y Hlt Hy. apply (Hne (S j)); [lia | exact Hy].
Qed.

Lemma py_index_of_max (l : list float) (o : obj) :
  l !! fst o = Some (snd o) ->
  (forall j x, j < fst o -> l !! j = Some x -> gt (snd o) x = true) ->
  py_index l o = Ok (fst o).
Proof.
  intros Hv Hfirst. apply index_from_first.
  - apply lookup_lt_Some in Hv. lia.
  - intros j x Hlt Hx. apply gt_not_eq. apply (Hfirst j); [lia | exact Hx].
Qed.

(** On numbers the selection is: major when its best score is strictly
    above the best minor score, minor otherwise; in either mode the first
    position that attains the best score. *)
Lemma select_candidate_numbers (major minor : list float) :
  major <> [] -> minor <> [] -> Forall number major -> Forall number minor ->
  exists oM om : obj,
    (number (snd oM) /\ major !! fst oM = Some (snd oM) /\
     Forall (fun x => ge (snd oM) x = true) major /\
     forall j x, j < fst oM -> major !! j = Some x -> gt (snd oM) x = true) /\
    (number (snd om) /\ minor !! fst om = Some (snd om) /\
     Forall (fun x => ge (snd om) x = true) minor /\
     forall j x, j < fst om -> minor !! j = Some x -> gt (snd om) x = true) /\
    select_candidate major minor =
      Ok (if gt (snd oM) (snd om) then (fst oM, "major"%string)
          else (fst om, "minor"%string)).
Proof.
  intros HM Hm NM Nm.
  destruct (py_max_numbers major HM NM) as (oM & EM & HnM & HvM & HaM & HfM).
  destruct (py_max_numbers minor Hm Nm) as (om & Em & Hnm & Hvm & Ham & Hfm).
  exists oM, om. split; [auto|]. split; [auto|].
  unfold select_candidate. rewrite EM, Em.
  destruct (gt (snd oM) (snd om)).
  - now rewrite (py_index_of_max major oM HvM HfM).
  - now rewrite (py_index_of_max minor om Hvm Hfm).
Qed.

End Selection.

(* ===================================================================== *)
(** ** What [_analyze_audio] returns *)
(* ===================================================================== *)

Module KeyEstimation.

Import Estimator.
Import PyFloat.
Import Selection.

(** The two zeros are the only values that compare equal to [0.0]. *)
Lemma zero_cases (x : float) :
  eq x 0%float = true -> x = PrimFloat.zero \/ x = PrimFloat.neg_zero.
Proof.
  unfold eq. rewrite FloatAxioms.eqb_spec. intros H.
  rewrite <- (SF2Prim_Prim2SF x).
  change (Prim2SF 0%float) with (S754_zero false) in H.
  destruct (Prim2SF x) as [[|]|[|]| |[|] m e]; try discriminate H.
  - now right.
  - now left.
Qed.

(** There is one NaN. *)
Lemma nan_unique (x : float) : isnan x = true -> x = PrimFloat.nan.
Proof.
  intros H%nan_spec. rewrite <- (SF2Prim_Prim2SF x), H. reflexivity.
Qed.

Lemma fold_add_zeros (l : list float) : forall acc : float,
  acc = PrimFloat.zero \/ acc = PrimFloat.neg_zero ->
  Forall (fun v => eq v 0%float = true) l ->
  fold_left PrimFloat.add l acc = PrimFloat.zero \/
  fold_left PrimFloat.add l acc = PrimFloat.neg_zero.
Proof.
  induction l as [|x t IH]; intros acc Ha Hl; [exact Ha|].
  apply Forall_cons in Hl as [Hx%zero_cases Ht]. cbn [fold_left].
  apply IH; [|exact Ht].
  destruct Ha as [-> | ->], Hx as [-> | ->]; vm_compute; auto.
Qed.

(** Silence: every bin divided by the zero sum is NaN. *)
Lemma normalize_silent (chroma_means : list float) :
  Forall (fun v => eq v 0%float = true) chroma_means ->
  normalize chroma_means = repeat PrimFloat.nan (length chroma_means).
Proof.
  intros Hz. unfold normalize.
  assert (Hs : np_sum chroma_means = PrimFloat.zero \/
               np_sum chroma_means = PrimFloat.neg_zero)
    by (apply fold_add_zeros; [now left | exact Hz]).
  generalize dependent (np_sum chroma_means). intros s Hs.
  induction Hz as [|x t Hx%zero_cases Ht IH]; [reflexivity|].
  cbn [map length repeat]. f_equal; [|exact IH].
  destruct Hs as [-> | ->], Hx as [-> | ->]; reflexivity.
Qed.

Lemma np_roll_nan12 (r : nat) :
  r < 12 -> np_roll (repeat PrimFloat.nan 12) r = repeat PrimFloat.nan 12.
Proof.
  intros Hr. do 12 (destruct r as [|r]; [reflexivity|]). lia.
Qed.

Lemma key_name_in_range (k : nat) (mode : string) :
  k < 12 ->
  exists name, PITCH_CLASSES !! k = Some name /\
    key_name (k, mode) = Ok (String.append name (String.append " " mode)).
Proof.
  intros Hk. unfold key_name. cbn [fst snd].
  destruct (PITCH_CLASSES !! k) as [name|] eqn:E.
  - now exists name.
  - apply lookup_ge_None in E. cbn in E. lia.
Qed.

Lemma key_name_not_Unknown (k : nat) (mode s : string) :
  mode = "major"%string \/ mode = "minor"%string ->
  key_name (k, mode) = Ok s -> s <> "Unknown"%string.
Proof.
  intros Hm. unfold key_name. cbn [fst snd].
  do 12 (destruct k as [|k];
         [destruct Hm as [-> | ->]; cbn; intros [= <-]; discriminate|]).
  cbn. discriminate.
Qed.

Section WithCorrcoef.

Variable corrcoef : list float -> list float -> float.

Lemma correlations_length (profile c : list float) :
  length (correlations corrcoef profile c) = 12.
Proof. reflexivity. Qed.

Lemma correlations_lookup (profile c : list float) (r : nat) :
  r < 12 ->
  correlations corrcoef profile c !! r = Some (corrcoef profile (np_roll c r)).
Proof.
  intros Hr. unfold correlations. rewrite list_lookup_fmap.
  rewrite lookup_seq_lt by exact Hr. reflexivity.
Qed.

Lemma correlations_nonempty (profile c : list float) :
  correlations corrcoef profile c <> [].
Proof. discriminate. Qed.

(** No window makes the estimator raise, and none gives ["Unknown"]:
    the result is always a pitch class followed by a mode. *)
Lemma analyze_chroma_total (chroma_means : list float) :
  exists k name mode,
    k < 12 /\ PITCH_CLASSES !! k = Some name /\
    (mode = "major"%string \/ mode = "minor"%string) /\
    analyze_chroma corrcoef chroma_means
      = Ok (String.append name (String.append " " mode)) /\
    analyze_chroma corrcoef chroma_means <> Ok "Unknown"%string.
Proof.
  unfold analyze_chroma.
  set (c := normalize chroma_means).
  destruct (select_candidate_total
              (correlations corrcoef MAJOR_PROFILE c)
              (correlations corrcoef MINOR_PROFILE c))
    as ([k mode] & -> & Hk); [apply correlations_nonempty..|].
  cbn [fst snd] in Hk. rewrite !correlations_length in Hk.
  assert (Hk12 : k < 12) by (destruct Hk as [[_ ?]|[_ ?]]; assumption).
  assert (Hm : mode = "major"%string \/ mode = "minor"%string)
    by (destruct Hk as [[? _]|[? _]]; auto).
  destruct (key_name_in_range k mode Hk12) as (name & Hn & Hkn).
  exists k, name, mode. repeat split; try assumption.
  intros E. apply (key_name_not_Unknown k mode _ Hm E). reflexivity.
Qed.

(** C1 (amended).  A silent window, whose twelve averaged chroma bins
    are all zero, is divided by its zero sum without any test: every
    bin becomes NaN.  Nothing is raised, and once the correlations of
    the NaN vector are NaN the estimator answers ["C minor"], never
    ["Unknown"]. *)
Theorem silent_window_is_C_minor (chroma_means : list float) :
  length chroma_means = 12 ->
  Forall (fun v => eq v 0%float = true) chroma_means ->
  isnan (corrcoef MAJOR_PROFILE (repeat PrimFloat.nan 12)) = true ->
  isnan (corrcoef MINOR_PROFILE (repeat PrimFloat.nan 12)) = true ->
  normalize chroma_means = repeat PrimFloat.nan 12 /\
  analyze_chroma corrcoef chroma_means = Ok "C minor"%string /\
  analyze_chroma corrcoef chroma_means <> Ok "Unknown"%string.
Proof.
  intros Hlen Hz HM%nan_unique Hm%nan_unique.
  assert (Hn : normalize chroma_means = repeat PrimFloat.nan 12)
    by (rewrite <- Hlen; now apply normalize_silent).
  assert (E : analyze_chroma corrcoef chroma_means = Ok "C minor"%string).
  { unfold analyze_chroma. rewrite Hn.
    assert (C : forall p, corrcoef p (repeat PrimFloat.nan 12) = PrimFloat.nan ->
              correlations corrcoef p (repeat PrimFloat.nan 12)
              = repeat PrimFloat.nan 12).
    { intros p Hp. unfold correlations. cbn [seq map].
      rewrite !np_roll_nan12 by lia. rewrite Hp. reflexivity. }
    rewrite (C _ HM), (C _ Hm). reflexivity. }
  rewrite E. repeat split; [exact Hn | discriminate].
Qed.

(** C3 (amended).  The estimator scores the twelve rotations of the
    normalized chroma vector against the major and against the minor
    profile: 24 candidates.  When these 24 correlations are numbers
    (none is NaN), the candidate it returns has a correlation greater
    than or equal to that of every candidate. *)
Theorem selected_candidate_is_maximal (chroma_means : list float) :
  let c := normalize chroma_means in
  let major := correlations corrcoef MAJOR_PROFILE c in
  let minor := correlations corrcoef MINOR_PROFILE c in
  Forall number major -> Forall number minor ->
  (length major = 12 /\ length minor = 12 /\
   forall r, r < 12 ->
     major !! r = Some (corrcoef MAJOR_PROFILE (np_roll c r)) /\
     minor !! r = Some (corrcoef MINOR_PROFILE (np_roll c r))) /\
  exists k,
    select_candidate major minor = Ok k /\ fst k < 12 /\
    analyze_chroma corrcoef chroma_means = key_name k /\
    Forall (fun x => ge (score major minor k) x = true) (major ++ minor).
Proof.
  intros c major minor NM Nm. split.
  { repeat split; try reflexivity; now apply correlations_lookup. }
  destruct (select_candidate_numbers major minor) as
    (oM & om & (HnM & HvM & HaM & _) & (Hnm & Hvm & Ham & _) & E);
    try apply correlations_nonempty; try assumption.
  eexists. split; [exact E|].
  assert (An : analyze_chroma corrcoef chroma_means
               = key_name (if gt (snd oM) (snd om)
                           then (fst oM, "major"%string)
                           else (fst om, "minor"%string))).
  { unfold analyze_chroma. fold c. fold major. fold minor. now rewrite E. }
  destruct (gt (snd oM) (snd om)) eqn:G.
  - split; [apply lookup_lt_Some in HvM; exact HvM|]. split; [exact An|].
    unfold score. cbn [fst snd String.eqb Ascii.eqb Bool.eqb].
    rewrite nth_lookup, HvM. cbn [default from_option].
    apply Forall_app. split; [exact HaM|].
    rewrite Forall_forall in Ham, Nm |- *. intros x Hx.
    apply (ge_trans _ (snd om)); auto using gt_ge.
  - split; [apply lookup_lt_Some in Hvm; exact Hvm|]. split; [exact An|].
    unfold score. cbn [fst snd String.eqb Ascii.eqb Bool.eqb].
    rewrite nth_lookup, Hvm. cbn [default from_option].
    apply Forall_app. split; [|exact Ham].
    rewrite Forall_forall in HaM, NM |- *. intros x Hx.
    apply (ge_trans _ (snd oM)); auto using not_gt_ge.
Qed.


End WithCorrcoef.

(** *** The estimator on concrete windows, with the reference [corrcoef] *)

Example c_major_profile_window :
  analyze_chroma pearson MAJOR_PROFILE = Ok "C major"%string.
Proof. vm_compute. reflexivity. Qed.

(** The winning rotation [r] is the one that brings the window back onto
    the profile, and it is named [PITCH_CLASSES[r]]: the minor profile
    moved up by nine bins is matched by rotation 3. *)
Example shifted_minor_profile_window :
  analyze_chroma pearson (np_roll MINOR_PROFILE 9) = Ok "D# minor"%string.
Proof. vm_compute. reflexivity. Qed.

(** C1, counterexample.  The all-zero window sums to zero, and the
    estimator returns ["C minor"] for it, not ["Unknown"]. *)
Lemma silent_window_not_Unknown :
  let silent := repeat 0%float 12 in
  eq (np_sum silent) 0%float = true /\
  analyze_chroma pearson silent = Ok "C minor"%string /\
  analyze_chroma pearson silent <> Ok "Unknown"%string.
Proof.
  cbv zeta. split; [vm_compute; reflexivity|].
  assert (E : analyze_chroma pearson (repeat 0%float 12) = Ok "C minor"%string)
    by (vm_compute; reflexivity).
  rewrite E. split; [reflexivity | discriminate].
Qed.

Lemma silent_window_is_C_minor_witness :
  (length (repeat 0%float 12) = 12 /\
   Forall (fun v => eq v 0%float = true) (repeat 0%float 12) /\
   isnan (pearson MAJOR_PROFILE (repeat PrimFloat.nan 12)) = true /\
   isnan (pearson MINOR_PROFILE (repeat PrimFloat.nan 12)) = true) /\
  (normalize (repeat 0%float 12) = repeat PrimFloat.nan 12 /\
   analyze_chroma pearson (repeat 0%float 12) = Ok "C minor"%string /\
   analyze_chroma pearson (repeat 0%float 12) <> Ok "Unknown"%string).
Proof.
  assert (Hz : Forall (fun v => eq v 0%float = true) (repeat 0%float 12))
    by (repeat constructor).
  assert (HM : isnan (pearson MAJOR_PROFILE (repeat PrimFloat.nan 12)) = true)
    by (vm_compute; reflexivity).
  assert (Hm : isnan (pearson MINOR_PROFILE (repeat PrimFloat.nan 12)) = true)
    by (vm_compute; reflexivity).
  split; [repeat split; assumption|].
  exact (silent_window_is_C_minor pearson (repeat 0%float 12)
           (Logic.eq_refl 12) Hz HM Hm).
Defined.

(** C3, counterexample.  A window with the same energy in all twelve
    bins is not silent, yet every one of its 24 correlations is NaN (the
    vector has no variance): the estimator returns C minor, whose
    correlation is not greater than or equal to any candidate's. *)
Lemma constant_window_not_maximal :
  let chroma_means := repeat 1%float 12 in
  let c := normalize chroma_means in
  let major := correlations pearson MAJOR_PROFILE c in
  let minor := correlations pearson MINOR_PROFILE c in
  eq (np_sum chroma_means) 0%float = false /\
  select_candidate major minor = Ok (0, "minor"%string) /\
  analyze_chroma pearson chroma_means = Ok "C minor"%string /\
  Forall (fun x => ge (score major minor (0, "minor"%string)) x = false)
         (major ++ minor).
Proof.
  cbv zeta. split; [vm_compute; reflexivity|].
  split; [vm_compute; reflexivity|]. split; [vm_compute; reflexivity|].
  repeat (constructor; [vm_compute; reflexivity|]). constructor.
Qed.

Lemma selected_candidate_is_maximal_witness :
  let c := normalize MAJOR_PROFILE in
  let major := correlations pearson MAJOR_PROFILE c in
  let minor := correlations pearson MINOR_PROFILE c in
  (Forall number major /\ Forall number minor) /\
  exists k,
    select_candidate major minor = Ok k /\ fst k < 12 /\
    analyze_chroma pearson MAJOR_PROFILE = key_name k /\
    Forall (fun x => ge (score major minor k) x = true) (major ++ minor).
Proof.
  cbv zeta.
  assert (NM : Forall number (correlations pearson MAJOR_PROFILE
                                (normalize MAJOR_PROFILE)))
    by (repeat (constructor; [vm_compute; reflexivity|]); constructor).
  assert (Nm : Forall number (correlations pearson MINOR_PROFILE
                                (normalize MAJOR_PROFILE)))
    by (repeat (constructor; [vm_compute; reflexivity|]); constructor).
  split; [split; assumption|].
  exact (proj2 (selected_candidate_is_maximal pearson MAJOR_PROFILE NM Nm)).
Defined.



End KeyEstimation.


(* ===================================================================== *)
(** ** Sequencing calls that may raise *)
(* ===================================================================== *)

Definition bind {A B : Type} (r : result A) (f : A -> result B) : result B :=
match r with
| Ok a => f a
| Raise e => Raise e
end.

Notation "'let*' x ':=' r 'in' k" := (bind r (fun x => k))
  (at level 10, x pattern, r at level 100, k at level 200).

(** A block of samples: a numpy array, flattened. *)
Definition block : Type := list float.

(* ===================================================================== *)
(** ** [queue.Queue] *)
(* ===================================================================== *)

Module PyQueue.

Section Queue.

Context {A : Type}.

(** [maxsize <= 0] means no capacity: the queue is unbounded. *)
Record Queue : Type := mkQueue { maxsize : Z; items : list A }.

(** [queue.Queue(maxsize=0)]; the sources call it without an argument. *)
Definition new (maxsize : Z) : Queue := mkQueue maxsize [].

Definition qsize (q : Queue) : nat := length (items q).

(** [0 < self.maxsize <= self._qsize()] *)
Definition full (q : Queue) : bool :=
  (0 <? maxsize q)%Z && (maxsize q <=? Z.of_nat (qsize q))%Z.

(** [put(item)], blocking and without a timeout as the sources call it:
    it waits while the queue is full, and appends otherwise. *)
Inductive put_outcome : Type :=
| Enqueued (q : Queue)
| Waits.

Definition put (x : A) (q : Queue) : put_outcome :=
  if full q then Waits else Enqueued (mkQueue (maxsize q) (items q ++ [x])).

(** [get_nowait()], and [get(timeout=...)] at its deadline: the oldest
    item, or [None] for the exception [queue.Empty]. *)
Definition get_nowait (q : Queue) : option (A * Queue) :=
  match items q with
  | [] => None
  | x :: rest => Some (x, mkQueue (maxsize q) rest)
  end.

Definition get (q : Queue) : option (A * Queue) := get_nowait q.

Lemma put_unbounded (x : A) (q : Queue) :
  (maxsize q <= 0)%Z -> put x q = Enqueued (mkQueue (maxsize q) (items q ++ [x])).
Proof.
  intros H. unfold put, full. destruct (Z.ltb_spec 0 (maxsize q)); [lia|reflexivity].
Qed.

End Queue.

Arguments Queue A : clear implicits.

End PyQueue.

(* ===================================================================== *)
(** ** The hosted plugin: what [VSTStreamSource] asks of [self.plugin] *)
(* ===================================================================== *)

(** The object [vst3.Host().load_plugin(path)] returns.  The sources use
    it through these methods only; [tests/mock_vst.py] provides the
    implementation the tests run against. *)
Class Plugin (P : Type) : Type := {
  plugin_setup : Z -> Z -> Z -> Z -> P -> P;
  plugin_start : P -> P;
  plugin_stop : P -> P;
  plugin_resume : P -> P;
  plugin_suspend : P -> P;
  plugin_get_parameters : P -> gmap string float;
  plugin_set_parameter : string -> float -> P -> result P;
  plugin_process : block -> P -> result (block * P);
}.

(* ===================================================================== *)
(** ** [tests/mock_vst.py]: class [MockVST] *)
(* ===================================================================== *)

Module MockVST.

Record t : Type := mk {
  _parameters : gmap string float;
  _running : bool;
  _sample_rate : Z;
  _block_size : Z;
}.

Definition init : t :=
  mk (<["gain"%string := 1.0%float]>
        (<["mix"%string := 0.5%float]>
           (<["bypass"%string := 0.0%float]> ∅)))
     false 44100 2048.

Definition setup (sample_rate block_size num_in num_out : Z) (p : t) : t :=
  mk (_parameters p) (_running p) sample_rate block_size.

Definition start (p : t) : t :=
  mk (_parameters p) true (_sample_rate p) (_block_size p).

Definition stop (p : t) : t :=
  mk (_parameters p) false (_sample_rate p) (_block_size p).

Definition resume (p : t) : t := start p.

Definition suspend (p : t) : t := stop p.

(** [return self._parameters.copy()] *)
Definition get_parameters (p : t) : gmap string float := _parameters p.

(** [0.0 <= value <= 1.0] *)
Definition in_unit_range (value : float) : bool :=
  PrimFloat.leb 0.0%float value && PrimFloat.leb value 1.0%float.

Definition set_parameter (param_id : string) (value : float) (p : t) : result t :=
  match _parameters p !! param_id with
  | None => Raise KeyError
  | Some _ =>
      if negb (in_unit_range value) then Raise ValueError
      else Ok (mk (<[param_id := value]> (_parameters p))
                  (_running p) (_sample_rate p) (_block_size p))
  end.

(** [self._parameters[k]] *)
Definition getitem (p : t) (k : string) : result float :=
  match _parameters p !! k with
  | None => Raise KeyError
  | Some v => Ok v
  end.

Definition process (input_data : block) (p : t) : result (block * t) :=
  if negb (_running p) then Ok (input_data, p)
  else
    let* bypass := getitem p "bypass" in
    if PyFloat.gt bypass 0.5%float then Ok (input_data, p)
    else
      let* gain := getitem p "gain" in
      let output := map (fun v => PrimFloat.mul v gain) input_data in
      let* mix := getitem p "mix" in
      Ok (zip_with PrimFloat.add
            (map (fun v => PrimFloat.mul v mix) output)
            (map (fun v => PrimFloat.mul v (PrimFloat.sub 1%float mix)) input_data),
          p).

#[global] Instance plugin : Plugin t := {
  plugin_setup := setup;
  plugin_start := start;
  plugin_stop := stop;
  plugin_resume := resume;
  plugin_suspend := suspend;
  plugin_get_parameters := get_parameters;
  plugin_set_parameter := set_parameter;
  plugin_process := process;
}.

End MockVST.

(* ===================================================================== *)
(** ** [src/vst_stream.py]: class [VSTStreamSource] *)
(* ===================================================================== *)

Module VSTStreamSource.

Section WithPlugin.

Context {P : Type} `{Plugin P}.

Record t : Type := mk {
  sample_rate : Z;
  block_size : Z;
  audio_queue : PyQueue.Queue block;
  _streaming : bool;
  plugin : P;
}.

(** [__init__].  [path_exists] is [Path(plugin_path).exists()] and
    [loaded] what [vst3.Host().load_plugin] gives for the path. *)
Definition init (path_exists : bool) (loaded : result P)
  (sample_rate block_size : Z) : result t :=
  if negb path_exists then Raise FileNotFoundError
  else
    match loaded with
    | Raise _ => Raise RuntimeError
    | Ok p =>
        Ok (mk sample_rate block_size (PyQueue.new 0) false
               (plugin_start (plugin_setup sample_rate block_size 2 2 p)))
    end.

Definition start_stream (s : t) : t :=
  if _streaming s then s
  else mk (sample_rate s) (block_size s) (audio_queue s) true
          (plugin_resume (plugin s)).

Definition stop_stream (s : t) : t :=
  if negb (_streaming s) then s
  else mk (sample_rate s) (block_size s) (audio_queue s) false
          (plugin_suspend (plugin s)).

Definition process_block (input_data : block) (s : t) : result (block * t) :=
  if negb (_streaming s) then Ok (input_data, s)
  else
    let* (output_data, p) := plugin_process input_data (plugin s) in
    match PyQueue.put output_data (audio_queue s) with
    | PyQueue.Waits => Raise Blocked
    | PyQueue.Enqueued q =>
        Ok (output_data, mk (sample_rate s) (block_size s) q (_streaming s) p)
    end.

Definition get_plugin_parameters (s : t) : gmap string float :=
  plugin_get_parameters (plugin s).

Definition set_plugin_parameter (param_id : string) (value : float) (s : t)
  : result t :=
  let* p := plugin_set_parameter param_id value (plugin s) in
  Ok (mk (sample_rate s) (block_size s) (audio_queue s) (_streaming s) p).

End WithPlugin.

Arguments t P : clear implicits.

End VSTStreamSource.

(* ===================================================================== *)
(** ** [src/vst_chain.py]: class [VSTPluginChain] *)
(* ===================================================================== *)

Module VSTPluginChain.

(** The calls the chain makes on its members, by position in the chain. *)
Inductive call : Type :=
| MemberStart (i : nat)    (* [plugins[i].start_stream()] *)
| MemberStop (i : nat).    (* [plugins[i].stop_stream()] *)

Section WithPlugin.

Context {P : Type} `{Plugin P}.

Record t : Type := mk {
  sample_rate : Z;
  block_size : Z;
  plugins : list (VSTStreamSource.t P);
  _streaming : bool;
}.

Definition init (sample_rate block_size : Z) : t :=
  mk sample_rate block_size [] false.

(** [for param_id, value in parameters.items(): plugin.set_plugin_parameter(...)] *)
Fixpoint set_parameters (parameters : list (string * float))
  (plugin : VSTStreamSource.t P) : result (VSTStreamSource.t P) :=
  match parameters with
  | [] => Ok plugin
  | (param_id, value) :: rest =>
      let* plugin := VSTStreamSource.set_plugin_parameter param_id value plugin in
      set_parameters rest plugin
  end.

(** [add_plugin]; [path_exists] and [loaded] as in [VSTStreamSource.init]. *)
Definition add_plugin (path_exists : bool) (loaded : result P)
  (parameters : list (string * float)) (c : t) : result (nat * t) :=
  let* plugin := VSTStreamSource.init path_exists loaded (sample_rate c) (block_size c) in
  let* plugin := set_parameters parameters plugin in
  let plugins := plugins c ++ [plugin] in
  Ok (length plugins - 1, mk (sample_rate c) (block_size c) plugins (_streaming c)).

(** [0 <= index < len(self.plugins)] *)
Definition in_range (index : Z) (c : t) : bool :=
  (0 <=? index)%Z && (index <? Z.of_nat (length (plugins c)))%Z.

(** [remove_plugin]: the member leaves the chain (and is stopped when the
    chain is streaming; it is no longer part of the chain's state). *)
Definition remove_plugin (index : Z) (c : t) : result t :=
  if negb (in_range index c) then Raise IndexError
  else Ok (mk (sample_rate c) (block_size c)
              (delete (Z.to_nat index) (plugins c)) (_streaming c)).

Definition get_plugin_parameters (index : Z) (c : t) : result (gmap string float) :=
  if negb (in_range index c) then Raise IndexError
  else
    match plugins c !! Z.to_nat index with
    | None => Raise IndexError
    | Some p => Ok (VSTStreamSource.get_plugin_parameters p)
    end.

Definition set_plugin_parameter (index : Z) (param_id : string) (value : float)
  (c : t) : result t :=
  if negb (in_range index c) then Raise IndexError
  else
    match plugins c !! Z.to_nat index with
    | None => Raise IndexError
    | Some p =>
        let* p := VSTStreamSource.set_plugin_parameter param_id value p in
        Ok (mk (sample_rate c) (block_size c)
               (<[Z.to_nat index := p]> (plugins c)) (_streaming c))
    end.

(** [for plugin in self.plugins: plugin.start_stream()], from position [i]. *)
Fixpoint start_members (i : nat) (ps : list (VSTStreamSource.t P))
  : list (VSTStreamSource.t P) * list call :=
  match ps with
  | [] => ([], [])
  | p :: rest =>
      let p := VSTStreamSource.start_stream p in
      let '(rest, calls) := start_members (S i) rest in
      (p :: rest, MemberStart i :: calls)
  end.

Definition start_stream (c : t) : t * list call :=
  if _streaming c then (c, [])
  else
    let '(ps, calls) := start_members 0 (plugins c) in
    (mk (sample_rate c) (block_size c) ps true, calls).

(** [for plugin in reversed(self.plugins): plugin.stop_stream()]: the
    members from the last position down; [ps] holds the members in
    reversed order, the first of them at position [i]. *)
Fixpoint stop_members (i : nat) (ps : list (VSTStreamSource.t P))
  : list (VSTStreamSource.t P) * list call :=
  match ps with
  | [] => ([], [])
  | p :: rest =>
      let p := VSTStreamSource.stop_stream p in
      let '(rest, calls) := stop_members (i - 1) rest in
      (p :: rest, MemberStop i :: calls)
  end.

Definition stop_stream (c : t) : t * list call :=
  if negb (_streaming c) then (c, [])
  else
    let '(ps, calls) := stop_members (length (plugins c) - 1) (rev (plugins c)) in
    (mk (sample_rate c) (block_size c) (rev ps) false, calls).

(** [for plugin in self.plugins: current_data = plugin.process_block(current_data)] *)
Fixpoint process_members (ps : list (VSTStreamSource.t P)) (current_data : block)
  : result (block * list (VSTStreamSource.t P)) :=
  match ps with
  | [] => Ok (current_data, [])
  | p :: rest =>
      let* (current_data, p) := VSTStreamSource.process_block current_data p in
      let* (current_data, rest) := process_members rest current_data in
      Ok (current_data, p :: rest)
  end.

Definition process_block (input_data : block) (c : t) : result (block * t) :=
  if negb (_streaming c) || bool_decide (plugins c = []) then Ok (input_data, c)
  else
    let* (current_data, ps) := process_members (plugins c) input_data in
    Ok (current_data, mk (sample_rate c) (block_size c) ps (_streaming c)).

(** The block a call returns, without the state it leaves. *)
Definition returned {S : Type} (r : result (block * S)) : result block :=
  let* (output, _) := r in Ok output.

(** The members applied one after the other, in chain order:
    [P_N(... P_1(x))]. *)
Fixpoint composed (ps : list (VSTStreamSource.t P)) (x : block) : result block :=
  match ps with
  | [] => Ok x
  | p :: rest =>
      let* y := returned (VSTStreamSource.process_block x p) in
      composed rest y
  end.

(** The chains the methods of the class can produce, from an empty chain
    on; the members are started and stopped through the chain only. *)
Inductive reachable : t -> Prop :=
| reach_init sr bs : reachable (init sr bs)
| reach_add c e l ps i c' :
    reachable c -> add_plugin e l ps c = Ok (i, c') -> reachable c'
| reach_remove c i c' :
    reachable c -> remove_plugin i c = Ok c' -> reachable c'
| reach_set c i k v c' :
    reachable c -> set_plugin_parameter i k v c = Ok c' -> reachable c'
| reach_start c :
    reachable c -> reachable (fst (start_stream c))
| reach_stop c :
    reachable c -> reachable (fst (stop_stream c))
| reach_process c x y c' :
    reachable c -> process_block x c = Ok (y, c') -> reachable c'.

(** While the chain is stopped, so is every member. *)
Definition members_follow (c : t) : Prop :=
  _streaming c = false ->
  Forall (fun p => VSTStreamSource._streaming p = false) (plugins c).

End WithPlugin.

Arguments t P : clear implicits.

End VSTPluginChain.

(* ===================================================================== *)
(** ** The plugin chain: order of processing, of start and of stop *)
(* ===================================================================== *)

Module ChainFacts.

Import VSTPluginChain.

Section WithPlugin.

Context {P : Type} `{Plugin P}.

Implicit Types (c : VSTPluginChain.t P) (p : VSTStreamSource.t P) (x y : block).

Lemma stopped_member_returns_input p x :
  VSTStreamSource._streaming p = false ->
  VSTStreamSource.process_block x p = Ok (x, p).
Proof. intros E. unfold VSTStreamSource.process_block. now rewrite E. Qed.

Lemma set_plugin_parameter_streaming p k v p' :
  VSTStreamSource.set_plugin_parameter k v p = Ok p' ->
  VSTStreamSource._streaming p' = VSTStreamSource._streaming p.
Proof.
  unfold VSTStreamSource.set_plugin_parameter.
  destruct (plugin_set_parameter k v (VSTStreamSource.plugin p)); cbn; [|discriminate].
  now intros [= <-].
Qed.

Lemma set_parameters_streaming l : forall p p',
  set_parameters l p = Ok p' ->
  VSTStreamSource._streaming p' = VSTStreamSource._streaming p.
Proof.
  induction l as [|[k v] l IH]; intros p p'; cbn [set_parameters].
  - now intros [= <-].
  - destruct (VSTStreamSource.set_plugin_parameter k v p) as [q|] eqn:E; cbn;
      [|discriminate].
    intros Hq. rewrite (IH _ _ Hq). now apply set_plugin_parameter_streaming in E.
Qed.

Lemma init_not_streaming e l sr bs p :
  VSTStreamSource.init e l sr bs = Ok p -> VSTStreamSource._streaming p = false.
Proof.
  unfold VSTStreamSource.init. destruct e; cbn; [|discriminate].
  destruct l; [|discriminate]. now intros [= <-].
Qed.

(** [add_plugin] appends the new member and returns its position. *)
Lemma add_plugin_appends e l ps c i c' :
  add_plugin e l ps c = Ok (i, c') ->
  exists p, plugins c' = plugins c ++ [p] /\ i = length (plugins c) /\
            VSTStreamSource._streaming p = false /\ _streaming c' = _streaming c.
Proof.
  unfold add_plugin.
  destruct (VSTStreamSource.init e l (sample_rate c) (block_size c)) as [q|] eqn:E;
    cbn; [|discriminate].
  destruct (set_parameters ps q) as [q'|] eqn:E'; cbn; [|discriminate].
  intros [= <- <-]. exists q'. cbn. rewrite length_app. cbn.
  repeat split; [lia|].
  rewrite (set_parameters_streaming _ _ _ E'). now apply init_not_streaming in E.
Qed.

Lemma start_members_spec (ps : list (VSTStreamSource.t P)) : forall i,
  start_members i ps =
    (map VSTStreamSource.start_stream ps, map MemberStart (seq i (length ps))).
Proof.
  induction ps as [|p rest IH]; intros i; cbn; [reflexivity|].
  now rewrite IH.
Qed.

Lemma stop_members_members (ps : list (VSTStreamSource.t P)) : forall i,
  fst (stop_members i ps) = map VSTStreamSource.stop_stream ps.
Proof.
  induction ps as [|p rest IH]; intros i; cbn; [reflexivity|].
  specialize (IH (i - 1)). destruct (stop_members (i - 1) rest). cbn in *.
  now rewrite IH.
Qed.

Lemma stop_members_calls (ps : list (VSTStreamSource.t P)) : forall i,
  length ps = S i ->
  snd (stop_members i ps) = map MemberStop (rev (seq 0 (S i))).
Proof.
  induction ps as [|p rest IH]; intros i Hlen; [discriminate|].
  cbn [stop_members]. injection Hlen as Hlen.
  rewrite seq_S, rev_app_distr. cbn [rev app map Nat.add].
  destruct (stop_members (i - 1) rest) as [ps' calls] eqn:E. cbn [snd]. f_equal.
  destruct i as [|j].
  - destruct rest; [|discriminate]. cbn in E. now injection E as <- <-.
  - replace (S j - 1) with j in E by lia.
    specialize (IH j Hlen). rewrite E in IH. exact IH.
Qed.

Lemma stop_stream_spec c :
  _streaming c = true ->
  stop_stream c =
    (mk (sample_rate c) (block_size c)
        (map VSTStreamSource.stop_stream (plugins c)) false,
     map MemberStop (rev (seq 0 (length (plugins c))))).
Proof.
  intros E. unfold stop_stream. rewrite E. cbn [negb].
  pose proof (stop_members_members (rev (plugins c)) (length (plugins c) - 1)) as Hm.
  destruct (plugins c) as [|p rest] eqn:Eps.
  - reflexivity.
  - pose proof (stop_members_calls (rev (p :: rest)) (length (p :: rest) - 1)) as Hc.
    destruct (stop_members (length (p :: rest) - 1) (rev (p :: rest))) as [ps calls].
    cbn [fst snd] in *. rewrite Hm, <- map_rev, rev_involutive.
    rewrite Hc by (rewrite length_rev; cbn; lia).
    replace (S (length (p :: rest) - 1)) with (length (p :: rest)) by (cbn; lia).
    reflexivity.
Qed.

Lemma start_stream_spec c :
  _streaming c = false ->
  start_stream c =
    (mk (sample_rate c) (block_size c)
        (map VSTStreamSource.start_stream (plugins c)) true,
     map MemberStart (seq 0 (length (plugins c)))).
Proof.
  intros E. unfold start_stream. rewrite E, start_members_spec. reflexivity.
Qed.

Lemma stop_stream_not_streaming c : _streaming (fst (stop_stream c)) = false.
Proof.
  destruct (_streaming c) eqn:E.
  - now rewrite stop_stream_spec.
  - unfold stop_stream. now rewrite E.
Qed.

Lemma stop_member_not_streaming p :
  VSTStreamSource._streaming (VSTStreamSource.stop_stream p) = false.
Proof.
  unfold VSTStreamSource.stop_stream.
  destruct (VSTStreamSource._streaming p) eqn:E; cbn; [reflexivity | exact E].
Qed.

(** The invariant of the chain. *)
Lemma reachable_members_follow c : reachable c -> members_follow c.
Proof.
  induction 1 as [sr bs | c e l ps i c' _ IH Hadd | c i c' _ IH Hrm
                 | c i k v c' _ IH Hset | c _ IH | c _ IH | c x y c' _ IH Hp];
    unfold members_follow in *.
  - intros _. constructor.
  - apply add_plugin_appends in Hadd as (p & -> & _ & Hp & ->). intros Hs.
    apply Forall_app. split; [now apply IH | now constructor].
  - unfold remove_plugin in Hrm. destruct (in_range i c); [|discriminate].
    injection Hrm as <-. cbn. intros Hs. now apply Forall_delete, IH.
  - unfold set_plugin_parameter in Hset. destruct (in_range i c); [|discriminate].
    cbn in Hset. destruct (plugins c !! Z.to_nat i) as [p|] eqn:Ep; [|discriminate].
    destruct (VSTStreamSource.set_plugin_parameter k v p) as [p'|] eqn:E;
      [|discriminate].
    injection Hset as <-. cbn. intros Hs. specialize (IH Hs).
    apply Forall_insert; [exact IH|].
    rewrite (set_plugin_parameter_streaming _ _ _ _ E).
    rewrite Forall_lookup in IH. now apply (IH _ _ Ep).
  - destruct (_streaming c) eqn:E.
    + unfold start_stream. rewrite E. cbn. congruence.
    + rewrite start_stream_spec by exact E. cbn. discriminate.
  - destruct (_streaming c) eqn:E.
    + rewrite stop_stream_spec by exact E. cbn. intros _.
      apply Forall_fmap, Forall_true. intros p. apply stop_member_not_streaming.
    + unfold stop_stream. rewrite E. cbn. intros _. now apply IH.
  - unfold process_block in Hp.
    destruct (negb (_streaming c) || bool_decide (plugins c = [])) eqn:G.
    + injection Hp as <- <-. exact IH.
    + destruct (process_members (plugins c) x) as [[d ps]|]; [|discriminate].
      injection Hp as <- <-. cbn. apply orb_false_iff in G as [G _].
      apply negb_false_iff in G. congruence.
Qed.

Lemma composed_stopped (ps : list (VSTStreamSource.t P)) x :
  Forall (fun p => VSTStreamSource._streaming p = false) ps -> composed ps x = Ok x.
Proof.
  induction 1 as [|p rest Hp _ IH]; cbn [composed]; [reflexivity|].
  rewrite (stopped_member_returns_input p x Hp). exact IH.
Qed.

Lemma process_members_composed (ps : list (VSTStreamSource.t P)) : forall x,
  returned (process_members ps x) = composed ps x.
Proof.
  induction ps as [|p rest IH]; intros x; cbn [process_members composed];
    [reflexivity|].
  destruct (VSTStreamSource.process_block x p) as [[y p']|e]; cbn; [|reflexivity].
  rewrite <- IH. destruct (process_members rest y) as [[z rest']|]; reflexivity.
Qed.

(** In every state the chain can be in, [process_block] returns what its
    members return when applied one after the other in chain order. *)
Lemma process_block_composed c x :
  members_follow c -> returned (process_block x c) = composed (plugins c) x.
Proof.
  intros Hinv. unfold process_block.
  destruct (_streaming c) eqn:E; cbn [negb orb].
  - case_bool_decide as Hps.
    + rewrite Hps. reflexivity.
    + rewrite <- process_members_composed.
      destruct (process_members (plugins c) x) as [[d ps]|]; reflexivity.
  - cbn. symmetry. now apply composed_stopped, Hinv.
Qed.

(** Members that keep the length of a block make a chain that does. *)
Lemma composed_length (ps : list (VSTStreamSource.t P)) :
  (forall b b' (q q' : P), plugin_process b q = Ok (b', q') -> length b' = length b) ->
  forall x y, composed ps x = Ok y -> length y = length x.
Proof.
  intros Hlen. induction ps as [|p rest IH]; intros x y; cbn [composed].
  - now intros [= <-].
  - unfold VSTStreamSource.process_block.
    destruct (VSTStreamSource._streaming p); cbn [negb].
    + destruct (plugin_process x (VSTStreamSource.plugin p)) as [[b q]|] eqn:E;
        cbn; [|discriminate].
      destruct (PyQueue.put b (VSTStreamSource.audio_queue p)); cbn; [|discriminate].
      intros Hy. rewrite (IH _ _ Hy). now apply Hlen in E.
    + cbn. apply IH.
Qed.

Lemma bind_Ok_r {A : Type} (r : result A) : (let* a := r in Ok a) = r.
Proof. now destruct r. Qed.

(** C6.  In every state a chain built with [add_plugin] can be in,
    [process_block] returns the composition of the members' [process_block]
    in the order they were added: for two members, [P2(P1(x))].  The block
    keeps its length when the hosted plugins keep it.  [start_stream] calls
    the members' [start_stream] from the first to the last, [stop_stream]
    their [stop_stream] from the last to the first. *)
Theorem chain_runs_members_in_add_order c x :
  reachable c ->
  returned (process_block x c) = composed (plugins c) x /\
  ((forall b b' (q q' : P), plugin_process b q = Ok (b', q') -> length b' = length b) ->
   forall y, returned (process_block x c) = Ok y -> length y = length x) /\
  (_streaming c = false ->
   snd (start_stream c) = map MemberStart (seq 0 (length (plugins c)))) /\
  (_streaming c = true ->
   snd (stop_stream c) = map MemberStop (rev (seq 0 (length (plugins c))))) /\
  (forall p1 p2, plugins c = [p1; p2] ->
     returned (process_block x c) =
       (let* y := returned (VSTStreamSource.process_block x p1) in
        returned (VSTStreamSource.process_block y p2)) /\
     (_streaming c = false -> snd (start_stream c) = [MemberStart 0; MemberStart 1]) /\
     (_streaming c = true -> snd (stop_stream c) = [MemberStop 1; MemberStop 0])).
Proof.
  intros Hr. pose proof (reachable_members_follow c Hr) as Hinv.
  pose proof (process_block_composed c x Hinv) as Hc.
  split; [exact Hc|]. split.
  { intros Hlen y Hy. rewrite Hc in Hy. now apply (composed_length _ Hlen) in Hy. }
  split; [intros E; now rewrite start_stream_spec|].
  split; [intros E; now rewrite stop_stream_spec|].
  intros p1 p2 Hps. split; [|split].
  - rewrite Hc, Hps. cbn [composed].
    destruct (returned (VSTStreamSource.process_block x p1)) as [y|]; cbn;
      [apply bind_Ok_r | reflexivity].
  - intros E. rewrite start_stream_spec, Hps by exact E. reflexivity.
  - intros E. rewrite stop_stream_spec, Hps by exact E. reflexivity.
Qed.

(** C10.  A chain that is not streaming (never started, or stopped) or
    that has no member returns its input unchanged and changes nothing;
    so does a processor that is not streaming, as every processor is
    before [start_stream]. *)
Theorem process_block_is_identity_when_stopped :
  (forall c x, _streaming c = false \/ plugins c = [] -> process_block x c = Ok (x, c)) /\
  (forall sr bs x, process_block x (init sr bs) = Ok (x, init sr bs)) /\
  (forall c x, process_block x (fst (stop_stream c)) = Ok (x, fst (stop_stream c))) /\
  (forall p x, VSTStreamSource._streaming p = false ->
     VSTStreamSource.process_block x p = Ok (x, p)) /\
  (forall e l sr bs p x, VSTStreamSource.init e l sr bs = Ok p ->
     VSTStreamSource.process_block x p = Ok (x, p)) /\
  (forall p x, VSTStreamSource.process_block x (VSTStreamSource.stop_stream p)
               = Ok (x, VSTStreamSource.stop_stream p)).
Proof.
  assert (Hc : forall c x, _streaming c = false \/ plugins c = [] ->
                 process_block x c = Ok (x, c)).
  { intros c x [E | E]; unfold process_block; rewrite E; [reflexivity|].
    rewrite bool_decide_eq_true_2 by reflexivity. now rewrite orb_true_r. }
  split; [exact Hc|]. split; [intros; apply Hc; now left|].
  split; [intros; apply Hc; left; apply stop_stream_not_streaming|].
  split; [apply stopped_member_returns_input|].
  split.
  - intros e l sr bs p x Hp. apply stopped_member_returns_input.
    now apply init_not_streaming in Hp.
  - intros p x. apply stopped_member_returns_input, stop_member_not_streaming.
Qed.

End WithPlugin.

End ChainFacts.

(* ===================================================================== *)
(** ** Parameters of a processor, with the plugin of the tests *)
(* ===================================================================== *)

Module ParameterFacts.

Import MockVST.

Implicit Types (s : VSTStreamSource.t MockVST.t) (c : VSTPluginChain.t MockVST.t).

(** A processor only passes the call on to its plugin. *)
Lemma set_plugin_parameter_delegates s name value :
  VSTStreamSource.set_plugin_parameter name value s =
    (let* p := set_parameter name value (VSTStreamSource.plugin s) in
     Ok (VSTStreamSource.mk (VSTStreamSource.sample_rate s)
           (VSTStreamSource.block_size s) (VSTStreamSource.audio_queue s)
           (VSTStreamSource._streaming s) p)).
Proof. reflexivity. Qed.



(** The plugin as the tests load it, hosted by a processor. *)
Definition mock_source : result (VSTStreamSource.t MockVST.t) :=
  VSTStreamSource.init true (Ok MockVST.init) 44100 2048.

(** [tests/test_vst.py], [test_vst_parameter_management]. *)
Example set_gain_then_get :
  (let* s := mock_source in
   let* s := VSTStreamSource.set_plugin_parameter "gain" 0.5%float s in
   Ok (VSTStreamSource.get_plugin_parameters s !! "gain"%string))
  = Ok (Some 0.5%float).
Proof. vm_compute. reflexivity. Qed.

Example set_invalid_param :
  (let* s := mock_source in
   VSTStreamSource.set_plugin_parameter "invalid_param" 0.5%float s)
  = Raise KeyError.
Proof. vm_compute. reflexivity. Qed.

Example set_gain_out_of_range :
  (let* s := mock_source in
   VSTStreamSource.set_plugin_parameter "gain" 1.5%float s)
  = Raise ValueError.
Proof. vm_compute. reflexivity. Qed.

(** An unknown name together with a value out of range: the name is
    checked first. *)
Example set_invalid_param_out_of_range :
  (let* s := mock_source in
   VSTStreamSource.set_plugin_parameter "invalid_param" 1.5%float s)
  = Raise KeyError.
Proof. vm_compute. reflexivity. Qed.

(** NaN is not in [0, 1]. *)
Example set_gain_nan :
  (let* s := mock_source in
   VSTStreamSource.set_plugin_parameter "gain" PrimFloat.nan s)
  = Raise ValueError.
Proof. vm_compute. reflexivity. Qed.

(** [tests/test_vst.py], [test_vst_audio_processing]: with gain 0.5 and
    mix 0.5 a sample comes out at three quarters. *)
Example process_with_half_gain :
  (let* s := mock_source in
   let s := VSTStreamSource.start_stream s in
   let* s := VSTStreamSource.set_plugin_parameter "gain" 0.5%float s in
   VSTPluginChain.returned (VSTStreamSource.process_block [1; 0.5; -1]%float s))
  = Ok [0.75; 0.375; -0.75]%float.
Proof. vm_compute. reflexivity. Qed.

End ParameterFacts.

(* ===================================================================== *)
(** ** A chain of two plugins of the tests *)
(* ===================================================================== *)

Module ChainExample.

Import VSTPluginChain.

(** The chain after [add_plugin(path)]: one plugin with its defaults. *)
Definition chain1 : VSTPluginChain.t MockVST.t :=
  match add_plugin true (Ok MockVST.init) [] (init 44100 2048) with
  | Ok (_, c) => c
  | Raise _ => init 44100 2048
  end.

(** ... and after [add_plugin(path, {"gain": 0.5})]. *)
Definition chain2 : VSTPluginChain.t MockVST.t :=
  match add_plugin true (Ok MockVST.init) [("gain"%string, 0.5%float)] chain1 with
  | Ok (_, c) => c
  | Raise _ => chain1
  end.

Definition started : VSTPluginChain.t MockVST.t := fst (start_stream chain2).

Lemma add_first :
  add_plugin true (Ok MockVST.init) [] (init 44100 2048) = Ok (0, chain1).
Proof. reflexivity. Qed.

Lemma add_second :
  add_plugin true (Ok MockVST.init) [("gain"%string, 0.5%float)] chain1
  = Ok (1, chain2).
Proof. vm_compute. reflexivity. Qed.

Lemma started_reachable : reachable started.
Proof.
  apply reach_start. eapply reach_add; [|exact add_second].
  eapply reach_add; [|exact add_first]. apply reach_init.
Defined.


(** Before [start_stream] the same chain changes nothing. *)
Example stopped_chain_output :
  process_block [1; 0.5; -1]%float chain2 = Ok ([1; 0.5; -1]%float, chain2).
Proof. reflexivity. Qed.

Example start_then_stop_calls :
  snd (start_stream chain2) = [MemberStart 0; MemberStart 1] /\
  snd (stop_stream started) = [MemberStop 1; MemberStop 0].
Proof. split; vm_compute; reflexivity. Qed.

Lemma chain_runs_members_in_add_order_witness :
  reachable started /\
  let c := started in
  let x := [1; 0.5; -1]%float in
  returned (process_block x c) = composed (plugins c) x /\
  ((forall b b' (q q' : MockVST.t),
      plugin_process b q = Ok (b', q') -> length b' = length b) ->
   forall y, returned (process_block x c) = Ok y -> length y = length x) /\
  (_streaming c = false ->
   snd (start_stream c) = map MemberStart (seq 0 (length (plugins c)))) /\
  (_streaming c = true ->
   snd (stop_stream c) = map MemberStop (rev (seq 0 (length (plugins c))))) /\
  (forall p1 p2, plugins c = [p1; p2] ->
     returned (process_block x c) =
       (let* y := returned (VSTStreamSource.process_block x p1) in
        returned (VSTStreamSource.process_block y p2)) /\
     (_streaming c = false -> snd (start_stream c) = [MemberStart 0; MemberStart 1]) /\
     (_streaming c = true -> snd (stop_stream c) = [MemberStop 1; MemberStop 0])).
Proof.
  split; [exact started_reachable|].
  exact (ChainFacts.chain_runs_members_in_add_order started [1; 0.5; -1]%float
           started_reachable).
Defined.

End ChainExample.

(* ===================================================================== *)
(** ** Slices and external events *)
(* ===================================================================== *)

(** [a[start:]] for any integer [start]: a negative one counts from the
    end, and both are clamped to the array. *)
Definition slice_from {A : Type} (start : Z) (a : list A) : list A :=
  let n := Z.of_nat (length a) in
  let first := if (start <? 0)%Z then Z.max (n + start) 0 else Z.min start n in
  drop (Z.to_nat first) a.

(** [a[:stop]] *)
Definition slice_to {A : Type} (stop : Z) (a : list A) : list A :=
  let n := Z.of_nat (length a) in
  let last := if (stop <? 0)%Z then Z.max (n + stop) 0 else Z.min stop n in
  take (Z.to_nat last) a.

(** What the sources do to the world outside, in the order they do it. *)
Inductive event : Type :=
| AvOpen (url : string)            (* [av.open(self.url, options=options)] *)
| ContainerClose                   (* [self._container.close()] *)
| ThreadStart (target : string)    (* [threading.Thread(target=...).start()] *)
| ThreadJoin (timeout : float)     (* [thread.join(timeout=...)] *)
| InputStreamOpen                  (* [sd.InputStream(...)] *)
| InputStreamStart                 (* [self.stream.start()] *)
| InputStreamStop                  (* [self.stream.stop()] *)
| InputStreamClose                 (* [self.stream.close()] *)
| KeyChange (old new : string)     (* [self._on_key_change(old, new)] *)
| Print (message : string).        (* [print(...)] *)

(** A method that may raise after it changed the object: the object as it
    is left, what was done outside, and how the call ended. *)
Definition outcome (S : Type) : Type := (S * list event * result unit)%type.

(* ===================================================================== *)
(** ** [src/srt_stream.py]: class [SRTStreamSource] *)
(* ===================================================================== *)

Module SRTStreamSource.

Inductive container : Type := Container.
Inductive audio_stream : Type := AudioStream.
Inductive thread : Type := Thread.

Record t : Type := mk {
  url : string;
  sample_rate : Z;
  block_size : Z;
  audio_queue : PyQueue.Queue block;
  _streaming : bool;
  _container : option container;
  _stream : option audio_stream;
  _thread : option thread;    (* [None]: the attribute is not set yet *)
}.

(** [__init__]; [scheme] is [urlparse(url).scheme]. *)
Definition init (url scheme : string) (sample_rate block_size : Z) : result t :=
  if negb (String.eqb scheme "srt") then Raise ValueError
  else Ok (mk url sample_rate block_size (PyQueue.new 0) false None None None).

(** How [av.open] and the look-up of the first audio track end. *)
Inductive opening : Type :=
| OpenFails         (* [av.open] raises *)
| NoAudioTrack      (* [streams.audio[0]] raises *)
| Opens.

Definition start_stream (o : opening) (s : t) : outcome t :=
  if _streaming s then (s, [], Ok ())
  else
    match o with
    | OpenFails =>
        (mk (url s) (sample_rate s) (block_size s) (audio_queue s) false
            (_container s) (_stream s) (_thread s),
         [AvOpen (url s)], Raise RuntimeError)
    | NoAudioTrack =>
        (mk (url s) (sample_rate s) (block_size s) (audio_queue s) false
            (Some Container) (_stream s) (_thread s),
         [AvOpen (url s)], Raise RuntimeError)
    | Opens =>
        (mk (url s) (sample_rate s) (block_size s) (audio_queue s) true
            (Some Container) (Some AudioStream) (Some Thread),
         [AvOpen (url s); ThreadStart "_process_stream"], Ok ())
    end.

Definition stop_stream (s : t) : outcome t :=
  if negb (_streaming s) then (s, [], Ok ())
  else
    match _thread s with
    | None =>
        (mk (url s) (sample_rate s) (block_size s) (audio_queue s) false
            (_container s) (_stream s) (_thread s),
         [], Raise AttributeError)
    | Some _ =>
        match _container s with
        | Some _ =>
            (mk (url s) (sample_rate s) (block_size s) (audio_queue s) false
                None None (_thread s),
             [ThreadJoin 1.0%float; ContainerClose], Ok ())
        | None =>
            (mk (url s) (sample_rate s) (block_size s) (audio_queue s) false
                None (_stream s) (_thread s),
             [ThreadJoin 1.0%float], Ok ())
        end
    end.

(** The loop [while len(audio_buffer) >= self.block_size] of
    [_process_stream]: it cuts complete blocks off the front of the buffer
    and puts them on the queue.  [None]: the loop is still running after
    [fuel] rounds. *)
Fixpoint emit_blocks (fuel : nat) (block_size : Z) (audio_buffer : list float)
  (q : PyQueue.Queue block) : option (result (list float * PyQueue.Queue block)) :=
  match fuel with
  | 0 => None
  | S fuel =>
      if (block_size <=? Z.of_nat (length audio_buffer))%Z then
        match PyQueue.put (slice_to block_size audio_buffer) q with
        | PyQueue.Waits => Some (Raise Blocked)
        | PyQueue.Enqueued q =>
            emit_blocks fuel block_size (slice_from block_size audio_buffer) q
        end
      else Some (Ok (audio_buffer, q))
  end.

(** One round of [for frame in self._container.decode(audio=0)], with the
    samples of the resampled frame; [audio_buffer] is the local variable of
    the thread.  The round is not run once [_streaming] is off. *)
Definition decode_frame (fuel : nat) (samples : list float)
  (audio_buffer : list float) (s : t) : option (result (list float * t)) :=
  if negb (_streaming s) then Some (Ok (audio_buffer, s))
  else
    match emit_blocks fuel (block_size s) (audio_buffer ++ samples) (audio_queue s) with
    | None => None
    | Some (Raise e) => Some (Raise e)
    | Some (Ok (audio_buffer, q)) =>
        Some (Ok (audio_buffer,
                  mk (url s) (sample_rate s) (block_size s) q (_streaming s)
                     (_container s) (_stream s) (_thread s)))
    end.

(** [except Exception as e: print(...); self._streaming = False]: the
    decoder raised (the connection was lost, say) and the thread ends. *)
Definition decode_error (s : t) : t * list event :=
  (mk (url s) (sample_rate s) (block_size s) (audio_queue s) false
      (_container s) (_stream s) (_thread s),
   [Print "Error processing SRT stream"]).

Definition get_audio_block (s : t) : option (block * t) :=
  match PyQueue.get_nowait (audio_queue s) with
  | None => None
  | Some (b, q) =>
      Some (b, mk (url s) (sample_rate s) (block_size s) q (_streaming s)
                  (_container s) (_stream s) (_thread s))
  end.

End SRTStreamSource.

(* ===================================================================== *)
(** ** [src/keydetector.py]: class [KeyDetector], the streaming session *)
(* ===================================================================== *)

Module KeyDetector.

(** [float(n)] for a Python integer below 2^63 in magnitude. *)
Definition float_of_Z (n : Z) : float :=
  if (n <? 0)%Z then PrimFloat.opp (PrimFloat.of_uint63 (Uint63.of_Z (- n)))
  else PrimFloat.of_uint63 (Uint63.of_Z n).

(** [int(x)]: truncation towards zero. *)
Definition py_int (x : float) : result Z :=
  match Prim2SF x with
  | S754_zero _ => Ok 0%Z
  | S754_nan => Raise ValueError
  | S754_infinity _ => Raise OverflowError
  | S754_finite s m e =>
      let magnitude :=
        if (0 <=? e)%Z then (Z.pos m * 2 ^ e)%Z else (Z.pos m / 2 ^ (- e))%Z in
      Ok (if s then (- magnitude)%Z else magnitude)
  end.

(** The callback given as [on_key_change]; it may raise. *)
Definition listener : Type := string -> string -> result unit.

Inductive input_stream : Type := InputStream.
Inductive thread : Type := Thread.

Section WithPlugin.

Context {P : Type} `{Plugin P}.

Record t : Type := mk {
  analysis_duration : float;
  sample_rate : Z;
  block_size : Z;
  device : option string;
  audio_queue : PyQueue.Queue block;
  stream_buffer : list float;
  _streaming : bool;
  _current_key : string;
  _on_key_change : option listener;
  vst_stream : option (VSTStreamSource.t P);
  srt_stream : option SRTStreamSource.t;
  stream : option input_stream;       (* [None]: the attribute is not set yet *)
  process_thread : option thread;     (* [None]: the attribute is not set yet *)
}.

Definition set_audio_queue (q : PyQueue.Queue block) (d : t) : t :=
  mk (analysis_duration d) (sample_rate d) (block_size d) (device d) q
     (stream_buffer d) (_streaming d) (_current_key d) (_on_key_change d)
     (vst_stream d) (srt_stream d) (stream d) (process_thread d).

Definition set_stream_buffer (b : list float) (d : t) : t :=
  mk (analysis_duration d) (sample_rate d) (block_size d) (device d) (audio_queue d)
     b (_streaming d) (_current_key d) (_on_key_change d)
     (vst_stream d) (srt_stream d) (stream d) (process_thread d).

Definition set_streaming (b : bool) (d : t) : t :=
  mk (analysis_duration d) (sample_rate d) (block_size d) (device d) (audio_queue d)
     (stream_buffer d) b (_current_key d) (_on_key_change d)
     (vst_stream d) (srt_stream d) (stream d) (process_thread d).

Definition set_current_key (k : string) (d : t) : t :=
  mk (analysis_duration d) (sample_rate d) (block_size d) (device d) (audio_queue d)
     (stream_buffer d) (_streaming d) k (_on_key_change d)
     (vst_stream d) (srt_stream d) (stream d) (process_thread d).

Definition set_vst_stream (v : option (VSTStreamSource.t P)) (d : t) : t :=
  mk (analysis_duration d) (sample_rate d) (block_size d) (device d) (audio_queue d)
     (stream_buffer d) (_streaming d) (_current_key d) (_on_key_change d)
     v (srt_stream d) (stream d) (process_thread d).

Definition set_srt_stream (s : option SRTStreamSource.t) (d : t) : t :=
  mk (analysis_duration d) (sample_rate d) (block_size d) (device d) (audio_queue d)
     (stream_buffer d) (_streaming d) (_current_key d) (_on_key_change d)
     (vst_stream d) s (stream d) (process_thread d).

Definition set_stream (s : option input_stream) (d : t) : t :=
  mk (analysis_duration d) (sample_rate d) (block_size d) (device d) (audio_queue d)
     (stream_buffer d) (_streaming d) (_current_key d) (_on_key_change d)
     (vst_stream d) (srt_stream d) s (process_thread d).

Definition set_process_thread (th : option thread) (d : t) : t :=
  mk (analysis_duration d) (sample_rate d) (block_size d) (device d) (audio_queue d)
     (stream_buffer d) (_streaming d) (_current_key d) (_on_key_change d)
     (vst_stream d) (srt_stream d) (stream d) th.

(** [__init__].  [vst_plugin] and [srt_url] carry what the constructors of
    the two sources return for the given path and URL. *)
Definition init (analysis_duration : float) (sample_rate block_size : Z)
  (device : option string)
  (vst_plugin : option (result (VSTStreamSource.t P)))
  (srt_url : option (result SRTStreamSource.t))
  (on_key_change : option listener) : result t :=
  let* vst :=
    match vst_plugin with
    | None => Ok None
    | Some (Ok v) => Ok (Some v)
    | Some (Raise _) => Raise RuntimeError
    end in
  let* srt :=
    match srt_url with
    | None => Ok None
    | Some (Ok s) => Ok (Some s)
    | Some (Raise _) => Raise RuntimeError
    end in
  Ok (mk analysis_duration sample_rate block_size device (PyQueue.new 0) []
         false "Unknown" on_key_change vst srt None None).

(** The closure [audio_callback] of [start_stream], called by sounddevice
    with every captured block. *)
Definition audio_callback (indata : block) (d : t) : result t :=
  match srt_stream d with
  | Some _ => Ok d
  | None =>
      match vst_stream d with
      | Some v =>
          let* (processed_data, v) := VSTStreamSource.process_block indata v in
          match PyQueue.put processed_data (audio_queue d) with
          | PyQueue.Waits => Raise Blocked
          | PyQueue.Enqueued q => Ok (set_audio_queue q (set_vst_stream (Some v) d))
          end
      | None =>
          match PyQueue.put indata (audio_queue d) with
          | PyQueue.Waits => Raise Blocked
          | PyQueue.Enqueued q => Ok (set_audio_queue q d)
          end
      end
  end.

(** [start_stream]; [srt_opening] says how the SRT source opens, [sd_opens]
    whether [sd.InputStream] can open the device. *)
Definition start_stream (srt_opening : SRTStreamSource.opening) (sd_opens : bool)
  (d : t) : outcome t :=
  if _streaming d then (d, [], Ok ())
  else
    match srt_stream d with
    | Some s =>
        match SRTStreamSource.start_stream srt_opening s with
        | (s, evs, Raise e) => (set_srt_stream (Some s) d, evs, Raise e)
        | (s, evs, Ok _) =>
            (set_process_thread (Some Thread)
               (set_streaming true (set_srt_stream (Some s) d)),
             evs ++ [ThreadStart "_process_stream"], Ok ())
        end
    | None =>
        if negb sd_opens then (d, [InputStreamOpen], Raise PortAudioError)
        else
          (set_process_thread (Some Thread)
             (set_streaming true (set_stream (Some InputStream) d)),
           [InputStreamOpen; InputStreamStart; ThreadStart "_process_stream"],
           Ok ())
    end.

Definition stop_stream (d : t) : outcome t :=
  if negb (_streaming d) then (d, [], Ok ())
  else
    let d := set_streaming false d in
    let '(d, evs, r) :=
      match srt_stream d with
      | Some s =>
          let '(s, evs, r) := SRTStreamSource.stop_stream s in
          (set_srt_stream (Some s) d, evs, r)
      | None =>
          match stream d with
          | None => (d, [], Raise AttributeError)
          | Some _ => (d, [InputStreamStop; InputStreamClose], Ok ())
          end
      end in
    match r with
    | Raise e => (d, evs, Raise e)
    | Ok _ =>
        match process_thread d with
        | None => (d, evs, Raise AttributeError)
        | Some _ =>
            (set_vst_stream (option_map VSTStreamSource.stop_stream (vst_stream d)) d,
             evs ++ [ThreadJoin 1.0%float], Ok ())
        end
    end.

(** [int(self.analysis_duration * self.sample_rate)], line 187. *)
Definition required_samples (d : t) : result Z :=
  py_int (PrimFloat.mul (analysis_duration d) (float_of_Z (sample_rate d))).

(** Lines 211-212: [self.stream_buffer[-required_samples:]] once the
    buffer is longer than the window. *)
Definition keep_recent (required_samples : Z) (buffer : list float) : list float :=
  if (required_samples <? Z.of_nat (length buffer))%Z
  then slice_from (- required_samples) buffer
  else buffer.

Section WithAnalysis.

(** The two numeric routines [_analyze_audio] calls. *)
Variable corrcoef : list float -> list float -> float.
Variable chroma_mean : list float -> Z -> list float.

(** Lines 218-220: the callback, then the new current key. *)
Definition on_estimate (new_key : string) (d : t) : t * list event :=
  match _on_key_change d with
  | Some callback =>
      if negb (String.eqb new_key (_current_key d)) then
        match callback (_current_key d) new_key with
        | Ok _ => (set_current_key new_key d, [KeyChange (_current_key d) new_key])
        | Raise _ =>
            (d, [KeyChange (_current_key d) new_key; Print "Error processing stream"])
        end
      else (set_current_key new_key d, [])
  | None => (set_current_key new_key d, [])
  end.

(** Lines 207-220: the block joins the buffer, the buffer is cut to the
    window, and a full window is analyzed. *)
Definition append_and_analyze (required_samples : Z) (new_audio : block) (d : t)
  : t * list event :=
  let buffer := keep_recent required_samples (stream_buffer d ++ new_audio) in
  let d := set_stream_buffer buffer d in
  if (required_samples <=? Z.of_nat (length buffer))%Z then
    match Estimator._analyze_audio corrcoef chroma_mean buffer (sample_rate d) with
    | Ok new_key => on_estimate new_key d
    | Raise _ => (d, [Print "Error processing stream"])
    end
  else (d, []).

(** One round of the loop [while self._streaming] of [_process_stream]. *)
Definition iteration (required_samples : Z) (d : t) : t * list event :=
  match srt_stream d with
  | Some s =>
      match SRTStreamSource.get_audio_block s with
      | None => (d, [])
      | Some (new_audio, s) =>
          append_and_analyze required_samples new_audio (set_srt_stream (Some s) d)
      end
  | None =>
      match PyQueue.get (audio_queue d) with
      | None => (d, [])
      | Some (new_audio, q) =>
          let d := set_audio_queue q d in
          match vst_stream d with
          | Some v =>
              match VSTStreamSource.process_block new_audio v with
              | Ok (new_audio, v) =>
                  append_and_analyze required_samples new_audio
                    (set_vst_stream (Some v) d)
              | Raise _ => (d, [Print "Error processing stream"])
              end
          | None => append_and_analyze required_samples new_audio d
          end
      end
  end.

(** The rounds of the analysis thread and the calls of the capture
    callback, interleaved. *)
Inductive step : Type :=
| Capture (indata : block)
| Analyze.

Definition run_step (required_samples : Z) (st : step) (d : t) : t * list event :=
  match st with
  | Capture indata =>
      match audio_callback indata d with
      | Ok d => (d, [])
      | Raise _ => (d, [])
      end
  | Analyze => if _streaming d then iteration required_samples d else (d, [])
  end.

Fixpoint run (required_samples : Z) (steps : list step) (d : t) : t * list event :=
  match steps with
  | [] => (d, [])
  | st :: rest =>
      let '(d, evs) := run_step required_samples st d in
      let '(d, evs') := run required_samples rest d in
      (d, evs ++ evs')
  end.

End WithAnalysis.

End WithPlugin.

Arguments t P : clear implicits.

End KeyDetector.

(* ===================================================================== *)
(** ** The block queues *)
(* ===================================================================== *)

Module QueueFacts.

Import PyQueue.

(** Cutting a block off a buffer that holds one. *)
Lemma slice_block (block_size : Z) (buffer : list float) :
  (0 < block_size <= Z.of_nat (length buffer))%Z ->
  slice_to block_size buffer = take (Z.to_nat block_size) buffer /\
  slice_from block_size buffer = drop (Z.to_nat block_size) buffer.
Proof.
  intros Hb. unfold slice_to, slice_from.
  destruct (Z.ltb_spec block_size 0); [lia|].
  now rewrite Z.min_l by lia.
Qed.

(** With a positive block size and a queue without capacity the loop of
    the decoder ends, never waits, and queues every complete block: the
    queued blocks followed by what stays in the buffer are the samples it
    was given. *)
Lemma emit_blocks_all (block_size : Z) : forall (fuel : nat) (buffer : list float)
  (q : Queue block),
  (0 < block_size)%Z -> (maxsize q <= 0)%Z -> length buffer < fuel ->
  exists blocks rest,
    SRTStreamSource.emit_blocks fuel block_size buffer q
      = Some (Ok (rest, mkQueue (maxsize q) (items q ++ blocks))) /\
    concat blocks ++ rest = buffer /\
    Forall (fun b => Z.of_nat (length b) = block_size) blocks /\
    (Z.of_nat (length rest) < block_size)%Z.
Proof.
  induction fuel as [|fuel IH]; intros buffer q Hbs Hq Hfuel; [lia|].
  cbn [SRTStreamSource.emit_blocks].
  destruct (Z.leb_spec block_size (Z.of_nat (length buffer))) as [Hle|Hgt].
  - rewrite (put_unbounded _ q Hq).
    destruct (slice_block block_size buffer) as [-> ->]; [lia|].
    destruct (IH (drop (Z.to_nat block_size) buffer)
                (mkQueue (maxsize q) (items q ++ [take (Z.to_nat block_size) buffer])))
      as (blocks & rest & E & Hcat & Hall & Hrest); [exact Hbs | exact Hq | |].
    { rewrite length_drop. lia. }
    exists (take (Z.to_nat block_size) buffer :: blocks), rest.
    cbn [maxsize items] in E. cbv beta iota.
    split; [etransitivity; [exact E|]; now rewrite <- app_assoc|].
    repeat split; [ | | exact Hrest].
    + cbn [concat]. rewrite <- app_assoc, Hcat. apply take_drop.
    + constructor; [|exact Hall]. rewrite length_take. lia.
  - exists [], buffer. rewrite app_nil_r. destruct q. repeat split; [constructor | lia].
Qed.

(** The frames of a stream, decoded one after the other. *)
Fixpoint decode_frames (frames : list (list float)) (audio_buffer : list float)
  (s : SRTStreamSource.t) : option (result (list float * SRTStreamSource.t)) :=
  match frames with
  | [] => Some (Ok (audio_buffer, s))
  | samples :: frames =>
      match SRTStreamSource.decode_frame (S (length (audio_buffer ++ samples)))
              samples audio_buffer s with
      | Some (Ok (audio_buffer, s)) => decode_frames frames audio_buffer s
      | r => r
      end
  end.

Lemma decode_frame_all (s : SRTStreamSource.t) (buffer samples : list float) :
  SRTStreamSource._streaming s = true ->
  (0 < SRTStreamSource.block_size s)%Z ->
  (maxsize (SRTStreamSource.audio_queue s) <= 0)%Z ->
  exists blocks rest s',
    SRTStreamSource.decode_frame (S (length (buffer ++ samples))) samples buffer s
      = Some (Ok (rest, s')) /\
    items (SRTStreamSource.audio_queue s')
      = items (SRTStreamSource.audio_queue s) ++ blocks /\
    maxsize (SRTStreamSource.audio_queue s') = maxsize (SRTStreamSource.audio_queue s) /\
    concat blocks ++ rest = buffer ++ samples /\
    Forall (fun b => Z.of_nat (length b) = SRTStreamSource.block_size s) blocks /\
    (Z.of_nat (length rest) < SRTStreamSource.block_size s)%Z.
Proof.
  intros Hs Hbs Hq. unfold SRTStreamSource.decode_frame. rewrite Hs. cbn [negb].
  destruct (emit_blocks_all (SRTStreamSource.block_size s)
              (S (length (buffer ++ samples))) (buffer ++ samples)
              (SRTStreamSource.audio_queue s) Hbs Hq)
    as (blocks & rest & -> & Hcat & Hall & Hrest); [lia|].
  exists blocks, rest. eexists. split; [reflexivity|]. cbn. auto.
Qed.

Section WithPlugin.

Context {P : Type} `{Plugin P}.

(** C4 (amended).  The block queues are created without a capacity
    ([queue.Queue()], [maxsize] 0).  A [put] on such a queue appends the
    block at once: the producers never wait and never drop a block.  The
    decoder of the SRT source queues every complete block of a frame, the
    capture callback every captured block.  On the other side, a [get] on
    an empty queue answers with the empty outcome. *)
Theorem block_queues_have_no_capacity :
  (forall url scheme sr bs s,
     SRTStreamSource.init url scheme sr bs = Ok s ->
     maxsize (SRTStreamSource.audio_queue s) = 0%Z) /\
  (forall a sr bs dev vst srt cb (d : KeyDetector.t P),
     KeyDetector.init a sr bs dev vst srt cb = Ok d ->
     maxsize (KeyDetector.audio_queue d) = 0%Z) /\
  (forall (q : Queue block) (b : block),
     (maxsize q <= 0)%Z ->
     put b q = Enqueued (mkQueue (maxsize q) (items q ++ [b]))) /\
  (forall (s : SRTStreamSource.t) (buffer samples : list float),
     SRTStreamSource._streaming s = true ->
     (0 < SRTStreamSource.block_size s)%Z ->
     (maxsize (SRTStreamSource.audio_queue s) <= 0)%Z ->
     exists blocks rest s',
       SRTStreamSource.decode_frame (S (length (buffer ++ samples))) samples buffer s
         = Some (Ok (rest, s')) /\
       items (SRTStreamSource.audio_queue s')
         = items (SRTStreamSource.audio_queue s) ++ blocks /\
       maxsize (SRTStreamSource.audio_queue s')
         = maxsize (SRTStreamSource.audio_queue s) /\
       concat blocks ++ rest = buffer ++ samples /\
       Forall (fun b => Z.of_nat (length b) = SRTStreamSource.block_size s) blocks /\
       (Z.of_nat (length rest) < SRTStreamSource.block_size s)%Z) /\
  (forall (d : KeyDetector.t P) (indata : block),
     KeyDetector.srt_stream d = None -> KeyDetector.vst_stream d = None ->
     (maxsize (KeyDetector.audio_queue d) <= 0)%Z ->
     KeyDetector.audio_callback indata d =
       Ok (KeyDetector.set_audio_queue
             (mkQueue (maxsize (KeyDetector.audio_queue d))
                      (items (KeyDetector.audio_queue d) ++ [indata])) d)) /\
  (forall q : Queue block,
     items q = [] -> get q = None /\ get_nowait q = None).
Proof.
  split.
  { intros url scheme sr bs s. unfold SRTStreamSource.init.
    destruct (negb (String.eqb scheme "srt")); [discriminate|]. now intros [= <-]. }
  split.
  { intros a sr bs dev vst srt cb d. unfold KeyDetector.init.
    destruct vst as [[v|]|]; cbn; try discriminate;
      destruct srt as [[s|]|]; cbn; try discriminate; now intros [= <-]. }
  split; [intros q b; apply put_unbounded|].
  split; [apply decode_frame_all|].
  split.
  { intros d indata Hsrt Hvst Hq. unfold KeyDetector.audio_callback.
    rewrite Hsrt, Hvst, (put_unbounded _ _ Hq). reflexivity. }
  intros q Hq. unfold get, get_nowait. now rewrite Hq.
Qed.

End WithPlugin.

(** A live SRT source with blocks of one sample, [blocks] being queued. *)
Definition live_source (blocks : list block) : SRTStreamSource.t :=
  SRTStreamSource.mk "srt://host:9000" 44100 1 (mkQueue 0 blocks) true
    (Some SRTStreamSource.Container) (Some SRTStreamSource.AudioStream)
    (Some SRTStreamSource.Thread).

Lemma live_source_started :
  (let* s := SRTStreamSource.init "srt://host:9000" "srt" 44100 1 in
   Ok (SRTStreamSource.start_stream SRTStreamSource.Opens s))
  = Ok (live_source [],
        [AvOpen "srt://host:9000"; ThreadStart "_process_stream"], Ok ()).
Proof. reflexivity. Qed.

Lemma live_source_queues_every_frame (x : float) (n : nat) : forall blocks,
  decode_frames (repeat [x] n) [] (live_source blocks)
  = Some (Ok ([], live_source (blocks ++ repeat [x] n))).
Proof.
  induction n as [|n IH]; intros blocks; cbn [repeat decode_frames].
  - now rewrite app_nil_r.
  - change (SRTStreamSource.decode_frame (S (length ([] ++ [x]))) [x] []
              (live_source blocks))
      with (Some (Ok (@nil float, live_source (blocks ++ [[x]])))).
    cbv beta iota. rewrite IH, <- app_assoc. reflexivity.
Qed.

(** C4, counterexample.  The queue of a started SRT source has no
    capacity, and no bound holds for its length: with nobody reading, the
    frames of a stream are all queued, none is waited for or dropped. *)
Lemma srt_queue_exceeds_every_bound :
  maxsize (SRTStreamSource.audio_queue (live_source [])) = 0%Z /\
  forall bound : nat, exists frames rest s,
    decode_frames frames [] (live_source []) = Some (Ok (rest, s)) /\
    qsize (SRTStreamSource.audio_queue s) = length frames /\
    bound < qsize (SRTStreamSource.audio_queue s).
Proof.
  split; [reflexivity|]. intros bound.
  exists (repeat [0%float] (S bound)), [], (live_source (repeat [0%float] (S bound))).
  split; [apply (live_source_queues_every_frame 0%float (S bound) [])|].
  unfold qsize. cbn [live_source SRTStreamSource.audio_queue items].
  rewrite !repeat_length. split; lia.
Qed.

End QueueFacts.

(* ===================================================================== *)
(** ** The sliding window and the change listener *)
(* ===================================================================== *)

Module SessionFacts.

Import KeyDetector.

(** The key changes a list of events reports, as (old, new) pairs. *)
Definition key_changes (evs : list event) : list (string * string) :=
  flat_map (fun e => match e with KeyChange o n => [(o, n)] | _ => [] end) evs.

(** A positive window bounds the buffer, and keeps its most recent part. *)
Lemma keep_recent_bounded (required_samples : Z) (buffer : list float) :
  (0 < required_samples)%Z ->
  (Z.of_nat (length (keep_recent required_samples buffer)) <= required_samples)%Z /\
  exists old, buffer = old ++ keep_recent required_samples buffer.
Proof.
  intros HR. unfold keep_recent.
  destruct (Z.ltb_spec required_samples (Z.of_nat (length buffer))) as [Hlt|Hge].
  - unfold slice_from. destruct (Z.ltb_spec (- required_samples) 0); [|lia].
    rewrite Z.max_l by lia. split.
    + rewrite length_drop. lia.
    + eexists. symmetry. apply take_drop.
  - split; [lia|]. now exists [].
Qed.

(** A window of no samples keeps everything: [buffer[-0:]] is [buffer]. *)
Lemma keep_recent_zero (buffer : list float) : keep_recent 0 buffer = buffer.
Proof.
  unfold keep_recent, slice_from. cbn [Z.opp Z.ltb Z.compare Z.min].
  destruct (0 <? Z.of_nat (length buffer))%Z; [|reflexivity].
  destruct (Z.of_nat (length buffer)); reflexivity.
Qed.

Section WithPlugin.

Context {P : Type} `{Plugin P}.

Variable corrcoef : list float -> list float -> float.
Variable chroma_mean : list float -> Z -> list float.

Implicit Types (d : KeyDetector.t P) (new_audio : block).

Lemma on_estimate_buffer new_key d :
  stream_buffer (fst (on_estimate new_key d)) = stream_buffer d.
Proof.
  unfold on_estimate. destruct (_on_key_change d) as [cb|]; [|reflexivity].
  destruct (negb (String.eqb new_key (_current_key d))); [|reflexivity].
  destruct (cb (_current_key d) new_key); reflexivity.
Qed.

(** After a block was appended the buffer is the window cut from the old
    buffer and the block. *)
Lemma append_and_analyze_buffer R new_audio d :
  stream_buffer (fst (append_and_analyze corrcoef chroma_mean R new_audio d))
  = keep_recent R (stream_buffer d ++ new_audio).
Proof.
  unfold append_and_analyze.
  destruct (R <=? _)%Z; [|reflexivity].
  destruct (Estimator._analyze_audio _ _ _ _); [|reflexivity].
  now rewrite on_estimate_buffer.
Qed.

(** The analysis does not run before the window is full. *)
Lemma no_analysis_before_full R new_audio d :
  (Z.of_nat (length (keep_recent R (stream_buffer d ++ new_audio))) < R)%Z ->
  append_and_analyze corrcoef chroma_mean R new_audio d
  = (set_stream_buffer (keep_recent R (stream_buffer d ++ new_audio)) d, []).
Proof.
  intros Hlt. unfold append_and_analyze.
  destruct (Z.leb_spec R (Z.of_nat (length (keep_recent R (stream_buffer d ++ new_audio)))));
    [lia | reflexivity].
Qed.

(** What one round of the loop does to the buffer. *)
Lemma iteration_buffer R d :
  stream_buffer (fst (iteration corrcoef chroma_mean R d)) = stream_buffer d \/
  exists new_audio,
    stream_buffer (fst (iteration corrcoef chroma_mean R d))
    = keep_recent R (stream_buffer d ++ new_audio).
Proof.
  unfold iteration. destruct (srt_stream d) as [s|].
  - destruct (SRTStreamSource.get_audio_block s) as [[b s']|]; [|now left].
    right. exists b. now rewrite append_and_analyze_buffer.
  - destruct (PyQueue.get (audio_queue d)) as [[b q]|]; [|now left].
    cbn [vst_stream set_audio_queue]. destruct (vst_stream d) as [v|].
    + destruct (VSTStreamSource.process_block b v) as [[b' v']|]; [|now left].
      right. exists b'. now rewrite append_and_analyze_buffer.
    + right. exists b. now rewrite append_and_analyze_buffer.
Qed.

Lemma audio_callback_buffer indata d d' :
  audio_callback indata d = Ok d' -> stream_buffer d' = stream_buffer d.
Proof.
  unfold audio_callback. destruct (srt_stream d); [now intros [= <-]|].
  destruct (vst_stream d) as [v|].
  - destruct (VSTStreamSource.process_block indata v) as [[b v']|]; cbn; [|discriminate].
    destruct (PyQueue.put b (audio_queue d)); [|discriminate]. now intros [= <-].
  - destruct (PyQueue.put indata (audio_queue d)); [|discriminate]. now intros [= <-].
Qed.

(** With a window of at least one sample, the buffer never outgrows the
    window, whatever the capture callback and the analysis loop do. *)
Lemma run_buffer_bounded R (steps : list step) : forall d,
  (0 < R)%Z ->
  (Z.of_nat (length (stream_buffer d)) <= R)%Z ->
  (Z.of_nat (length (stream_buffer (fst (run corrcoef chroma_mean R steps d)))) <= R)%Z.
Proof.
  induction steps as [|st rest IH]; intros d HR Hd; cbn [run]; [exact Hd|].
  destruct (run_step corrcoef chroma_mean R st d) as [d1 evs] eqn:E.
  specialize (IH d1 HR).
  destruct (run corrcoef chroma_mean R rest d1) as [d2 evs2]. cbn [fst] in *.
  apply IH. clear IH. unfold run_step in E. destruct st as [indata|].
  - destruct (audio_callback indata d) as [d'|] eqn:Ec; injection E as <- <-;
      [|exact Hd].
    now rewrite (audio_callback_buffer _ _ _ Ec).
  - destruct (_streaming d); [|injection E as <- <-; exact Hd].
    destruct (iteration_buffer R d) as [Hb | [b Hb]]; rewrite E in Hb; cbn [fst] in Hb;
      rewrite Hb; [exact Hd|].
    now apply keep_recent_bounded.
Qed.

(** C5.  With an analysis window of no samples the buffer is not cut at
    all: [int(0.0 * 44100)] is 0, [stream_buffer[-0:]] is the whole
    buffer, and every appended block stays, so that the buffer is longer
    than [required_samples]. *)
Theorem zero_window_is_never_cut :
  (exists d0 : KeyDetector.t P,
     KeyDetector.init 0%float 44100 2048 None None None None = Ok d0 /\
     required_samples d0 = Ok 0%Z) /\
  (forall d new_audio,
     stream_buffer (fst (append_and_analyze corrcoef chroma_mean 0 new_audio d))
     = stream_buffer d ++ new_audio) /\
  (forall d new_audio q,
     srt_stream d = None -> vst_stream d = None ->
     PyQueue.get (audio_queue d) = Some (new_audio, q) ->
     stream_buffer (fst (iteration corrcoef chroma_mean 0 d))
     = stream_buffer d ++ new_audio) /\
  (forall d new_audio,
     new_audio <> [] ->
     (0 < Z.of_nat (length (stream_buffer
            (fst (append_and_analyze corrcoef chroma_mean 0 new_audio d)))))%Z).
Proof.
  assert (Hz : forall d new_audio,
             stream_buffer (fst (append_and_analyze corrcoef chroma_mean 0 new_audio d))
             = stream_buffer d ++ new_audio)
    by (intros; now rewrite append_and_analyze_buffer, keep_recent_zero).
  split; [eexists; split; reflexivity|].
  split; [exact Hz|]. split.
  - intros d new_audio q Hsrt Hvst Hq. unfold iteration.
    rewrite Hsrt, Hq. cbn [vst_stream set_audio_queue]. rewrite Hvst.
    now rewrite Hz.
  - intros d [|x new_audio] Hne; [congruence|]. rewrite Hz, length_app. cbn. lia.
Qed.

(** C8.  When the analysis of a full window gives a key that differs from
    the stored one and a listener is registered, the listener is called
    exactly once, with the stored key and the new one, and the stored key
    is replaced only after the call has returned.  When the key is the
    stored one, or no listener is registered, nothing is called. *)
Theorem listener_called_once_per_change R new_audio d new_key :
  let buffer := keep_recent R (stream_buffer d ++ new_audio) in
  let after := append_and_analyze corrcoef chroma_mean R new_audio d in
  (R <= Z.of_nat (length buffer))%Z ->
  Estimator._analyze_audio corrcoef chroma_mean buffer (sample_rate d) = Ok new_key ->
  match _on_key_change d with
  | Some callback =>
      if String.eqb new_key (_current_key d)
      then snd after = [] /\ _current_key (fst after) = new_key
      else
        key_changes (snd after) = [(_current_key d, new_key)] /\
        head (snd after) = Some (KeyChange (_current_key d) new_key) /\
        match callback (_current_key d) new_key with
        | Ok _ =>
            snd after = [KeyChange (_current_key d) new_key] /\
            _current_key (fst after) = new_key
        | Raise _ => _current_key (fst after) = _current_key d
        end
  | None => snd after = [] /\ _current_key (fst after) = new_key
  end.
Proof.
  cbv zeta. intros Hfull Hkey. unfold append_and_analyze.
  destruct (Z.leb_spec R (Z.of_nat (length (keep_recent R (stream_buffer d ++ new_audio)))));
    [|lia].
  cbn [sample_rate set_stream_buffer]. rewrite Hkey. unfold on_estimate. cbn.
  destruct (_on_key_change d) as [cb|]; [|now split].
  destruct (String.eqb new_key (_current_key d)); cbn [negb]; [now split|].
  destruct (cb (_current_key d) new_key); cbn; auto.
Qed.

(** One round of the loop on a captured block is this step. *)
Lemma iteration_on_captured_block R d new_audio q :
  srt_stream d = None -> vst_stream d = None ->
  PyQueue.get (audio_queue d) = Some (new_audio, q) ->
  iteration corrcoef chroma_mean R d
  = append_and_analyze corrcoef chroma_mean R new_audio (set_audio_queue q d).
Proof.
  intros Hsrt Hvst Hq. unfold iteration. rewrite Hsrt, Hq.
  cbn [vst_stream set_audio_queue]. now rewrite Hvst.
Qed.

End WithPlugin.

End SessionFacts.

(* ===================================================================== *)
(** ** A session on a concrete window *)
(* ===================================================================== *)

Module SessionExample.

Import KeyDetector.

(** A stand-in for the chroma extraction: every window has the energy
    distribution of the major profile. *)
Definition major_window (y : list float) (sr : Z) : list float :=
  Estimator.MAJOR_PROFILE.

(** A running session with a listener, a window of four samples, and no
    key found yet. *)
Definition session : KeyDetector.t MockVST.t :=
  mk 1%float 4 2 None (PyQueue.new 0) [] true "Unknown"
     (Some (fun _ _ => Ok ())) None None (Some InputStream) (Some Thread).

Example session_window : required_samples session = Ok 4%Z.
Proof. reflexivity. Qed.

Lemma listener_called_once_per_change_witness :
  let new_audio := [0.1; 0.2; 0.3; 0.4]%float in
  let buffer := keep_recent 4 (stream_buffer session ++ new_audio) in
  let after := append_and_analyze Estimator.pearson major_window 4 new_audio session in
  ((4 <= Z.of_nat (length buffer))%Z /\
   Estimator._analyze_audio Estimator.pearson major_window buffer 4
   = Ok "C major"%string) /\
  (SessionFacts.key_changes (snd after) = [("Unknown", "C major")]%string /\
   head (snd after) = Some (KeyChange "Unknown" "C major") /\
   snd after = [KeyChange "Unknown" "C major"] /\
   _current_key (fst after) = "C major"%string).
Proof.
  cbv zeta.
  assert (Hfull : (4 <= Z.of_nat (length (keep_recent 4
                     (stream_buffer session ++ [0.1; 0.2; 0.3; 0.4]%float))))%Z)
    by (vm_compute; discriminate).
  assert (Hkey : Estimator._analyze_audio Estimator.pearson major_window
                   (keep_recent 4 (stream_buffer session ++ [0.1; 0.2; 0.3; 0.4]%float))
                   (sample_rate session) = Ok "C major"%string)
    by (vm_compute; reflexivity).
  split; [split; assumption|].
  exact (SessionFacts.listener_called_once_per_change Estimator.pearson major_window
           4 [0.1; 0.2; 0.3; 0.4]%float session "C major" Hfull Hkey).
Defined.

(** The same key again: the listener is not called. *)
Example same_key_is_silent :
  let d := fst (append_and_analyze Estimator.pearson major_window 4
                  [0.1; 0.2; 0.3; 0.4]%float session) in
  snd (append_and_analyze Estimator.pearson major_window 4 [0.5; 0.6]%float d) = [] /\
  stream_buffer
    (fst (append_and_analyze Estimator.pearson major_window 4 [0.5; 0.6]%float d))
  = [0.3; 0.4; 0.5; 0.6]%float.
Proof. vm_compute. split; reflexivity. Qed.

End SessionExample.

(* ===================================================================== *)
(** ** Starting and stopping *)
(* ===================================================================== *)

Module LifecycleFacts.

(** *** The processor *)

Section WithPlugin.

Context {P : Type} `{Plugin P}.

Lemma vst_start_when_started (p : VSTStreamSource.t P) :
  VSTStreamSource._streaming p = true -> VSTStreamSource.start_stream p = p.
Proof. intros E. unfold VSTStreamSource.start_stream. now rewrite E. Qed.

Lemma vst_stop_when_stopped (p : VSTStreamSource.t P) :
  VSTStreamSource._streaming p = false -> VSTStreamSource.stop_stream p = p.
Proof. intros E. unfold VSTStreamSource.stop_stream. now rewrite E. Qed.

Lemma vst_start_twice (p : VSTStreamSource.t P) :
  VSTStreamSource.start_stream (VSTStreamSource.start_stream p)
  = VSTStreamSource.start_stream p.
Proof.
  apply vst_start_when_started. unfold VSTStreamSource.start_stream.
  destruct (VSTStreamSource._streaming p) eqn:E; [exact E | reflexivity].
Qed.

Lemma vst_stop_twice (p : VSTStreamSource.t P) :
  VSTStreamSource.stop_stream (VSTStreamSource.stop_stream p)
  = VSTStreamSource.stop_stream p.
Proof. apply vst_stop_when_stopped, ChainFacts.stop_member_not_streaming. Qed.

(** *** The chain *)

Lemma chain_start_twice (c : VSTPluginChain.t P) :
  VSTPluginChain.start_stream (fst (VSTPluginChain.start_stream c))
  = (fst (VSTPluginChain.start_stream c), []).
Proof.
  destruct (VSTPluginChain._streaming c) eqn:E.
  - unfold VSTPluginChain.start_stream. rewrite E. cbn. now rewrite E.
  - rewrite (ChainFacts.start_stream_spec c E). reflexivity.
Qed.

Lemma chain_stop_twice (c : VSTPluginChain.t P) :
  VSTPluginChain.stop_stream (fst (VSTPluginChain.stop_stream c))
  = (fst (VSTPluginChain.stop_stream c), []).
Proof.
  pose proof (ChainFacts.stop_stream_not_streaming c) as E.
  unfold VSTPluginChain.stop_stream at 1. now rewrite E.
Qed.

(** *** The session *)

Implicit Types (d : KeyDetector.t P).

Lemma start_when_started o b d :
  KeyDetector._streaming d = true -> KeyDetector.start_stream o b d = (d, [], Ok ()).
Proof. intros E. unfold KeyDetector.start_stream. now rewrite E. Qed.

Lemma stop_when_stopped d :
  KeyDetector._streaming d = false -> KeyDetector.stop_stream d = (d, [], Ok ()).
Proof. intros E. unfold KeyDetector.stop_stream. now rewrite E. Qed.

(** After a start that succeeded the session is streaming ... *)
Lemma started_is_streaming o b d d' evs :
  KeyDetector.start_stream o b d = (d', evs, Ok ()) ->
  KeyDetector._streaming d' = true.
Proof.
  unfold KeyDetector.start_stream. destruct (KeyDetector._streaming d) eqn:E.
  - now intros [= <- _].
  - destruct (KeyDetector.srt_stream d) as [s|].
    + destruct (SRTStreamSource.start_stream o s) as [[s' evs'] [[]|e]];
        [|discriminate]. now intros [= <- _].
    + destruct b; cbn [negb]; [|discriminate]. now intros [= <- _].
Qed.

(** ... so that a second start does nothing. *)
Lemma start_twice o b o' b' d d' evs :
  KeyDetector.start_stream o b d = (d', evs, Ok ()) ->
  KeyDetector.start_stream o' b' d' = (d', [], Ok ()).
Proof. intros E. apply start_when_started. exact (started_is_streaming _ _ _ _ _ E). Qed.

(** A stop leaves the session stopped, however it ends ... *)
Lemma stopped_is_not_streaming d :
  KeyDetector._streaming (fst (fst (KeyDetector.stop_stream d))) = false.
Proof.
  unfold KeyDetector.stop_stream. destruct (KeyDetector._streaming d) eqn:E;
    cbn [negb]; [|exact E].
  cbn [KeyDetector.srt_stream KeyDetector.set_streaming].
  destruct (KeyDetector.srt_stream d) as [s|].
  - destruct (SRTStreamSource.stop_stream s) as [[s' evs] [[]|e]]; cbn;
      [|reflexivity].
    destruct (KeyDetector.process_thread d); reflexivity.
  - cbn. destruct (KeyDetector.stream d); cbn; [|reflexivity].
    destruct (KeyDetector.process_thread d); reflexivity.
Qed.

(** ... so that a second stop does nothing. *)
Lemma stop_twice d :
  KeyDetector.stop_stream (fst (fst (KeyDetector.stop_stream d)))
  = (fst (fst (KeyDetector.stop_stream d)), [], Ok ()).
Proof. apply stop_when_stopped, stopped_is_not_streaming. Qed.

End WithPlugin.

(** *** The SRT source *)

Implicit Types (s : SRTStreamSource.t).

Lemma srt_start_when_started o s :
  SRTStreamSource._streaming s = true ->
  SRTStreamSource.start_stream o s = (s, [], Ok ()).
Proof. intros E. unfold SRTStreamSource.start_stream. now rewrite E. Qed.

Lemma srt_stop_when_stopped s :
  SRTStreamSource._streaming s = false ->
  SRTStreamSource.stop_stream s = (s, [], Ok ()).
Proof. intros E. unfold SRTStreamSource.stop_stream. now rewrite E. Qed.

Lemma srt_stopped_is_not_streaming s :
  SRTStreamSource._streaming (fst (fst (SRTStreamSource.stop_stream s))) = false.
Proof.
  unfold SRTStreamSource.stop_stream.
  destruct (SRTStreamSource._streaming s) eqn:E; cbn [negb]; [|exact E].
  destruct (SRTStreamSource._thread s); [|reflexivity].
  destruct (SRTStreamSource._container s); reflexivity.
Qed.

Lemma srt_stop_twice s :
  SRTStreamSource.stop_stream (fst (fst (SRTStreamSource.stop_stream s)))
  = (fst (fst (SRTStreamSource.stop_stream s)), [], Ok ()).
Proof. apply srt_stop_when_stopped, srt_stopped_is_not_streaming. Qed.

(** A stop of a source that is streaming, with its thread and container:
    the thread is joined for at most a second and the container closed. *)
Lemma srt_stop_releases s th co :
  SRTStreamSource._streaming s = true ->
  SRTStreamSource._thread s = Some th ->
  SRTStreamSource._container s = Some co ->
  snd (fst (SRTStreamSource.stop_stream s)) = [ThreadJoin 1.0%float; ContainerClose] /\
  SRTStreamSource._container (fst (fst (SRTStreamSource.stop_stream s))) = None /\
  snd (SRTStreamSource.stop_stream s) = Ok ().
Proof.
  intros E Ht Hc. unfold SRTStreamSource.stop_stream. rewrite E, Ht, Hc. now cbn.
Qed.

(** *** A source whose decoder failed *)

Section DecodeError.

Context {P : Type} `{Plugin P}.

(** C9.  A second [start_stream] and a second [stop_stream] do nothing
    (the lemmas above).  But [stop_stream] does not always release the
    resources: when the decoder of a live SRT source raises, its thread
    clears [_streaming] and leaves the container open; [stop_stream] then
    returns at its first test, for the source and for the session alike.
    Nothing is joined and the container is never closed, where the same
    call on the live source joins the thread and closes the container. *)
Theorem stop_after_decode_error_releases_nothing (url : string) (sr bs : Z)
  (a : float) :
  let s0 := SRTStreamSource.mk url sr bs (PyQueue.new 0) false None None None in
  let s1 := fst (fst (SRTStreamSource.start_stream SRTStreamSource.Opens s0)) in
  let s2 := fst (SRTStreamSource.decode_error s1) in
  let d0 : KeyDetector.t P :=
    KeyDetector.mk a sr bs None (PyQueue.new 0) [] false "Unknown" None None
      (Some s0) None None in
  let d1 := fst (fst (KeyDetector.start_stream SRTStreamSource.Opens true d0)) in
  let d2 := KeyDetector.set_srt_stream (Some s2) d1 in
  SRTStreamSource.init url "srt" sr bs = Ok s0 /\
  KeyDetector.init a sr bs None None (Some (Ok s0)) None = Ok d0 /\
  KeyDetector.srt_stream d1 = Some s1 /\
  SRTStreamSource._streaming s1 = true /\
  SRTStreamSource.stop_stream s1 =
    (SRTStreamSource.mk url sr bs (PyQueue.new 0) false None None
       (Some SRTStreamSource.Thread),
     [ThreadJoin 1.0%float; ContainerClose], Ok ()) /\
  SRTStreamSource.stop_stream s2 = (s2, [], Ok ()) /\
  SRTStreamSource._container s2 = Some SRTStreamSource.Container /\
  KeyDetector.stop_stream d2 =
    (KeyDetector.set_streaming false d2, [ThreadJoin 1.0%float], Ok ()) /\
  KeyDetector.srt_stream (fst (fst (KeyDetector.stop_stream d2))) = Some s2.
Proof. cbv zeta. repeat split; reflexivity. Qed.

End DecodeError.

End LifecycleFacts.

(* ===================================================================== *)
(** ** More of the estimator: what every window gets *)
(* ===================================================================== *)

Module EstimatorFacts.

Import Estimator.
Import PyFloat.

Section WithRoutines.

Variable corrcoef : list float -> list float -> float.
Variable chroma_mean : list float -> Z -> list float.


(** The names the estimator can give: a pitch class, a space, a mode. *)
Definition key_names : list string :=
  flat_map (fun name => [String.append name " major"; String.append name " minor"])
           PITCH_CLASSES.

Lemma key_name_listed (k : nat) (name mode : string) :
  PITCH_CLASSES !! k = Some name ->
  mode = "major"%string \/ mode = "minor"%string ->
  String.append name (String.append " " mode) ∈ key_names.
Proof.
  intros Hk Hm. apply list_elem_of_In. unfold key_names. apply in_flat_map.
  exists name. split.
  - apply list_elem_of_In. eapply list_elem_of_lookup_2. exact Hk.
  - destruct Hm as [-> | ->]; cbn; auto.
Qed.



(** X3.  When all 24 correlations are NaN, whatever the window, the
    estimator answers ["C minor"]: no comparison with a NaN holds, the
    major branch is not taken, and the NaN is found at the front of the
    minor scores. *)
Theorem nan_scores_give_C_minor (chroma_means : list float) :
  let c := normalize chroma_means in
  Forall (fun x => isnan x = true) (correlations corrcoef MAJOR_PROFILE c) ->
  Forall (fun x => isnan x = true) (correlations corrcoef MINOR_PROFILE c) ->
  analyze_chroma corrcoef chroma_means = Ok "C minor"%string.
Proof.
  cbv zeta. intros HM Hm. unfold analyze_chroma.
  assert (R : forall l : list float,
             length l = 12 -> Forall (fun x => isnan x = true) l ->
             l = repeat PrimFloat.nan 12).
  { intros l Hl Hn. do 13 (destruct l as [|? l]; try discriminate Hl).
    repeat match goal with
           | H : Forall _ (_ :: _) |- _ => apply Forall_cons in H as [?%KeyEstimation.nan_unique H]
           end.
    subst. reflexivity. }
  rewrite (R _ (KeyEstimation.correlations_length corrcoef _ _) HM).
  rewrite (R _ (KeyEstimation.correlations_length corrcoef _ _) Hm).
  reflexivity.
Qed.

(** X4.  When the 24 correlations are numbers, the estimator answers in
    major exactly when some major candidate scores strictly above every
    minor candidate; otherwise it answers in minor. *)
Theorem major_iff_strictly_above_minor (chroma_means : list float) :
  let c := normalize chroma_means in
  let major := correlations corrcoef MAJOR_PROFILE c in
  let minor := correlations corrcoef MINOR_PROFILE c in
  Forall number major -> Forall number minor ->
  exists k,
    select_candidate major minor = Ok k /\
    (snd k = "major"%string \/ snd k = "minor"%string) /\
    (snd k = "major"%string <->
     exists x, x ∈ major /\ Forall (fun y => gt x y = true) minor).
Proof.
  intros c major minor NM Nm.
  destruct (Selection.select_candidate_numbers major minor) as
    (oM & om & (HnM & HvM & HaM & _) & (Hnm & Hvm & Ham & _) & E);
    try apply KeyEstimation.correlations_nonempty; try assumption.
  eexists. split; [exact E|].
  destruct (gt (snd oM) (snd om)) eqn:G; cbn [snd].
  - split; [now left|]. split; [|reflexivity]. intros _.
    exists (snd oM). split; [eapply list_elem_of_lookup_2; exact HvM|].
    rewrite Forall_forall in Ham, Nm |- *. intros y Hy.
    apply (gt_ge_trans _ (snd om)); auto.
  - split; [now right|]. split; [discriminate|].
    intros (x & Hx & Hall). exfalso.
    assert (Nx : number x) by (rewrite Forall_forall in NM; auto).
    assert (G1 : ge (snd oM) x = true) by (rewrite Forall_forall in HaM; auto).
    assert (G2 : gt x (snd om) = true)
      by (rewrite Forall_forall in Hall; apply Hall;
          eapply list_elem_of_lookup_2; exact Hvm).
    assert (G3 : gt (snd oM) (snd om) = true)
      by (apply (ge_gt_trans _ x); assumption).
    congruence.
Qed.

End WithRoutines.

(** A window with the same energy in every bin has only NaN correlations. *)
Lemma nan_scores_give_C_minor_witness :
  let chroma_means := repeat 1%float 12 in
  let c := normalize chroma_means in
  (Forall (fun x => isnan x = true) (correlations pearson MAJOR_PROFILE c) /\
   Forall (fun x => isnan x = true) (correlations pearson MINOR_PROFILE c)) /\
  analyze_chroma pearson chroma_means = Ok "C minor"%string.
Proof.
  cbv zeta.
  assert (HM : Forall (fun x => isnan x = true)
                 (correlations pearson MAJOR_PROFILE (normalize (repeat 1%float 12))))
    by (repeat (constructor; [vm_compute; reflexivity|]); constructor).
  assert (Hm : Forall (fun x => isnan x = true)
                 (correlations pearson MINOR_PROFILE (normalize (repeat 1%float 12))))
    by (repeat (constructor; [vm_compute; reflexivity|]); constructor).
  split; [split; assumption|].
  exact (nan_scores_give_C_minor pearson (repeat 1%float 12) HM Hm).
Defined.

Lemma major_iff_strictly_above_minor_witness :
  let c := normalize MAJOR_PROFILE in
  let major := correlations pearson MAJOR_PROFILE c in
  let minor := correlations pearson MINOR_PROFILE c in
  (Forall number major /\ Forall number minor) /\
  exists k,
    select_candidate major minor = Ok k /\
    (snd k = "major"%string \/ snd k = "minor"%string) /\
    (snd k = "major"%string <->
     exists x, x ∈ major /\ Forall (fun y => gt x y = true) minor).
Proof.
  cbv zeta.
  assert (NM : Forall number (correlations pearson MAJOR_PROFILE
                                (normalize MAJOR_PROFILE)))
    by (repeat (constructor; [vm_compute; reflexivity|]); constructor).
  assert (Nm : Forall number (correlations pearson MINOR_PROFILE
                                (normalize MAJOR_PROFILE)))
    by (repeat (constructor; [vm_compute; reflexivity|]); constructor).
  split; [split; assumption|].
  exact (major_iff_strictly_above_minor pearson MAJOR_PROFILE NM Nm).
Defined.

End EstimatorFacts.

(* ===================================================================== *)
(** ** More of the chain: adding, removing, starting *)
(* ===================================================================== *)

Module ChainMethods.

Import VSTPluginChain.

Section WithPlugin.

Context {P : Type} `{Plugin P}.

Implicit Types (c : VSTPluginChain.t P) (p : VSTStreamSource.t P) (x y : block).

(** [__len__] *)
Definition len c : nat := length (plugins c).

(** The plugin [remove_plugin] takes out of the chain, as the call leaves
    it: [plugin = self.plugins.pop(index)], then [plugin.stop_stream()]
    when the chain is streaming. *)
Definition removed_plugin (index : Z) c : result (VSTStreamSource.t P) :=
  if negb (in_range index c) then Raise IndexError
  else
    match plugins c !! Z.to_nat index with
    | None => Raise IndexError
    | Some p => Ok (if _streaming c then VSTStreamSource.stop_stream p else p)
    end.

Lemma composed_app (ps qs : list (VSTStreamSource.t P)) : forall x,
  composed (ps ++ qs) x = (let* y := composed ps x in composed qs y).
Proof.
  induction ps as [|p ps IH]; intros x; cbn [app composed]; [reflexivity|].
  destruct (returned (VSTStreamSource.process_block x p)) as [y|]; cbn [bind];
    [apply IH | reflexivity].
Qed.

Lemma in_range_spec (index : Z) c :
  in_range index c = true <-> (0 <= index < Z.of_nat (length (plugins c)))%Z.
Proof. unfold in_range. rewrite andb_true_iff, Z.leb_le, Z.ltb_lt. reflexivity. Qed.

(** X5.  Whatever is done to a chain through its methods, while the chain
    is stopped every one of its members is stopped. *)
Theorem stopped_chain_has_stopped_members c :
  reachable c -> _streaming c = false ->
  Forall (fun p => VSTStreamSource._streaming p = false) (plugins c).
Proof. intros Hr. exact (ChainFacts.reachable_members_follow c Hr). Qed.

(** X6.  [add_plugin] returns the position of the new member, and
    [remove_plugin] at that position gives back the chain as it was. *)
Theorem add_then_remove e l ps c i c' :
  add_plugin e l ps c = Ok (i, c') ->
  i = len c /\ len c' = S (len c) /\ remove_plugin (Z.of_nat i) c' = Ok c.
Proof.
  intros Hadd.
  destruct (ChainFacts.add_plugin_appends _ _ _ _ _ _ Hadd) as (p & Hps & -> & _ & Hs).
  unfold len. rewrite Hps, length_app. cbn [length].
  split; [reflexivity|]. split; [lia|].
  unfold remove_plugin.
  assert (Hr : in_range (Z.of_nat (length (plugins c))) c' = true)
    by (apply in_range_spec; rewrite Hps, length_app; cbn; lia).
  rewrite Hr. cbn [negb]. rewrite Nat2Z.id, Hps, Hs. f_equal.
  assert (Hd : delete (length (plugins c)) (plugins c ++ [p]) = plugins c).
  { clear. induction (plugins c) as [|q qs IH]; cbn; [reflexivity|]. now f_equal. }
  rewrite Hd.
  unfold add_plugin in Hadd.
  destruct (VSTStreamSource.init e l (sample_rate c) (block_size c)) as [q|];
    [|discriminate].
  cbn in Hadd. destruct (set_parameters ps q); [|discriminate].
  injection Hadd as _ <-. cbn. now destruct c.
Qed.

(** X7.  [remove_plugin] raises [IndexError] for every index outside
    [0 .. len - 1], the negative ones included.  Inside, it takes out that
    member alone and keeps the others in their order; and the plugin taken
    out of a chain built through the methods is not left streaming. *)
Theorem remove_plugin_checks_index (index : Z) c :
  ((index < 0 \/ Z.of_nat (len c) <= index)%Z ->
   remove_plugin index c = Raise IndexError /\
   removed_plugin index c = Raise IndexError) /\
  ((0 <= index < Z.of_nat (len c))%Z ->
   exists c' p,
     remove_plugin index c = Ok c' /\
     plugins c = take (Z.to_nat index) (plugins c) ++
                 p :: drop (S (Z.to_nat index)) (plugins c) /\
     plugins c' = take (Z.to_nat index) (plugins c) ++
                  drop (S (Z.to_nat index)) (plugins c) /\
     len c' = len c - 1 /\ _streaming c' = _streaming c /\
     (reachable c ->
      exists q, removed_plugin index c = Ok q /\
                VSTStreamSource._streaming q = false)).
Proof.
  unfold len. split.
  - intros Hout. unfold remove_plugin, removed_plugin.
    destruct (in_range index c) eqn:E; [|now split].
    apply in_range_spec in E. lia.
  - intros Hin. pose proof (proj2 (in_range_spec index c) Hin) as E.
    destruct (plugins c !! Z.to_nat index) as [p|] eqn:Ep.
    2:{ apply lookup_ge_None in Ep. lia. }
    eexists. exists p. unfold remove_plugin, removed_plugin. rewrite E, Ep.
    cbn [negb].
    split; [reflexivity|]. cbn [plugins _streaming]. split.
    { rewrite <- (take_drop_middle _ _ _ Ep) at 1. reflexivity. }
    split; [apply delete_take_drop|]. split.
    { rewrite length_delete by (rewrite Ep; eauto). reflexivity. }
    split; [reflexivity|]. intros Hr. eexists. split; [reflexivity|].
    destruct (_streaming c) eqn:Es.
    + apply ChainFacts.stop_member_not_streaming.
    + pose proof (ChainFacts.reachable_members_follow c Hr Es) as Hall.
      rewrite Forall_lookup in Hall. exact (Hall _ _ Ep).
Qed.

(** X8.  A plugin added while the chain is streaming is not started, and
    [start_stream] does nothing on a streaming chain: until the chain is
    stopped and started again the new member lets every block through, and
    the chain returns what it returned before. *)
Theorem plugin_added_while_streaming_is_bypassed e l ps c i c' x :
  add_plugin e l ps c = Ok (i, c') ->
  _streaming c = true ->
  returned (process_block x c') = returned (process_block x c) /\
  start_stream c' = (c', []) /\
  exists p, plugins c' !! i = Some p /\ VSTStreamSource._streaming p = false.
Proof.
  intros Hadd Hs.
  destruct (ChainFacts.add_plugin_appends _ _ _ _ _ _ Hadd) as (p & Hps & -> & Hp & Hs').
  assert (E' : returned (process_block x c') = composed (plugins c') x).
  { unfold process_block. rewrite Hs', Hs, Hps. cbn [negb orb].
    rewrite bool_decide_eq_false_2 by (now destruct (plugins c)).
    rewrite <- ChainFacts.process_members_composed.
    destruct (process_members (plugins c ++ [p]) x) as [[d qs]|]; reflexivity. }
  assert (E : returned (process_block x c) = composed (plugins c) x).
  { unfold process_block. rewrite Hs. cbn [negb orb]. case_bool_decide as Hnil.
    - rewrite Hnil. reflexivity.
    - rewrite <- ChainFacts.process_members_composed.
      destruct (process_members (plugins c) x) as [[d qs]|]; reflexivity. }
  split; [|split].
  - rewrite E', E, Hps, composed_app.
    destruct (composed (plugins c) x) as [y|]; cbn [bind composed]; [|reflexivity].
    now rewrite (ChainFacts.stopped_member_returns_input p y Hp).
  - unfold start_stream. now rewrite Hs', Hs.
  - exists p. split; [|exact Hp]. rewrite Hps. apply list_lookup_middle. reflexivity.
Qed.

(** X9.  [start_stream] on a stopped chain leaves every member streaming,
    [stop_stream] on a streaming chain leaves none streaming, and both keep
    the members in their places. *)
Theorem start_and_stop_reach_every_member c :
  (_streaming c = false ->
   plugins (fst (start_stream c)) = map VSTStreamSource.start_stream (plugins c) /\
   Forall (fun p => VSTStreamSource._streaming p = true) (plugins (fst (start_stream c))) /\
   _streaming (fst (start_stream c)) = true) /\
  (_streaming c = true ->
   plugins (fst (stop_stream c)) = map VSTStreamSource.stop_stream (plugins c) /\
   Forall (fun p => VSTStreamSource._streaming p = false) (plugins (fst (stop_stream c))) /\
   _streaming (fst (stop_stream c)) = false).
Proof.
  split; intros E.
  - rewrite (ChainFacts.start_stream_spec c E). cbn. split; [reflexivity|].
    split; [|reflexivity]. apply Forall_fmap, Forall_true. intros p. cbn.
    unfold VSTStreamSource.start_stream.
    destruct (VSTStreamSource._streaming p) eqn:Ep; [exact Ep | reflexivity].
  - rewrite (ChainFacts.stop_stream_spec c E). cbn. split; [reflexivity|].
    split; [|reflexivity]. apply Forall_fmap, Forall_true. intros p.
    apply ChainFacts.stop_member_not_streaming.
Qed.

(** X10.  For a processor and for a chain, a second [start_stream] and a
    second [stop_stream] change nothing, and the chain makes no further
    call to its members. *)
Theorem processor_and_chain_start_stop_twice c p :
  VSTStreamSource.start_stream (VSTStreamSource.start_stream p)
    = VSTStreamSource.start_stream p /\
  VSTStreamSource.stop_stream (VSTStreamSource.stop_stream p)
    = VSTStreamSource.stop_stream p /\
  start_stream (fst (start_stream c)) = (fst (start_stream c), []) /\
  stop_stream (fst (stop_stream c)) = (fst (stop_stream c), []).
Proof.
  split; [apply LifecycleFacts.vst_start_twice|].
  split; [apply LifecycleFacts.vst_stop_twice|].
  split; [apply LifecycleFacts.chain_start_twice | apply LifecycleFacts.chain_stop_twice].
Qed.

(** The blocks of a list sent through a processor, one after the other. *)
Fixpoint process_blocks (xs : list block) p : result (list block * VSTStreamSource.t P) :=
  match xs with
  | [] => Ok ([], p)
  | x :: xs =>
      let* (y, p) := VSTStreamSource.process_block x p in
      let* (ys, p) := process_blocks xs p in
      Ok (y :: ys, p)
  end.

(** X11.  A streaming processor puts every block it returns on its own
    [audio_queue] as well; no method of the class reads that queue, so it
    holds one more block for every block processed, in order. *)
Theorem processor_queues_every_output (xs : list block) : forall p ys p',
  VSTStreamSource._streaming p = true ->
  process_blocks xs p = Ok (ys, p') ->
  PyQueue.items (VSTStreamSource.audio_queue p')
    = PyQueue.items (VSTStreamSource.audio_queue p) ++ ys /\
  length ys = length xs /\
  VSTStreamSource._streaming p' = true.
Proof.
  induction xs as [|x xs IH]; intros p ys p' Hs; cbn [process_blocks].
  - intros [= <- <-]. now rewrite app_nil_r.
  - unfold VSTStreamSource.process_block at 1. rewrite Hs. cbn [negb].
    destruct (plugin_process x (VSTStreamSource.plugin p)) as [[y q]|]; cbn [bind];
      [|discriminate].
    unfold PyQueue.put.
    destruct (PyQueue.full (VSTStreamSource.audio_queue p)); [discriminate|].
    cbn [bind].
    destruct (process_blocks xs _) as [[zs p2]|] eqn:E; cbn [bind]; [|discriminate].
    intros [= <- <-].
    apply IH in E as (Hq & Hl & Hst); [|reflexivity].
    cbn in Hq. rewrite Hq, <- app_assoc. cbn. repeat split; [lia | exact Hst].
Qed.

End WithPlugin.

End ChainMethods.

(* ===================================================================== *)
(** ** More of the plugin of the tests *)
(* ===================================================================== *)

Module MockFacts.

Import MockVST.

(** The names of the three parameters. *)
Definition names : gset string := {[ "gain"; "mix"; "bypass" ]}%string.

(** The plugins the methods of [MockVST] can produce from a new one. *)
Inductive reachable : MockVST.t -> Prop :=
| mock_init : reachable init
| mock_setup p sr bs i o : reachable p -> reachable (setup sr bs i o p)
| mock_start p : reachable p -> reachable (start p)
| mock_stop p : reachable p -> reachable (stop p)
| mock_resume p : reachable p -> reachable (resume p)
| mock_suspend p : reachable p -> reachable (suspend p)
| mock_set p k v p' : reachable p -> set_parameter k v p = Ok p' -> reachable p'
| mock_process p x y p' : reachable p -> process x p = Ok (y, p') -> reachable p'.

(** The parameters are the three of a new plugin, each in [0, 1]. *)
Definition well_formed (p : MockVST.t) : Prop :=
  dom (_parameters p) = names /\
  map_Forall (fun _ v => in_unit_range v = true) (_parameters p).

Lemma process_unchanged (x y : block) (p p' : MockVST.t) :
  process x p = Ok (y, p') -> p' = p.
Proof.
  unfold process. destruct (_running p); cbn [negb]; [|now intros [= _ <-]].
  destruct (getitem p "bypass") as [bypass|]; cbn [bind]; [|discriminate].
  destruct (PyFloat.gt bypass 0.5%float); [now intros [= _ <-]|].
  destruct (getitem p "gain") as [gain|]; cbn [bind]; [|discriminate].
  destruct (getitem p "mix") as [mix|]; cbn [bind]; [|discriminate].
  now intros [= _ <-].
Qed.

Lemma mock_reachable_well_formed (p : MockVST.t) : reachable p -> well_formed p.
Proof.
  induction 1 as [ | p sr bs i o _ IH | p _ IH | p _ IH | p _ IH | p _ IH
                 | p k v p' _ IH Hset | p x y p' _ IH Hp]; try exact IH.
  - split.
    + cbn. rewrite !dom_insert_L, dom_empty_L. unfold names. set_solver.
    + cbn. repeat (apply map_Forall_insert_2; [reflexivity|]). apply map_Forall_empty.
  - destruct IH as [Hd Hv]. unfold set_parameter in Hset.
    destruct (_parameters p !! k) as [old|] eqn:Ek; [|discriminate].
    destruct (in_unit_range v) eqn:Ev; cbn [negb] in Hset; [|discriminate].
    injection Hset as <-. split; cbn.
    + rewrite dom_insert_lookup_L by (rewrite Ek; eauto). exact Hd.
    + apply map_Forall_insert_2; assumption.
  - now rewrite (process_unchanged _ _ _ _ Hp).
Qed.

Lemma getitem_present (p : MockVST.t) (k : string) :
  well_formed p -> k ∈ names ->
  exists v, getitem p k = Ok v /\ in_unit_range v = true.
Proof.
  intros [Hd Hv] Hk. rewrite <- Hd in Hk. apply elem_of_dom in Hk as [v Ek].
  exists v. unfold getitem. rewrite Ek. split; [reflexivity|].
  exact (Hv _ _ Ek).
Qed.

(** X12.  The parameters of the plugin of the tests are always the three
    it starts with, each with a value in [0, 1]; hence [process] never
    fails on a missing parameter: it returns a block as long as its input
    and leaves the plugin as it is. *)
Theorem parameters_stay_three_in_unit_range (p : MockVST.t) :
  reachable p ->
  dom (get_parameters p) = names /\
  map_Forall (fun _ v => in_unit_range v = true) (get_parameters p) /\
  forall x : block, exists y, process x p = Ok (y, p) /\ length y = length x.
Proof.
  intros Hr. pose proof (mock_reachable_well_formed p Hr) as Hwf.
  destruct Hwf as [Hd Hv]. split; [exact Hd|]. split; [exact Hv|].
  intros x.
  destruct (getitem_present p "bypass" (conj Hd Hv)) as (b & Eb & _);
    [unfold names; set_solver|].
  destruct (getitem_present p "gain" (conj Hd Hv)) as (g & Eg & _);
    [unfold names; set_solver|].
  destruct (getitem_present p "mix" (conj Hd Hv)) as (m & Em & _);
    [unfold names; set_solver|].
  unfold process. rewrite Eb, Eg, Em. cbn [bind].
  destruct (_running p); cbn [negb]; [|eauto].
  destruct (PyFloat.gt b 0.5%float); [eauto|].
  eexists. split; [reflexivity|]. rewrite length_zip_with, !length_map. lia.
Qed.

Lemma parameters_stay_three_in_unit_range_witness :
  let p := start (mk (<["gain"%string := 0.5%float]> (_parameters init))
                     false 44100 2048) in
  reachable p /\
  (dom (get_parameters p) = names /\
   map_Forall (fun _ v => in_unit_range v = true) (get_parameters p) /\
   forall x : block, exists y, process x p = Ok (y, p) /\ length y = length x).
Proof.
  cbv zeta.
  assert (Hr : reachable (start (mk (<["gain"%string := 0.5%float]> (_parameters init))
                                    false 44100 2048))).
  { apply mock_start. apply (mock_set init "gain" 0.5%float); [apply mock_init|].
    reflexivity. }
  split; [exact Hr|]. exact (parameters_stay_three_in_unit_range _ Hr).
Defined.

Implicit Types (c : VSTPluginChain.t MockVST.t).

(** X13.  After [set_plugin_parameter(index, name, value)] succeeded on a
    chain, [get_plugin_parameters(index)] gives the parameters it gave
    before with [name] at [value], and gives for every other member what it
    gave before; the chain stays as long and as started as it was. *)
Theorem chain_set_then_get c (index : Z) (name : string) (value : float) c' :
  VSTPluginChain.set_plugin_parameter index name value c = Ok c' ->
  (exists old,
     VSTPluginChain.get_plugin_parameters index c = Ok old /\
     VSTPluginChain.get_plugin_parameters index c' = Ok (<[name := value]> old) /\
     is_Some (old !! name) /\ in_unit_range value = true) /\
  (forall j : Z, j <> index ->
     VSTPluginChain.get_plugin_parameters j c'
     = VSTPluginChain.get_plugin_parameters j c) /\
  length (VSTPluginChain.plugins c') = length (VSTPluginChain.plugins c) /\
  VSTPluginChain._streaming c' = VSTPluginChain._streaming c.
Proof.
  unfold VSTPluginChain.set_plugin_parameter.
  destruct (VSTPluginChain.in_range index c) eqn:Hi; cbn [negb]; [|discriminate].
  destruct (VSTPluginChain.plugins c !! Z.to_nat index) as [s|] eqn:Es; [|discriminate].
  unfold VSTStreamSource.set_plugin_parameter. cbn [plugin_set_parameter plugin].
  unfold set_parameter.
  destruct (_parameters (VSTStreamSource.plugin s) !! name) as [v0|] eqn:Ek;
    cbn [bind]; [|discriminate].
  destruct (in_unit_range value) eqn:Ev; cbn [negb bind]; [|discriminate].
  intros [= <-].
  assert (Hlt : Z.to_nat index < length (VSTPluginChain.plugins c))
    by (apply lookup_lt_Some in Es; exact Es).
  assert (Hr : forall j, VSTPluginChain.in_range j
                 (VSTPluginChain.mk (VSTPluginChain.sample_rate c)
                    (VSTPluginChain.block_size c)
                    (<[Z.to_nat index := VSTStreamSource.mk
                         (VSTStreamSource.sample_rate s) (VSTStreamSource.block_size s)
                         (VSTStreamSource.audio_queue s) (VSTStreamSource._streaming s)
                         (mk (<[name := value]> (_parameters (VSTStreamSource.plugin s)))
                             (_running (VSTStreamSource.plugin s))
                             (_sample_rate (VSTStreamSource.plugin s))
                             (_block_size (VSTStreamSource.plugin s)))]>
                       (VSTPluginChain.plugins c))
                    (VSTPluginChain._streaming c))
               = VSTPluginChain.in_range j c).
  { intros j. unfold VSTPluginChain.in_range. cbn. now rewrite length_insert. }
  split; [|split; [|split]].
  - exists (_parameters (VSTStreamSource.plugin s)).
    unfold VSTPluginChain.get_plugin_parameters. rewrite Hr, Hi, Es. cbn [negb].
    cbn [VSTPluginChain.plugins]. rewrite list_lookup_insert_eq by exact Hlt.
    repeat split; eauto.
  - intros j Hj. unfold VSTPluginChain.get_plugin_parameters. rewrite Hr.
    destruct (VSTPluginChain.in_range j c) eqn:Hjr; [|reflexivity].
    cbn [negb VSTPluginChain.plugins]. rewrite list_lookup_insert_ne; [reflexivity|].
    apply ChainMethods.in_range_spec in Hjr, Hi. lia.
  - cbn. apply length_insert.
  - reflexivity.
Qed.


End MockFacts.

(* ===================================================================== *)
(** ** The chain methods on the chain of two test plugins *)
(* ===================================================================== *)

Module ChainMethodsExample.

Import VSTPluginChain.
Import ChainExample.

Lemma chain2_reachable : reachable chain2.
Proof.
  eapply reach_add; [|exact add_second].
  eapply reach_add; [|exact add_first]. apply reach_init.
Defined.

Lemma stopped_chain_has_stopped_members_witness :
  (reachable chain2 /\ _streaming chain2 = false) /\
  Forall (fun p => VSTStreamSource._streaming p = false) (plugins chain2).
Proof.
  split; [split; [exact chain2_reachable | reflexivity]|].
  exact (ChainMethods.stopped_chain_has_stopped_members chain2 chain2_reachable
           Logic.eq_refl).
Defined.

Lemma add_then_remove_witness :
  add_plugin true (Ok MockVST.init) [("gain"%string, 0.5%float)] chain1
    = Ok (1, chain2) /\
  (1 = ChainMethods.len chain1 /\ ChainMethods.len chain2 = 2 /\
   remove_plugin 1 chain2 = Ok chain1).
Proof.
  split; [exact add_second|].
  exact (ChainMethods.add_then_remove true (Ok MockVST.init)
           [("gain"%string, 0.5%float)] chain1 1 chain2 add_second).
Defined.

(** A third plugin, added while the chain is streaming. *)
Definition chain3 : VSTPluginChain.t MockVST.t :=
  match add_plugin true (Ok MockVST.init) [("gain"%string, 0%float)] started with
  | Ok (_, c) => c
  | Raise _ => started
  end.

Lemma add_third :
  add_plugin true (Ok MockVST.init) [("gain"%string, 0%float)] started
  = Ok (2, chain3).
Proof. vm_compute. reflexivity. Qed.

Lemma plugin_added_while_streaming_is_bypassed_witness :
  let x := [1; 0.5; -1]%float in
  (add_plugin true (Ok MockVST.init) [("gain"%string, 0%float)] started
     = Ok (2, chain3) /\
   _streaming started = true) /\
  (returned (process_block x chain3) = returned (process_block x started) /\
   start_stream chain3 = (chain3, []) /\
   exists p, plugins chain3 !! 2 = Some p /\ VSTStreamSource._streaming p = false).
Proof.
  cbv zeta. split; [split; [exact add_third | reflexivity]|].
  exact (ChainMethods.plugin_added_while_streaming_is_bypassed true (Ok MockVST.init)
           [("gain"%string, 0%float)] started 2 chain3 [1; 0.5; -1]%float
           add_third Logic.eq_refl).
Defined.

(** The first member of the started chain, and what two blocks leave. *)
Definition source : VSTStreamSource.t MockVST.t :=
  match plugins started with
  | p :: _ => p
  | [] => VSTStreamSource.mk 44100 2048 (PyQueue.new 0) true MockVST.init
  end.

Definition source_after : VSTStreamSource.t MockVST.t :=
  match ChainMethods.process_blocks [[1]; [0.5]]%float source with
  | Ok (_, p) => p
  | Raise _ => source
  end.

Lemma two_blocks :
  ChainMethods.process_blocks [[1]; [0.5]]%float source
  = Ok ([[1]; [0.5]]%float, source_after).
Proof. vm_compute. reflexivity. Qed.

Lemma processor_queues_every_output_witness :
  (VSTStreamSource._streaming source = true /\
   ChainMethods.process_blocks [[1]; [0.5]]%float source
     = Ok ([[1]; [0.5]]%float, source_after)) /\
  (PyQueue.items (VSTStreamSource.audio_queue source_after)
     = PyQueue.items (VSTStreamSource.audio_queue source) ++ [[1]; [0.5]]%float /\
   length [[1]; [0.5]]%float = length [[1]; [0.5]]%float /\
   VSTStreamSource._streaming source_after = true).
Proof.
  split; [split; [reflexivity | exact two_blocks]|].
  exact (ChainMethods.processor_queues_every_output [[1]; [0.5]]%float source
           [[1]; [0.5]]%float source_after Logic.eq_refl two_blocks).
Defined.

(** The gain of the second member set to a quarter. *)
Definition chain2_quarter : VSTPluginChain.t MockVST.t :=
  match set_plugin_parameter 1 "gain" 0.25%float chain2 with
  | Ok c => c
  | Raise _ => chain2
  end.

Lemma set_quarter :
  set_plugin_parameter 1 "gain" 0.25%float chain2 = Ok chain2_quarter.
Proof. vm_compute. reflexivity. Qed.

Lemma chain_set_then_get_witness :
  set_plugin_parameter 1 "gain" 0.25%float chain2 = Ok chain2_quarter /\
  ((exists old,
      get_plugin_parameters 1 chain2 = Ok old /\
      get_plugin_parameters 1 chain2_quarter = Ok (<["gain"%string := 0.25%float]> old) /\
      is_Some (old !! "gain"%string) /\ MockVST.in_unit_range 0.25%float = true) /\
   (forall j : Z, j <> 1%Z ->
      get_plugin_parameters j chain2_quarter = get_plugin_parameters j chain2) /\
   length (plugins chain2_quarter) = length (plugins chain2) /\
   _streaming chain2_quarter = _streaming chain2).
Proof.
  split; [exact set_quarter|].
  exact (MockFacts.chain_set_then_get chain2 1 "gain" 0.25%float chain2_quarter
           set_quarter).
Defined.


End ChainMethodsExample.

(* ===================================================================== *)
(** ** More of the SRT source: its states, its decoder, its queue *)
(* ===================================================================== *)

Module SrtFacts.

Import SRTStreamSource.

Implicit Types (s : SRTStreamSource.t).

(** The sources the methods and the decoder thread can produce. *)
Inductive reachable : SRTStreamSource.t -> Prop :=
| srt_init url scheme sr bs s :
    init url scheme sr bs = Ok s -> reachable s
| srt_start o s :
    reachable s -> reachable (fst (fst (start_stream o s)))
| srt_stop s :
    reachable s -> reachable (fst (fst (stop_stream s)))
| srt_decode fuel samples buffer s buffer' s' :
    reachable s ->
    decode_frame fuel samples buffer s = Some (Ok (buffer', s')) -> reachable s'
| srt_error s :
    reachable s -> reachable (fst (decode_error s))
| srt_get s b s' :
    reachable s -> get_audio_block s = Some (b, s') -> reachable s'.

(** A streaming source has its thread and its container, and the queue
    has no capacity. *)
Definition well_formed s : Prop :=
  (_streaming s = true -> is_Some (_thread s) /\ is_Some (_container s)) /\
  PyQueue.maxsize (audio_queue s) = 0%Z.

Lemma emit_blocks_maxsize (fuel : nat) : forall (bs : Z) (buffer : list float)
  (q : PyQueue.Queue block) buffer' q',
  emit_blocks fuel bs buffer q = Some (Ok (buffer', q')) ->
  PyQueue.maxsize q' = PyQueue.maxsize q.
Proof.
  induction fuel as [|fuel IH]; intros bs buffer q buffer' q'; cbn [emit_blocks];
    [discriminate|].
  destruct (bs <=? Z.of_nat (length buffer))%Z; [|now intros [= _ <-]].
  unfold PyQueue.put.
  match goal with |- context [if ?b then _ else _] => destruct b end;
    [discriminate|].
  intros E. apply IH in E. exact E.
Qed.

Lemma srt_reachable_well_formed s : reachable s -> well_formed s.
Proof.
  induction 1 as [url scheme sr bs s Hi | o s _ IH | s _ IH
                 | fuel samples buffer s buffer' s' _ IH Hd | s _ IH
                 | s b s' _ IH Hg]; unfold well_formed in *.
  - unfold init in Hi. destruct (negb (String.eqb scheme "srt")); [discriminate|].
    injection Hi as <-. cbn. split; [discriminate | reflexivity].
  - destruct IH as [IH Hq]. unfold start_stream.
    destruct (_streaming s) eqn:E; cbn [fst]; [rewrite E; now split|].
    destruct o; cbn; (split; [|exact Hq]); try discriminate. eauto.
  - destruct IH as [IH Hq]. unfold stop_stream.
    destruct (_streaming s) eqn:E; cbn [negb fst]; [|rewrite E; now split].
    destruct (_thread s); [destruct (_container s)|]; cbn;
      (split; [discriminate | exact Hq]).
  - destruct IH as [IH Hq]. unfold decode_frame in Hd.
    destruct (_streaming s) eqn:E; cbn [negb] in Hd.
    + destruct (emit_blocks fuel (block_size s) (buffer ++ samples) (audio_queue s))
        as [[[b q]|]|] eqn:Ee; try discriminate.
      injection Hd as _ <-. cbn. rewrite (emit_blocks_maxsize _ _ _ _ _ _ Ee).
      split; [intros _; now apply IH | exact Hq].
    + injection Hd as _ <-. rewrite E. now split.
  - destruct IH as [IH Hq]. cbn. split; [discriminate | exact Hq].
  - destruct IH as [IH Hq]. unfold get_audio_block, PyQueue.get_nowait in Hg.
    destruct (PyQueue.items (audio_queue s)); [discriminate|].
    injection Hg as _ <-. cbn. split; [exact IH | exact Hq].
Qed.

(** X15.  In every state an SRT source can reach, [stop_stream] finds
    every attribute it reads: it returns without raising (the join and the
    close taken to return) and leaves the source stopped; called on a
    streaming source it joins the thread for at most one second, closes
    the container and forgets it. *)
Theorem srt_stop_never_raises s :
  reachable s ->
  snd (stop_stream s) = Ok () /\
  _streaming (fst (fst (stop_stream s))) = false /\
  (_streaming s = true ->
   snd (fst (stop_stream s)) = [ThreadJoin 1.0%float; ContainerClose] /\
   _container (fst (fst (stop_stream s))) = None /\
   _stream (fst (fst (stop_stream s))) = None).
Proof.
  intros Hr. destruct (srt_reachable_well_formed s Hr) as [Hwf _].
  unfold stop_stream. destruct (_streaming s) eqn:E; cbn [negb].
  - destruct (Hwf Logic.eq_refl) as [[th ->] [co ->]]. cbn. auto.
  - cbn. split; [reflexivity|]. split; [exact E | discriminate].
Qed.

(** X16.  With a block size of zero or less the loop of the decoder never
    ends: whatever the number of rounds it is given, it is still cutting
    "blocks" off the buffer and queueing them; a streaming source with such
    a block size never finishes its first frame. *)
Theorem nonpositive_block_size_never_ends (fuel : nat) :
  forall (bs : Z) (buffer : list float) (q : PyQueue.Queue block),
  (bs <= 0)%Z -> (PyQueue.maxsize q <= 0)%Z ->
  emit_blocks fuel bs buffer q = None /\
  forall s samples,
    _streaming s = true -> block_size s = bs -> audio_queue s = q ->
    decode_frame fuel samples buffer s = None.
Proof.
  assert (G : forall fuel bs (buffer : list float) (q : PyQueue.Queue block),
             (bs <= 0)%Z -> (PyQueue.maxsize q <= 0)%Z ->
             emit_blocks fuel bs buffer q = None).
  { clear fuel. induction fuel as [|fuel IH]; intros bs buffer q Hbs Hq;
      cbn [emit_blocks]; [reflexivity|].
    destruct (Z.leb_spec bs (Z.of_nat (length buffer))); [|lia].
    rewrite (PyQueue.put_unbounded _ q Hq). now apply IH. }
  intros bs buffer q Hbs Hq. split; [now apply G|].
  intros s samples Hs Hb Hqs. unfold decode_frame. rewrite Hs, Hb, Hqs. cbn [negb].
  now rewrite G.
Qed.

Lemma nonpositive_block_size_never_ends_witness :
  ((0 <= 0)%Z /\ (PyQueue.maxsize (PyQueue.new 0 : PyQueue.Queue block) <= 0)%Z) /\
  (emit_blocks 1000 0 [0.5%float] (PyQueue.new 0) = None /\
   forall s samples,
     _streaming s = true -> block_size s = 0%Z -> audio_queue s = PyQueue.new 0 ->
     decode_frame 1000 samples [0.5%float] s = None).
Proof.
  assert (H0 : (0 <= 0)%Z) by lia.
  assert (Hq : (PyQueue.maxsize (PyQueue.new 0 : PyQueue.Queue block) <= 0)%Z)
    by (cbn; lia).
  split; [split; assumption|].
  exact (nonpositive_block_size_never_ends 1000 0 [0.5%float] (PyQueue.new 0) H0 Hq).
Defined.

(** [n] calls of [get_audio_block], as long as they give a block. *)
Fixpoint drain (n : nat) s : list block * SRTStreamSource.t :=
  match n with
  | 0 => ([], s)
  | S n =>
      match get_audio_block s with
      | None => ([], s)
      | Some (b, s) => let '(bs, s) := drain n s in (b :: bs, s)
      end
  end.

Lemma drain_all (blocks : list block) : forall s,
  PyQueue.items (audio_queue s) = blocks ->
  fst (drain (length blocks) s) = blocks /\
  get_audio_block (snd (drain (length blocks) s)) = None.
Proof.
  induction blocks as [|b blocks IH]; intros s Hs; cbn [length drain].
  - cbn. split; [reflexivity|]. unfold get_audio_block, PyQueue.get_nowait.
    now rewrite Hs.
  - unfold get_audio_block at 1 3, PyQueue.get_nowait. rewrite Hs.
    specialize (IH (mk (url s) (sample_rate s) (block_size s)
                       (PyQueue.mkQueue (PyQueue.maxsize (audio_queue s)) blocks)
                       (_streaming s) (_container s) (_stream s) (_thread s))
                   Logic.eq_refl).
    destruct (drain (length blocks) _) as [bs s']. cbn [fst snd] in *.
    destruct IH as [-> IH]. now split.
Qed.

Lemma decode_frame_keeps fuel samples buffer s buffer' s' :
  decode_frame fuel samples buffer s = Some (Ok (buffer', s')) ->
  _streaming s' = _streaming s /\ block_size s' = block_size s.
Proof.
  unfold decode_frame. destruct (_streaming s) eqn:E; cbn [negb].
  - destruct (emit_blocks fuel (block_size s) (buffer ++ samples) (audio_queue s))
      as [[[b q]|]|]; try discriminate.
    intros [= _ <-]. cbn. now split.
  - intros [= _ <-]. now split.
Qed.

Lemma decode_frames_all (frames : list (list float)) : forall buffer s,
  _streaming s = true -> (0 < block_size s)%Z ->
  (PyQueue.maxsize (audio_queue s) <= 0)%Z ->
  exists blocks rest s',
    QueueFacts.decode_frames frames buffer s = Some (Ok (rest, s')) /\
    PyQueue.items (audio_queue s') = PyQueue.items (audio_queue s) ++ blocks /\
    concat blocks ++ rest = buffer ++ concat frames /\
    Forall (fun b => Z.of_nat (length b) = block_size s) blocks /\
    (frames <> [] -> (Z.of_nat (length rest) < block_size s)%Z).
Proof.
  induction frames as [|samples frames IH]; intros buffer s Hs Hbs Hq.
  - exists [], buffer, s. cbn. rewrite !app_nil_r. repeat split; [constructor | congruence].
  - cbn [QueueFacts.decode_frames concat].
    destruct (QueueFacts.decode_frame_all s buffer samples Hs Hbs Hq)
      as (blocks1 & rest1 & s1 & E1 & Hi1 & Hm1 & Hc1 & Hl1 & Hr1).
    rewrite E1. destruct (decode_frame_keeps _ _ _ _ _ _ E1) as [Hs1 Hb1].
    destruct (IH rest1 s1) as (blocks2 & rest2 & s2 & E2 & Hi2 & Hc2 & Hl2 & Hr2);
      [congruence | lia | lia |].
    exists (blocks1 ++ blocks2), rest2, s2. rewrite E2. split; [reflexivity|].
    split; [rewrite Hi2, Hi1; symmetry; apply app_assoc|].
    split; [rewrite concat_app, <- app_assoc, Hc2, app_assoc, Hc1; symmetry; apply app_assoc|].
    split; [apply Forall_app; split; [exact Hl1 | now rewrite <- Hb1]|].
    intros _. destruct frames as [|f frames].
    + cbn in E2. injection E2 as <- _. exact Hr1.
    + rewrite <- Hb1. apply Hr2. discriminate.
Qed.

(** X17.  What the decoder queues is read back in the order it was
    decoded: on a live source with a positive block size and an empty
    queue, the blocks [get_audio_block] gives until it answers [None],
    followed by what the decoder still holds, are the samples of the frames;
    every block has [block_size] samples and less than a block is held
    back. *)
Theorem decoded_samples_are_read_in_order (frames : list (list float)) s :
  _streaming s = true -> (0 < block_size s)%Z ->
  (PyQueue.maxsize (audio_queue s) <= 0)%Z ->
  PyQueue.items (audio_queue s) = [] ->
  exists blocks rest s',
    QueueFacts.decode_frames frames [] s = Some (Ok (rest, s')) /\
    fst (drain (length blocks) s') = blocks /\
    get_audio_block (snd (drain (length blocks) s')) = None /\
    concat blocks ++ rest = concat frames /\
    Forall (fun b => Z.of_nat (length b) = block_size s) blocks /\
    (frames <> [] -> (Z.of_nat (length rest) < block_size s)%Z).
Proof.
  intros Hs Hbs Hq Hempty.
  destruct (decode_frames_all frames [] s Hs Hbs Hq)
    as (blocks & rest & s' & E & Hi & Hc & Hl & Hr).
  rewrite Hempty in Hi. cbn in Hi, Hc.
  exists blocks, rest, s'. split; [exact E|].
  destruct (drain_all blocks s' Hi) as [Hd Hn]. auto.
Qed.

Lemma decoded_samples_are_read_in_order_witness :
  let s := QueueFacts.live_source [] in
  let frames := [[0.1; 0.2]; [0.3]]%float in
  (_streaming s = true /\ (0 < block_size s)%Z /\
   (PyQueue.maxsize (audio_queue s) <= 0)%Z /\
   PyQueue.items (audio_queue s) = []) /\
  exists blocks rest s',
    QueueFacts.decode_frames frames [] s = Some (Ok (rest, s')) /\
    fst (drain (length blocks) s') = blocks /\
    get_audio_block (snd (drain (length blocks) s')) = None /\
    concat blocks ++ rest = concat frames /\
    Forall (fun b => Z.of_nat (length b) = block_size s) blocks /\
    (frames <> [] -> (Z.of_nat (length rest) < block_size s)%Z).
Proof.
  cbv zeta.
  assert (Hb : (0 < block_size (QueueFacts.live_source []))%Z) by (cbn; lia).
  assert (Hq : (PyQueue.maxsize (audio_queue (QueueFacts.live_source [])) <= 0)%Z)
    by (cbn; lia).
  split; [repeat split; assumption|].
  exact (decoded_samples_are_read_in_order [[0.1; 0.2]; [0.3]]%float
           (QueueFacts.live_source []) Logic.eq_refl Hb Hq Logic.eq_refl).
Defined.

(** X18.  A [start_stream] that cannot open the stream, or finds no audio
    track in it, raises [RuntimeError], starts no thread and leaves the
    source stopped with its queue untouched; the next [start_stream] tries
    again, and when the stream opens the source is streaming. *)
Theorem srt_failed_start_can_be_retried (o : opening) s :
  _streaming s = false -> o <> Opens ->
  let failed := fst (fst (start_stream o s)) in
  start_stream o s = (failed, [AvOpen (url s)], Raise RuntimeError) /\
  _streaming failed = false /\
  audio_queue failed = audio_queue s /\
  _thread failed = _thread s /\
  start_stream Opens failed
    = (mk (url s) (sample_rate s) (block_size s) (audio_queue s) true
          (Some Container) (Some AudioStream) (Some Thread),
       [AvOpen (url s); ThreadStart "_process_stream"], Ok ()).
Proof.
  intros Hs Ho. cbv zeta. unfold start_stream. rewrite Hs.
  destruct o; [| |congruence]; cbn; auto.
Qed.

Lemma srt_failed_start_can_be_retried_witness :
  let s := mk "srt://host:9000" 44100 2048 (PyQueue.new 0) false None None None in
  (_streaming s = false /\ NoAudioTrack <> Opens) /\
  let failed := fst (fst (start_stream NoAudioTrack s)) in
  start_stream NoAudioTrack s = (failed, [AvOpen (url s)], Raise RuntimeError) /\
  _streaming failed = false /\
  audio_queue failed = audio_queue s /\
  _thread failed = _thread s /\
  start_stream Opens failed
    = (mk (url s) (sample_rate s) (block_size s) (audio_queue s) true
          (Some Container) (Some AudioStream) (Some Thread),
       [AvOpen (url s); ThreadStart "_process_stream"], Ok ()).
Proof.
  cbv zeta.
  assert (Hne : NoAudioTrack <> Opens) by discriminate.
  split; [split; [reflexivity | exact Hne]|].
  exact (srt_failed_start_can_be_retried NoAudioTrack
           (mk "srt://host:9000" 44100 2048 (PyQueue.new 0) false None None None)
           Logic.eq_refl Hne).
Defined.

Lemma srt_stop_never_raises_witness :
  let s := QueueFacts.live_source [] in
  reachable s /\
  (snd (stop_stream s) = Ok () /\
   _streaming (fst (fst (stop_stream s))) = false /\
   (_streaming s = true ->
    snd (fst (stop_stream s)) = [ThreadJoin 1.0%float; ContainerClose] /\
    _container (fst (fst (stop_stream s))) = None /\
    _stream (fst (fst (stop_stream s))) = None)).
Proof.
  cbv zeta.
  assert (Hr : reachable (QueueFacts.live_source [])).
  { apply (srt_start Opens
             (mk "srt://host:9000" 44100 1 (PyQueue.new 0) false None None None)).
    apply (srt_init "srt://host:9000" "srt" 44100 1). reflexivity. }
  split; [exact Hr|]. exact (srt_stop_never_raises _ Hr).
Defined.

End SrtFacts.

(* ===================================================================== *)
(** ** More of the session: parameters, window, plugin, shutdown *)
(* ===================================================================== *)

Module SessionMethods.

Import KeyDetector.

Section WithPlugin.

Context {P : Type} `{Plugin P}.

Implicit Types (d : KeyDetector.t P).

(** [get_vst_parameters]: [None] when no plugin is loaded. *)
Definition get_vst_parameters d : option (gmap string float) :=
  match vst_stream d with
  | Some v => Some (VSTStreamSource.get_plugin_parameters v)
  | None => None
  end.

(** [set_vst_parameter] *)
Definition set_vst_parameter (param_id : string) (value : float) d
  : result (KeyDetector.t P) :=
  match vst_stream d with
  | None => Raise RuntimeError
  | Some v =>
      let* v := VSTStreamSource.set_plugin_parameter param_id value v in
      Ok (set_vst_stream (Some v) d)
  end.

(** The property [current_key]. *)
Definition current_key d : string := _current_key d.

(** What a method leaves alone when it only touches the audio path. *)
Definition control d : bool * option thread * option input_stream :=
  (_streaming d, process_thread d, stream d).

Section WithAnalysis.

Variable corrcoef : list float -> list float -> float.
Variable chroma_mean : list float -> Z -> list float.

Lemma on_estimate_keeps new_key d :
  let d' := fst (on_estimate new_key d) in
  control d' = control d /\ srt_stream d' = srt_stream d /\
  vst_stream d' = vst_stream d /\ audio_queue d' = audio_queue d.
Proof.
  unfold on_estimate. destruct (_on_key_change d) as [cb|]; [|now cbn].
  destruct (negb (String.eqb new_key (_current_key d))); [|now cbn].
  destruct (cb (_current_key d) new_key); now cbn.
Qed.

Lemma append_and_analyze_keeps R new_audio d :
  let d' := fst (append_and_analyze corrcoef chroma_mean R new_audio d) in
  control d' = control d /\ srt_stream d' = srt_stream d /\
  vst_stream d' = vst_stream d /\ audio_queue d' = audio_queue d.
Proof.
  unfold append_and_analyze. cbv zeta.
  set (d0 := set_stream_buffer _ d).
  assert (H0 : control d0 = control d /\ srt_stream d0 = srt_stream d /\
               vst_stream d0 = vst_stream d /\ audio_queue d0 = audio_queue d)
    by now cbn.
  destruct (R <=? _)%Z; [|exact H0].
  destruct (Estimator._analyze_audio _ _ _ _) as [k|]; [|exact H0].
  destruct (on_estimate_keeps k d0) as (H1 & H2 & H3 & H4).
  destruct H0 as (H5 & H6 & H7 & H8).
  repeat split; congruence.
Qed.

(** A round of the analysis loop leaves the state of the session alone;
    of the SRT source it takes at most one block. *)
Lemma iteration_keeps R d :
  let d' := fst (iteration corrcoef chroma_mean R d) in
  control d' = control d /\
  match srt_stream d with
  | None => srt_stream d' = None
  | Some s =>
      srt_stream d' = Some s \/
      exists b s', SRTStreamSource.get_audio_block s = Some (b, s') /\
                   srt_stream d' = Some s'
  end.
Proof.
  unfold iteration. destruct (srt_stream d) as [s|] eqn:Es.
  - destruct (SRTStreamSource.get_audio_block s) as [[b s']|] eqn:Eg;
      cbn [fst]; [|rewrite Es; auto].
    destruct (append_and_analyze_keeps R b (set_srt_stream (Some s') d))
      as (Hc & Hs & _). cbv zeta. rewrite Hc, Hs. split; [reflexivity|].
    right. eauto.
  - destruct (PyQueue.get (audio_queue d)) as [[b q]|]; cbn [fst]; [|auto].
    cbn [vst_stream set_audio_queue]. destruct (vst_stream d) as [v|].
    + destruct (VSTStreamSource.process_block b v) as [[b' v']|]; cbn [fst].
      * match goal with |- context [append_and_analyze _ _ R b' ?d0] =>
          destruct (append_and_analyze_keeps R b' d0) as (Hc & Hs & _) end.
        cbv zeta. rewrite Hc, Hs. cbn. auto.
      * cbn. auto.
    + match goal with |- context [append_and_analyze _ _ R b ?d0] =>
        destruct (append_and_analyze_keeps R b d0) as (Hc & Hs & _) end.
      cbv zeta. rewrite Hc, Hs. cbn. auto.
Qed.

Lemma audio_callback_keeps indata d d' :
  audio_callback indata d = Ok d' ->
  control d' = control d /\ srt_stream d' = srt_stream d /\
  _current_key d' = _current_key d.
Proof.
  unfold audio_callback. destruct (srt_stream d) eqn:Es; [now intros [= <-]|].
  destruct (vst_stream d) as [v|].
  - destruct (VSTStreamSource.process_block indata v) as [[b v']|]; cbn [bind];
      [|discriminate].
    destruct (PyQueue.put b (audio_queue d)); [|discriminate].
    intros [= <-]. cbn. auto.
  - destruct (PyQueue.put indata (audio_queue d)); [|discriminate].
    intros [= <-]. cbn. auto.
Qed.

Lemma run_step_keeps R st d :
  let d' := fst (run_step corrcoef chroma_mean R st d) in
  control d' = control d /\
  match srt_stream d with
  | None => srt_stream d' = None
  | Some s =>
      srt_stream d' = Some s \/
      exists b s', SRTStreamSource.get_audio_block s = Some (b, s') /\
                   srt_stream d' = Some s'
  end.
Proof.
  unfold run_step. destruct st as [indata|].
  - destruct (audio_callback indata d) as [d1|] eqn:E; cbn [fst].
    + destruct (audio_callback_keeps _ _ _ E) as (Hc & Hs & _). cbv zeta.
      rewrite Hc, Hs. split; [reflexivity|]. destruct (srt_stream d); auto.
    + cbv zeta. split; [reflexivity|]. destruct (srt_stream d); auto.
  - destruct (_streaming d); [apply iteration_keeps|].
    cbv zeta. cbn [fst]. split; [reflexivity|]. destruct (srt_stream d); auto.
Qed.

(** The window keeps its most recent part: the exact cut. *)
Lemma keep_recent_drop (R : Z) (buffer : list float) :
  (0 < R)%Z -> keep_recent R buffer = drop (length buffer - Z.to_nat R) buffer.
Proof.
  intros HR. unfold keep_recent, slice_from.
  destruct (Z.ltb_spec R (Z.of_nat (length buffer))) as [Hlt|Hge].
  - destruct (Z.ltb_spec (- R) 0); [|lia]. f_equal. lia.
  - replace (length buffer - Z.to_nat R) with 0 by lia. reflexivity.
Qed.

(** A window the estimator has named carries one of the 24 key names. *)
Lemma analysis_named (y : list float) (sr : Z) (key : string) :
  Estimator._analyze_audio corrcoef chroma_mean y sr = Ok key ->
  key ∈ EstimatorFacts.key_names.
Proof.
  unfold Estimator._analyze_audio.
  destruct (KeyEstimation.analyze_chroma_total corrcoef (chroma_mean y sr))
    as (k & name & mode & _ & Hname & Hmode & E & _).
  rewrite E. intros [= <-]. now apply (EstimatorFacts.key_name_listed k).
Qed.

Lemma on_estimate_key new_key d :
  _current_key (fst (on_estimate new_key d)) = _current_key d \/
  _current_key (fst (on_estimate new_key d)) = new_key.
Proof.
  unfold on_estimate. destruct (_on_key_change d) as [cb|]; [|now right].
  destruct (negb (String.eqb new_key (_current_key d))); [|now right].
  destruct (cb (_current_key d) new_key); [now right | now left].
Qed.

Lemma append_and_analyze_key R new_audio d :
  let d' := fst (append_and_analyze corrcoef chroma_mean R new_audio d) in
  _current_key d' = _current_key d \/ _current_key d' ∈ EstimatorFacts.key_names.
Proof.
  unfold append_and_analyze. cbv zeta.
  set (d0 := set_stream_buffer _ d).
  destruct (R <=? _)%Z; [|now left].
  destruct (Estimator._analyze_audio _ _ _ _) as [k|] eqn:E; [|now left].
  destruct (on_estimate_key k d0) as [-> | ->]; [now left|].
  right. exact (analysis_named _ _ _ E).
Qed.

Lemma iteration_key R d :
  let d' := fst (iteration corrcoef chroma_mean R d) in
  _current_key d' = _current_key d \/ _current_key d' ∈ EstimatorFacts.key_names.
Proof.
  unfold iteration. destruct (srt_stream d) as [s|].
  - destruct (SRTStreamSource.get_audio_block s) as [[b s']|]; [|now left].
    apply (append_and_analyze_key R b (set_srt_stream (Some s') d)).
  - destruct (PyQueue.get (audio_queue d)) as [[b q]|]; [|now left].
    cbn [vst_stream set_audio_queue]. destruct (vst_stream d) as [v|].
    + destruct (VSTStreamSource.process_block b v) as [[b' v']|]; [|now left].
      match goal with |- context [append_and_analyze _ _ R b' ?d0] =>
        apply (append_and_analyze_key R b' d0) end.
    + match goal with |- context [append_and_analyze _ _ R b ?d0] =>
        apply (append_and_analyze_key R b d0) end.
Qed.

Lemma run_step_key R st d :
  let d' := fst (run_step corrcoef chroma_mean R st d) in
  _current_key d' = _current_key d \/ _current_key d' ∈ EstimatorFacts.key_names.
Proof.
  unfold run_step. destruct st as [indata|].
  - destruct (audio_callback indata d) as [d1|] eqn:E; [|now left].
    destruct (audio_callback_keeps _ _ _ E) as (_ & _ & Hk). now left.
  - destruct (_streaming d); [apply iteration_key | now left].
Qed.

(** The sessions that the constructor, the methods, the capture callback,
    the analysis thread and the thread of the SRT source can produce. *)
Inductive reachable : KeyDetector.t P -> Prop :=
| kd_init a sr bs dev vst srt cb d :
    (forall s, srt = Some (Ok s) -> SrtFacts.reachable s) ->
    init a sr bs dev vst srt cb = Ok d -> reachable d
| kd_start o b d :
    reachable d -> reachable (fst (fst (start_stream o b d)))
| kd_stop d :
    reachable d -> reachable (fst (fst (stop_stream d)))
| kd_step R st d :
    reachable d -> reachable (fst (run_step corrcoef chroma_mean R st d))
| kd_decode fuel samples buffer d s buffer' s' :
    reachable d -> srt_stream d = Some s ->
    SRTStreamSource.decode_frame fuel samples buffer s = Some (Ok (buffer', s')) ->
    reachable (set_srt_stream (Some s') d)
| kd_decode_error d s :
    reachable d -> srt_stream d = Some s ->
    reachable (set_srt_stream (Some (fst (SRTStreamSource.decode_error s))) d)
| kd_set_parameter name value d d' :
    reachable d -> set_vst_parameter name value d = Ok d' -> reachable d'.

(** A streaming session has its analysis thread and, without an SRT
    source, its input stream; the SRT source is one its own methods and
    thread can produce; the current key is the initial one or a key name. *)
Definition well_formed d : Prop :=
  (_streaming d = true ->
   is_Some (process_thread d) /\ (srt_stream d = None -> is_Some (stream d))) /\
  (forall s, srt_stream d = Some s -> SrtFacts.reachable s) /\
  (_current_key d = "Unknown"%string \/ _current_key d ∈ EstimatorFacts.key_names).

Lemma session_reachable_well_formed d : reachable d -> well_formed d.
Proof.
  induction 1 as [a sr bs dev vst srt cb d Hsrt Hi | o b d _ IH | d _ IH
                 | R st d _ IH | fuel samples buffer d s buffer' s' Hr IH Hs Hd
                 | d s Hr IH Hs | name value d d' _ IH Hset];
    unfold well_formed in *.
  - unfold init in Hi.
    destruct vst as [[v|e]|]; cbn [bind] in Hi; try discriminate;
      destruct srt as [[s|e']|]; cbn [bind] in Hi; try discriminate;
      injection Hi as <-; cbn;
      (split; [discriminate|]); (split; [|now left]);
      intros s0 Hs0; try discriminate; injection Hs0 as <-; now apply Hsrt.
  - destruct IH as (IH1 & IH2 & IH3). unfold start_stream.
    destruct (_streaming d) eqn:E; cbn [fst]; [rewrite E; auto|].
    destruct (srt_stream d) as [s|] eqn:Es.
    + pose proof (SrtFacts.srt_start o s (IH2 s eq_refl)) as Hs'.
      destruct (SRTStreamSource.start_stream o s) as [[s' evs] [u|e]];
        cbn [fst] in Hs' |- *; cbn.
      * split; [intros _; split; [eauto | discriminate]|].
        split; [now intros s0 [= <-] | exact IH3].
      * rewrite E. split; [discriminate|].
        split; [now intros s0 [= <-] | exact IH3].
    + destruct b; cbn.
      * rewrite Es. split; [intros _; split; eauto|].
        split; [discriminate | exact IH3].
      * rewrite E, Es. split; [discriminate|].
        split; [discriminate | exact IH3].
  - destruct IH as (IH1 & IH2 & IH3). unfold stop_stream.
    destruct (_streaming d) eqn:E; cbn [negb fst]; [|rewrite E; auto].
    cbn [srt_stream set_streaming]. destruct (srt_stream d) as [s|] eqn:Es.
    + pose proof (SrtFacts.srt_stop s (IH2 s eq_refl)) as Hs'.
      destruct (SRTStreamSource.stop_stream s) as [[s' evs] [u|e]];
        cbn [fst] in Hs' |- *; cbn.
      * destruct (process_thread d); cbn;
          (split; [discriminate|]); (split; [now intros s0 [= <-] | exact IH3]).
      * split; [discriminate|]. split; [now intros s0 [= <-] | exact IH3].
    + cbn [stream set_streaming].
      destruct (stream d); cbn; [destruct (process_thread d); cbn|];
        rewrite ?Es; (split; [discriminate|]); (split; [discriminate | exact IH3]).
  - destruct IH as (IH1 & IH2 & IH3).
    destruct (run_step_keeps R st d) as [Hc Hs].
    pose proof (run_step_key R st d) as Hk. cbv zeta in Hk.
    set (d' := fst (run_step corrcoef chroma_mean R st d)) in *.
    unfold control in Hc. injection Hc as Hc1 Hc2 Hc3.
    split; [|split].
    + rewrite Hc1, Hc2, Hc3. intros Ht. destruct (IH1 Ht) as [Hp Hi].
      split; [exact Hp|]. intros Hn. apply Hi.
      destruct (srt_stream d) as [s|]; [|reflexivity].
      destruct Hs as [Hs | (b & s' & _ & Hs)]; congruence.
    + intros s0 Hs0. destruct (srt_stream d) as [s|]; [|congruence].
      destruct Hs as [Hs | (b & s' & Hg & Hs)].
      * apply IH2. congruence.
      * replace s0 with s' by congruence.
        exact (SrtFacts.srt_get s b s' (IH2 s eq_refl) Hg).
    + destruct Hk as [-> | Hk]; [exact IH3 | now right].
  - destruct IH as (IH1 & IH2 & IH3). cbn. split; [|split; [|exact IH3]].
    + intros Ht. destruct (IH1 Ht) as [Hp _]. split; [exact Hp | discriminate].
    + intros s0 [= <-].
      exact (SrtFacts.srt_decode fuel samples buffer s buffer' s' (IH2 s Hs) Hd).
  - destruct IH as (IH1 & IH2 & IH3). cbn. split; [|split; [|exact IH3]].
    + intros Ht. destruct (IH1 Ht) as [Hp _]. split; [exact Hp | discriminate].
    + intros s0 [= <-]. exact (SrtFacts.srt_error s (IH2 s Hs)).
  - unfold set_vst_parameter in Hset. destruct (vst_stream d) as [v|]; [|discriminate].
    destruct (VSTStreamSource.set_plugin_parameter name value v); [|discriminate].
    injection Hset as <-. exact IH.
Qed.

(** X19.  Starting a session or an SRT source that a start has just set
    streaming does nothing more, and neither does stopping one a second
    time: the second call returns at once, without an event and without
    touching the object. *)
Theorem session_and_srt_start_stop_twice :
  (forall o b o' b' d d' evs,
     start_stream o b d = (d', evs, Ok ()) ->
     start_stream o' b' d' = (d', [], Ok ())) /\
  (forall d,
     stop_stream (fst (fst (stop_stream d)))
     = (fst (fst (stop_stream d)), [], Ok ())) /\
  (forall o o' (s s' : SRTStreamSource.t) evs,
     SRTStreamSource.start_stream o s = (s', evs, Ok ()) ->
     SRTStreamSource.start_stream o' s' = (s', [], Ok ())) /\
  (forall s : SRTStreamSource.t,
     SRTStreamSource.stop_stream (fst (fst (SRTStreamSource.stop_stream s)))
     = (fst (fst (SRTStreamSource.stop_stream s)), [], Ok ())).
Proof.
  split; [exact LifecycleFacts.start_twice|].
  split; [exact LifecycleFacts.stop_twice|].
  split; [|exact LifecycleFacts.srt_stop_twice].
  intros o o' s s' evs E. apply LifecycleFacts.srt_start_when_started.
  unfold SRTStreamSource.start_stream in E.
  destruct (SRTStreamSource._streaming s) eqn:Es; [now injection E as <- _|].
  destruct o; try discriminate. now injection E as <- _.
Qed.

(** X20.  With a window of at least one sample, the buffer after a block
    was appended is exactly the last [required_samples] samples of the old
    buffer followed by the block (all of them while there are fewer), and
    in a whole run of captures and analysis rounds it never outgrows the
    window. *)
Theorem window_holds_the_latest_samples R new_audio d :
  (0 < R)%Z ->
  let all := stream_buffer d ++ new_audio in
  let d' := fst (append_and_analyze corrcoef chroma_mean R new_audio d) in
  stream_buffer d' = drop (length all - Z.to_nat R) all /\
  Z.of_nat (length (stream_buffer d')) = Z.min R (Z.of_nat (length all)) /\
  (forall steps,
     (Z.of_nat (length (stream_buffer d)) <= R)%Z ->
     (Z.of_nat (length (stream_buffer (fst (run corrcoef chroma_mean R steps d))))
      <= R)%Z).
Proof.
  intros HR. cbv zeta.
  rewrite SessionFacts.append_and_analyze_buffer, (keep_recent_drop R _ HR).
  split; [reflexivity|]. split; [rewrite length_drop; lia|].
  intros steps Hd. now apply SessionFacts.run_buffer_bounded.
Qed.

(** X21.  A round of the analysis loop that leaves the buffer shorter than
    the window has not run the estimator: the current key is the one
    before, and the listener was not called. *)
Theorem no_key_before_window_is_full R d :
  (Z.of_nat (length (stream_buffer (fst (iteration corrcoef chroma_mean R d)))) < R)%Z ->
  _current_key (fst (iteration corrcoef chroma_mean R d)) = _current_key d /\
  SessionFacts.key_changes (snd (iteration corrcoef chroma_mean R d)) = [].
Proof.
  unfold iteration. destruct (srt_stream d) as [s|].
  - destruct (SRTStreamSource.get_audio_block s) as [[b s']|]; [|now intros _].
    intros Hlt. rewrite SessionFacts.append_and_analyze_buffer in Hlt.
    rewrite (SessionFacts.no_analysis_before_full _ _ _ _ _ Hlt). now cbn.
  - destruct (PyQueue.get (audio_queue d)) as [[b q]|]; [|now intros _].
    cbn [vst_stream set_audio_queue]. destruct (vst_stream d) as [v|].
    + destruct (VSTStreamSource.process_block b v) as [[b' v']|]; [|now intros _].
      intros Hlt. rewrite SessionFacts.append_and_analyze_buffer in Hlt.
      rewrite (SessionFacts.no_analysis_before_full _ _ _ _ _ Hlt). now cbn.
    + intros Hlt. rewrite SessionFacts.append_and_analyze_buffer in Hlt.
      rewrite (SessionFacts.no_analysis_before_full _ _ _ _ _ Hlt). now cbn.
Qed.

(** X22.  [start_stream] of the session does not start the plugin
    processor: a processor that was stopped, as the constructor leaves it,
    is still stopped once the session runs, so the capture callback queues
    every block as it came and the analysis loop appends it to the window
    unchanged, without a call of the plugin. *)
Theorem session_start_leaves_plugin_stopped o b d v indata R :
  srt_stream d = None ->
  vst_stream d = Some v ->
  VSTStreamSource._streaming v = false ->
  PyQueue.items (audio_queue d) = [] ->
  (PyQueue.maxsize (audio_queue d) <= 0)%Z ->
  let d' := fst (fst (start_stream o b d)) in
  vst_stream d' = Some v /\
  exists d'',
    audio_callback indata d' = Ok d'' /\
    PyQueue.items (audio_queue d'') = [indata] /\
    vst_stream d'' = Some v /\
    vst_stream (fst (iteration corrcoef chroma_mean R d'')) = Some v /\
    stream_buffer (fst (iteration corrcoef chroma_mean R d''))
    = keep_recent R (stream_buffer d ++ indata).
Proof.
  intros Hsrt Hvst Hv Hq Hmax. cbv zeta.
  set (d' := fst (fst (start_stream o b d))).
  assert (Hd' : srt_stream d' = None /\ vst_stream d' = Some v /\
                audio_queue d' = audio_queue d /\ stream_buffer d' = stream_buffer d).
  { unfold d', start_stream. destruct (_streaming d); [now cbn|].
    rewrite Hsrt. destruct b; now cbn. }
  destruct Hd' as (Hsrt' & Hvst' & Hq' & Hb').
  split; [exact Hvst'|].
  assert (Hp : forall x, VSTStreamSource.process_block x v = Ok (x, v))
    by (intros x; unfold VSTStreamSource.process_block; now rewrite Hv).
  unfold audio_callback. rewrite Hsrt', Hvst', Hp. cbn [bind].
  rewrite Hq', PyQueue.put_unbounded by exact Hmax.
  eexists. split; [reflexivity|]. rewrite Hq. cbn [app].
  split; [reflexivity|]. split; [reflexivity|].
  unfold iteration. cbn [srt_stream set_audio_queue set_vst_stream audio_queue].
  rewrite Hsrt'. cbn [PyQueue.get PyQueue.get_nowait PyQueue.items vst_stream
       set_audio_queue set_vst_stream].
  rewrite Hp.
  match goal with |- context [append_and_analyze _ _ R indata ?d0] =>
    destruct (append_and_analyze_keeps R indata d0) as (_ & _ & Hvk & _);
    pose proof (SessionFacts.append_and_analyze_buffer corrcoef chroma_mean R indata d0)
      as Hbk
  end.
  cbv zeta in Hvk. rewrite Hvk, Hbk. cbn. now rewrite Hb'.
Qed.

(** X23.  When the processor of a session was started by hand, a captured
    block goes through the plugin twice before it reaches the window: once
    in the capture callback, and once more in the analysis loop. *)
Theorem streaming_plugin_processes_twice d v x y z p1 p2 R :
  srt_stream d = None ->
  vst_stream d = Some v ->
  VSTStreamSource._streaming v = true ->
  (PyQueue.maxsize (VSTStreamSource.audio_queue v) <= 0)%Z ->
  PyQueue.items (audio_queue d) = [] ->
  (PyQueue.maxsize (audio_queue d) <= 0)%Z ->
  plugin_process x (VSTStreamSource.plugin v) = Ok (y, p1) ->
  plugin_process y p1 = Ok (z, p2) ->
  exists d1,
    audio_callback x d = Ok d1 /\
    PyQueue.items (audio_queue d1) = [y] /\
    stream_buffer (fst (iteration corrcoef chroma_mean R d1))
    = keep_recent R (stream_buffer d ++ z) /\
    option_map VSTStreamSource.plugin
      (vst_stream (fst (iteration corrcoef chroma_mean R d1))) = Some p2.
Proof.
  intros Hsrt Hvst Hv Hvmax Hq Hmax Hxy Hyz.
  assert (Hp : forall a c p (w : VSTStreamSource.t P),
             VSTStreamSource._streaming w = true ->
             (PyQueue.maxsize (VSTStreamSource.audio_queue w) <= 0)%Z ->
             plugin_process a (VSTStreamSource.plugin w) = Ok (c, p) ->
             VSTStreamSource.process_block a w
             = Ok (c, VSTStreamSource.mk (VSTStreamSource.sample_rate w)
                        (VSTStreamSource.block_size w)
                        (PyQueue.mkQueue (PyQueue.maxsize (VSTStreamSource.audio_queue w))
                           (PyQueue.items (VSTStreamSource.audio_queue w) ++ [c]))
                        true p)).
  { intros a c p w Hw Hwmax Hac. unfold VSTStreamSource.process_block.
    rewrite Hw, Hac. cbn [negb bind].
    now rewrite PyQueue.put_unbounded by exact Hwmax. }
  unfold audio_callback. rewrite Hsrt, Hvst, (Hp x y p1 v Hv Hvmax Hxy). cbn [bind].
  rewrite PyQueue.put_unbounded by exact Hmax.
  eexists. split; [reflexivity|]. rewrite Hq. cbn [app].
  split; [reflexivity|].
  unfold iteration. cbn [srt_stream set_audio_queue set_vst_stream audio_queue].
  rewrite Hsrt. cbn [PyQueue.get PyQueue.get_nowait PyQueue.items vst_stream
       set_audio_queue set_vst_stream].
  rewrite (Hp y z p2) by (cbn; first [reflexivity | assumption]).
  match goal with |- context [append_and_analyze _ _ R z ?d0] =>
    destruct (append_and_analyze_keeps R z d0) as (_ & _ & Hvk & _);
    pose proof (SessionFacts.append_and_analyze_buffer corrcoef chroma_mean R z d0)
      as Hbk
  end.
  cbv zeta in Hvk. rewrite Hvk, Hbk. now cbn.
Qed.

(** X24.  With an SRT source the plugin and the sound device are out of
    the audio path: the capture callback drops its block, and a round of
    the analysis loop appends the block of the SRT source as it is, so
    that the processor is left exactly as it was. *)
Theorem srt_session_bypasses_plugin d s R :
  srt_stream d = Some s ->
  (forall indata, audio_callback indata d = Ok d) /\
  vst_stream (fst (iteration corrcoef chroma_mean R d)) = vst_stream d /\
  audio_queue (fst (iteration corrcoef chroma_mean R d)) = audio_queue d /\
  match SRTStreamSource.get_audio_block s with
  | None => iteration corrcoef chroma_mean R d = (d, [])
  | Some (new_audio, s') =>
      stream_buffer (fst (iteration corrcoef chroma_mean R d))
      = keep_recent R (stream_buffer d ++ new_audio) /\
      srt_stream (fst (iteration corrcoef chroma_mean R d)) = Some s'
  end.
Proof.
  intros Hs. split; [intros indata; unfold audio_callback; now rewrite Hs|].
  unfold iteration. rewrite Hs.
  destruct (SRTStreamSource.get_audio_block s) as [[b s']|]; [|now cbn].
  destruct (append_and_analyze_keeps R b (set_srt_stream (Some s') d))
    as (_ & Hsk & Hvk & Hqk).
  cbv zeta in Hsk, Hvk, Hqk. rewrite Hsk, Hvk, Hqk.
  now rewrite SessionFacts.append_and_analyze_buffer.
Qed.

Lemma stop_stream_ok d : reachable d -> snd (stop_stream d) = Ok ().
Proof.
  intros Hr. destruct (session_reachable_well_formed d Hr) as (H1 & H2 & _).
  unfold stop_stream. destruct (_streaming d) eqn:E; cbn [negb]; [|reflexivity].
  destruct (H1 eq_refl) as [[th Hth] Hst].
  cbn [srt_stream set_streaming]. destruct (srt_stream d) as [s|] eqn:Es.
  - destruct (SrtFacts.srt_reachable_well_formed s (H2 s eq_refl)) as [Hw _].
    unfold SRTStreamSource.stop_stream.
    destruct (SRTStreamSource._streaming s); cbn [negb].
    + destruct (Hw eq_refl) as [[t Ht] [c Hc]]. rewrite Ht, Hc. cbn.
      now rewrite Hth.
    + cbn. now rewrite Hth.
  - destruct (Hst eq_refl) as [i Hi]. cbn [stream set_streaming].
    rewrite Hi. cbn. now rewrite Hth.
Qed.

(** X25.  In every state a session can reach, [stop_stream] finds every
    attribute it reads: it returns without raising (the calls into the
    sound device and the threads taken to return) and leaves the session
    stopped.  Called on a streaming session it stops the processor if
    there is one; without an SRT source it stops and closes the input
    stream and then joins the analysis thread for at most one second, and
    with one it stops the source first and joins the thread last. *)
Theorem session_stop_never_raises d :
  reachable d ->
  snd (stop_stream d) = Ok () /\
  _streaming (fst (fst (stop_stream d))) = false /\
  (_streaming d = true ->
   (forall v, vst_stream (fst (fst (stop_stream d))) = Some v ->
              VSTStreamSource._streaming v = false) /\
   match srt_stream d with
   | None =>
       snd (fst (stop_stream d))
       = [InputStreamStop; InputStreamClose; ThreadJoin 1.0%float]
   | Some s =>
       snd (fst (stop_stream d))
       = snd (fst (SRTStreamSource.stop_stream s)) ++ [ThreadJoin 1.0%float] /\
       srt_stream (fst (fst (stop_stream d)))
       = Some (fst (fst (SRTStreamSource.stop_stream s)))
   end).
Proof.
  intros Hr. destruct (session_reachable_well_formed d Hr) as (H1 & H2 & _).
  split; [exact (stop_stream_ok d Hr)|].
  split; [apply LifecycleFacts.stopped_is_not_streaming|].
  - intros E. destruct (H1 E) as [[th Hth] Hst].
    unfold stop_stream. rewrite E. cbn [negb srt_stream set_streaming].
    destruct (srt_stream d) as [s|] eqn:Es.
    + destruct (SrtFacts.srt_reachable_well_formed s (H2 s eq_refl)) as [Hw _].
      assert (Hok : snd (SRTStreamSource.stop_stream s) = Ok ()).
      { unfold SRTStreamSource.stop_stream.
        destruct (SRTStreamSource._streaming s); cbn [negb]; [|reflexivity].
        destruct (Hw eq_refl) as [[t Ht] [c Hc]]. now rewrite Ht, Hc. }
      destruct (SRTStreamSource.stop_stream s) as [[s' evs] r].
      cbn [snd] in Hok. subst r. cbn. rewrite Hth. cbn.
      split; [|auto]. intros v0. destruct (vst_stream d) as [v|]; [|discriminate].
      cbn. intros [= <-]. unfold VSTStreamSource.stop_stream.
      destruct (VSTStreamSource._streaming v) eqn:Ev; cbn; [reflexivity | exact Ev].
    + destruct (Hst eq_refl) as [i Hi]. cbn [stream set_streaming].
      rewrite Hi. cbn. rewrite Hth. cbn.
      split; [|reflexivity]. intros v0. destruct (vst_stream d) as [v|]; [|discriminate].
      cbn. intros [= <-]. unfold VSTStreamSource.stop_stream.
      destruct (VSTStreamSource._streaming v) eqn:Ev; cbn; [reflexivity | exact Ev].
Qed.


(** X27.  Without a plugin [get_vst_parameters] gives [None] and
    [set_vst_parameter] raises [RuntimeError], whatever the name and the
    value.  With one, a value the plugin accepts is the only thing the
    call changes: the session, its buffer, its queue and its key are as
    before, and the processor is the old one with the new plugin state. *)
Theorem session_parameters_go_to_the_plugin name value d :
  match vst_stream d with
  | None =>
      get_vst_parameters d = None /\
      set_vst_parameter name value d = Raise RuntimeError
  | Some v =>
      get_vst_parameters d = Some (plugin_get_parameters (VSTStreamSource.plugin v)) /\
      match plugin_set_parameter name value (VSTStreamSource.plugin v) with
      | Raise e => set_vst_parameter name value d = Raise e
      | Ok p =>
          exists d',
            set_vst_parameter name value d = Ok d' /\
            get_vst_parameters d' = Some (plugin_get_parameters p) /\
            control d' = control d /\ stream_buffer d' = stream_buffer d /\
            audio_queue d' = audio_queue d /\ _current_key d' = _current_key d /\
            option_map VSTStreamSource._streaming (vst_stream d')
            = Some (VSTStreamSource._streaming v)
      end
  end.
Proof.
  unfold get_vst_parameters, set_vst_parameter.
  destruct (vst_stream d) as [v|]; [|now split].
  split; [reflexivity|]. unfold VSTStreamSource.set_plugin_parameter.
  destruct (plugin_set_parameter name value (VSTStreamSource.plugin v)) as [p|e];
    cbn [bind]; [|reflexivity].
  eexists. split; [reflexivity|]. now cbn.
Qed.

(** X28.  The current key of a session is ["Unknown"] or one of the 24 key
    names in every state the session can reach, and once it is a key name
    no run of captures and analysis rounds brings ["Unknown"] back. *)
Theorem current_key_is_Unknown_or_a_key d :
  reachable d ->
  (current_key d = "Unknown"%string \/ current_key d ∈ EstimatorFacts.key_names) /\
  (current_key d ∈ EstimatorFacts.key_names ->
   forall R steps,
     current_key (fst (run corrcoef chroma_mean R steps d))
       ∈ EstimatorFacts.key_names).
Proof.
  intros Hr. destruct (session_reachable_well_formed d Hr) as (_ & _ & H3).
  split; [exact H3|]. clear Hr H3. intros Hk R steps. revert d Hk.
  induction steps as [|st rest IH]; intros d Hk; cbn [run]; [exact Hk|].
  pose proof (run_step_key R st d) as Hs. cbv zeta in Hs.
  destruct (run_step corrcoef chroma_mean R st d) as [d1 evs].
  specialize (IH d1).
  destruct (run corrcoef chroma_mean R rest d1) as [d2 evs2]. cbn [fst] in *.
  apply IH. unfold current_key in *. destruct Hs as [-> | Hs]; assumption.
Qed.

End WithAnalysis.

End WithPlugin.

End SessionMethods.

Module SessionMethodsExample.

Import KeyDetector.
Import SessionMethods.

(** The mock plugin as the session's processor holds it: set up and
    started by the constructor, the processor itself not streaming. *)
Definition processor : VSTStreamSource.t MockVST.t :=
  VSTStreamSource.mk 4 2 (PyQueue.new 0) false
    (MockVST.start (MockVST.setup 4 2 2 2 MockVST.init)).

(** A session with the mock plugin and a window of four samples, as the
    constructor leaves it. *)
Definition plugin_session : KeyDetector.t MockVST.t :=
  mk 1%float 4 2 None (PyQueue.new 0) [] false "Unknown" None
     (Some processor) None None None.

Example plugin_session_init :
  KeyDetector.init 1%float 4 2 None
    (Some (VSTStreamSource.init true (Ok MockVST.init) 4 2)) None None
  = Ok plugin_session.
Proof. reflexivity. Qed.

Lemma plugin_session_reachable :
  reachable Estimator.pearson SessionExample.major_window plugin_session.
Proof.
  eapply kd_init; [|exact plugin_session_init]. intros s. discriminate.
Qed.

(** The session once started. *)
Definition running : KeyDetector.t MockVST.t :=
  fst (fst (start_stream SRTStreamSource.Opens true plugin_session)).

Lemma running_reachable :
  reachable Estimator.pearson SessionExample.major_window running.
Proof. apply kd_start, plugin_session_reachable. Qed.

(** A running session whose processor was started by hand, with the gain
    of the plugin at one half. *)
Definition halved : MockVST.t :=
  MockVST.mk (<["gain"%string := 0.5%float]> (MockVST._parameters MockVST.init))
    true 4 2.

Definition hand_started : KeyDetector.t MockVST.t :=
  mk 1%float 4 2 None (PyQueue.new 0) [] true "Unknown" None
     (Some (VSTStreamSource.mk 4 2 (PyQueue.new 0) true halved))
     None (Some InputStream) (Some Thread).

(** A running session with a full window and one captured block waiting. *)
Definition full_window : KeyDetector.t MockVST.t :=
  mk 1%float 4 2 None (PyQueue.mkQueue 0 [[0.5; 0.6]%float])
     [0.1; 0.2; 0.3; 0.4]%float true "Unknown" None None None
     (Some InputStream) (Some Thread).

(** A running session that has two samples so far and one block waiting. *)
Definition filling : KeyDetector.t MockVST.t :=
  mk 1%float 6 2 None (PyQueue.mkQueue 0 [[0.3; 0.4]%float])
     [0.1; 0.2]%float true "Unknown" None None None
     (Some InputStream) (Some Thread).

(** A running session on an SRT source that has one block ready. *)
Definition srt_source : SRTStreamSource.t :=
  SRTStreamSource.mk "srt://host:9000" 4 2 (PyQueue.mkQueue 0 [[0.7; 0.8]%float])
    true (Some SRTStreamSource.Container) (Some SRTStreamSource.AudioStream)
    (Some SRTStreamSource.Thread).

Definition srt_session : KeyDetector.t MockVST.t :=
  mk 1%float 4 2 None (PyQueue.new 0) [] true "Unknown" None
     (Some processor) (Some srt_source) None (Some Thread).

Lemma window_holds_the_latest_samples_witness :
  (0 < 4)%Z /\
  stream_buffer (fst (append_and_analyze Estimator.pearson SessionExample.major_window
                        4 [0.5; 0.6]%float full_window))
  = [0.3; 0.4; 0.5; 0.6]%float.
Proof.
  assert (HR : (0 < 4)%Z) by reflexivity.
  split; [exact HR|].
  exact (proj1 (window_holds_the_latest_samples Estimator.pearson
                  SessionExample.major_window 4 [0.5; 0.6]%float full_window HR)).
Defined.

Lemma no_key_before_window_is_full_witness :
  (Z.of_nat (length (stream_buffer
      (fst (iteration Estimator.pearson SessionExample.major_window 6 filling)))) < 6)%Z /\
  _current_key (fst (iteration Estimator.pearson SessionExample.major_window 6 filling))
  = "Unknown"%string /\
  SessionFacts.key_changes
    (snd (iteration Estimator.pearson SessionExample.major_window 6 filling)) = [].
Proof.
  assert (Hlt : (Z.of_nat (length (stream_buffer
            (fst (iteration Estimator.pearson SessionExample.major_window 6 filling))))
                 < 6)%Z) by (vm_compute; reflexivity).
  split; [exact Hlt|].
  exact (no_key_before_window_is_full Estimator.pearson SessionExample.major_window
           6 filling Hlt).
Defined.

Lemma session_start_leaves_plugin_stopped_witness :
  (srt_stream plugin_session = None /\
   vst_stream plugin_session = Some processor /\
   VSTStreamSource._streaming processor = false /\
   PyQueue.items (audio_queue plugin_session) = [] /\
   (PyQueue.maxsize (audio_queue plugin_session) <= 0)%Z) /\
  vst_stream running = Some processor /\
  exists d'',
    audio_callback [1.0; 1.0]%float running = Ok d'' /\
    PyQueue.items (audio_queue d'') = [[1.0; 1.0]%float] /\
    vst_stream d'' = Some processor /\
    vst_stream (fst (iteration Estimator.pearson SessionExample.major_window 4 d''))
    = Some processor /\
    stream_buffer (fst (iteration Estimator.pearson SessionExample.major_window 4 d''))
    = keep_recent 4 (stream_buffer plugin_session ++ [1.0; 1.0]%float).
Proof.
  assert (Hmax : (PyQueue.maxsize (audio_queue plugin_session) <= 0)%Z)
    by (vm_compute; discriminate).
  split; [repeat split; exact Hmax|].
  exact (session_start_leaves_plugin_stopped Estimator.pearson
           SessionExample.major_window SRTStreamSource.Opens true plugin_session
           processor [1.0; 1.0]%float 4 eq_refl eq_refl eq_refl eq_refl Hmax).
Defined.

Lemma streaming_plugin_processes_twice_witness :
  (plugin_process [1.0]%float halved = Ok ([0.75]%float, halved) /\
   plugin_process [0.75]%float halved = Ok ([0.5625]%float, halved)) /\
  exists d1,
    audio_callback [1.0]%float hand_started = Ok d1 /\
    PyQueue.items (audio_queue d1) = [[0.75]%float] /\
    stream_buffer (fst (iteration Estimator.pearson SessionExample.major_window 4 d1))
    = keep_recent 4 (stream_buffer hand_started ++ [0.5625]%float) /\
    option_map VSTStreamSource.plugin
      (vst_stream (fst (iteration Estimator.pearson SessionExample.major_window 4 d1)))
    = Some halved.
Proof.
  assert (H1 : plugin_process [1.0]%float halved = Ok ([0.75]%float, halved))
    by (vm_compute; reflexivity).
  assert (H2 : plugin_process [0.75]%float halved = Ok ([0.5625]%float, halved))
    by (vm_compute; reflexivity).
  assert (Hmax : (0 <= 0)%Z) by discriminate.
  split; [split; assumption|].
  exact (streaming_plugin_processes_twice Estimator.pearson SessionExample.major_window
           hand_started (VSTStreamSource.mk 4 2 (PyQueue.new 0) true halved)
           [1.0]%float [0.75]%float [0.5625]%float halved halved 4
           eq_refl eq_refl eq_refl Hmax eq_refl Hmax H1 H2).
Defined.

Lemma srt_session_bypasses_plugin_witness :
  srt_stream srt_session = Some srt_source /\
  (forall indata, audio_callback indata srt_session = Ok srt_session) /\
  vst_stream (fst (iteration Estimator.pearson SessionExample.major_window 4 srt_session))
  = Some processor /\
  stream_buffer (fst (iteration Estimator.pearson SessionExample.major_window 4 srt_session))
  = [0.7; 0.8]%float.
Proof.
  split; [reflexivity|].
  pose proof (srt_session_bypasses_plugin Estimator.pearson SessionExample.major_window
                srt_session srt_source 4 eq_refl) as (Hc & Hv & _ & Hb & _).
  split; [exact Hc|]. split; [exact Hv | exact Hb].
Defined.

Lemma session_stop_never_raises_witness :
  reachable Estimator.pearson SessionExample.major_window running /\
  _streaming running = true /\
  snd (stop_stream running) = Ok () /\
  _streaming (fst (fst (stop_stream running))) = false /\
  snd (fst (stop_stream running))
  = [InputStreamStop; InputStreamClose; ThreadJoin 1.0%float].
Proof.
  split; [exact running_reachable|]. split; [reflexivity|].
  pose proof (session_stop_never_raises Estimator.pearson SessionExample.major_window
                running running_reachable) as (Hok & Hst & Hev).
  split; [exact Hok|]. split; [exact Hst|]. exact (proj2 (Hev eq_refl)).
Defined.


Lemma current_key_is_Unknown_or_a_key_witness :
  reachable Estimator.pearson SessionExample.major_window running /\
  (current_key running = "Unknown"%string \/
   current_key running ∈ EstimatorFacts.key_names).
Proof.
  split; [exact running_reachable|].
  exact (proj1 (current_key_is_Unknown_or_a_key Estimator.pearson
                  SessionExample.major_window running running_reachable)).
Defined.

End SessionMethodsExample.

(* ===================================================================== *)
(** ** [src/cli.py]: the command line, up to the start of the stream *)
(* ===================================================================== *)

Module Cli.

Import KeyDetector.
Import SessionMethods.

Section WithPlugin.

Context {P : Type} `{Plugin P}.

Implicit Types (d : KeyDetector.t P).

(** [except (ValueError, RuntimeError) as e] around the call that sets one
    parameter. *)
Definition handled (e : exn) : bool :=
  match e with
  | ValueError | RuntimeError => true
  | _ => false
  end.

(** [for param_id, value in vst_params:
       detector.set_vst_parameter(param_id, float(value))].
    A value is the text of the command line with what [float] makes of it:
    [None] when [float] raises [ValueError]. *)
Fixpoint set_vst_params (vst_params : list (string * option float)) d
  : result (KeyDetector.t P) :=
  match vst_params with
  | [] => Ok d
  | (param_id, value) :: rest =>
      match value with
      | None => Raise ValueError
      | Some value =>
          let* d := set_vst_parameter param_id value d in
          set_vst_params rest d
      end
  end.

(** What [detect_from_stream] prints first. *)
Definition banner (monitor : bool) : list event :=
  if monitor
  then [Print "Starting continuous key monitoring..."; Print "Press Ctrl+C to stop"]
  else [Print "Starting live key detection"; Print "Please play or sing something..."].

(** [detect_from_stream] up to and including [detector.start_stream()]:
    the running session, or the exit code the function returns at once.
    [constructed] is what [KeyDetector(...)] gives for the arguments. *)
Definition launch (monitor : bool) (constructed : result (KeyDetector.t P))
  (vst_params : list (string * option float))
  (srt_opening : SRTStreamSource.opening) (sd_opens : bool)
  : (KeyDetector.t P + Z) * list event :=
  match constructed with
  | Raise _ => (inr 1%Z, banner monitor ++ [Print "Error"])
  | Ok d =>
      match set_vst_params vst_params d with
      | Raise e =>
          (inr 1%Z,
           banner monitor ++
           [Print (if handled e then "Error setting VST parameter" else "Error")])
      | Ok d =>
          match start_stream srt_opening sd_opens d with
          | (d, evs, Ok _) => (inl d, banner monitor ++ evs)
          | (_, evs, Raise _) => (inr 1%Z, banner monitor ++ evs ++ [Print "Error"])
          end
      end
  end.

(** [finally: detector.stop_stream()] and [return 0], or the handler of
    the function when the stop raises. *)
Definition finish d : Z * list event :=
  match stop_stream d with
  | (_, evs, Ok _) => (0%Z, evs)
  | (_, evs, Raise _) => (1%Z, evs ++ [Print "Error"])
  end.

(** X29.  Parameters given without a plugin end [detect_from_stream] with
    exit code 1 before anything is opened: whatever the names and the
    values, the first one is refused ([set_vst_parameter] raises
    [RuntimeError] without a plugin, and a value that is no number raises
    [ValueError]), both are caught by the same handler, and the only
    things done are the two lines of the banner and the error message.
    Whenever the stream is started, every parameter was a number and was
    accepted, in the order given; and the stop at the end of a session
    that was started gives exit code 0. *)
Theorem parameters_without_plugin_exit_1 monitor d vst_params o b :
  vst_stream d = None ->
  vst_params <> [] ->
  launch monitor (Ok d) vst_params o b
  = (inr 1%Z, banner monitor ++ [Print "Error setting VST parameter"]) /\
  (forall c ps started evs,
     launch monitor c ps o b = (inl started, evs) ->
     exists d0 d1,
       c = Ok d0 /\ set_vst_params ps d0 = Ok d1 /\
       Forall (fun p => is_Some (snd p)) ps /\
       _streaming started = true /\
       start_stream o b d1 = (started, drop 2 evs, Ok ())) /\
  (forall corrcoef chroma_mean started,
     reachable corrcoef chroma_mean started -> fst (finish started) = 0%Z).
Proof.
  intros Hv Hne. split; [|split].
  3: { intros corrcoef chroma_mean started Hr.
       pose proof (stop_stream_ok corrcoef chroma_mean started Hr) as Hok.
       unfold finish. destruct (stop_stream started) as [[d' evs] r].
       cbn [snd] in Hok. now subst r. }
  - unfold launch. destruct vst_params as [|[param_id [value|]] rest]; [congruence| |].
    + cbn. unfold set_vst_parameter. now rewrite Hv.
    + reflexivity.
  - intros c ps started evs. unfold launch. destruct c as [d0|e]; [|discriminate].
    destruct (set_vst_params ps d0) as [d1|e] eqn:Es; [|discriminate].
    destruct (start_stream o b d1) as [[d2 evs2] [[]|e]] eqn:E; [|discriminate].
    intros [= <- <-]. exists d0, d1. split; [reflexivity|]. split; [exact Es|].
    split; [|split].
    + clear E. revert d0 Es. induction ps as [|[n [x|]] ps IH]; intros d0 Es;
        [constructor | | discriminate].
      constructor; [cbn; eauto|]. cbn in Es.
      destruct (set_vst_parameter n x d0) as [d'|]; [|discriminate].
      exact (IH d' Es).
    + exact (LifecycleFacts.started_is_streaming _ _ _ _ _ E).
    + replace (drop 2 (banner monitor ++ evs2)) with evs2; [exact E|].
      now destruct monitor.
Qed.

End WithPlugin.

Lemma parameters_without_plugin_exit_1_witness :
  let d : KeyDetector.t MockVST.t :=
    mk 3%float 44100 2048 None (PyQueue.new 0) [] false "Unknown" None
       None None None None in
  (KeyDetector.init 3%float 44100 2048 None None None None = Ok d /\
   vst_stream d = None /\
   [("gain"%string, Some 0.5%float)] <> []) /\
  launch false (Ok d) [("gain"%string, Some 0.5%float)] SRTStreamSource.Opens true
  = (inr 1%Z, banner false ++ [Print "Error setting VST parameter"]).
Proof.
  cbv zeta.
  assert (Hne : [("gain"%string, Some 0.5%float)] <> []) by discriminate.
  split; [repeat split; exact Hne|].
  exact (proj1 (parameters_without_plugin_exit_1 false
                  (mk 3%float 44100 2048 None (PyQueue.new 0) [] false "Unknown" None
                      None None None None)
                  [("gain"%string, Some 0.5%float)] SRTStreamSource.Opens true
                  eq_refl Hne)).
Defined.

End Cli.

(* ===================================================================== *)
(** ** [examples/]: the listeners of the two monitors *)
(* ===================================================================== *)

(** [examples/realtime_key_monitor.py], class [KeyMonitorUI], and
    [examples/music_production_monitor.py], class [AudioSource]: both
    register their method [on_key_change] as the listener of a session
    and keep a bounded history of the changes they were told. *)
Module KeyHistory.

(** An entry of [key_history]: [(timestamp, old_key, new_key)]. *)
Definition entry : Type := (string * string * string)%type.

Record t : Type := mk {
  current_key : string;
  key_history : list entry;
}.

(** [__init__] and [__post_init__] *)
Definition init : t := mk "Unknown" [].

(** The body the two methods share but for the bound:
    [append], then [pop(0)] once the list is longer than [limit]. *)
Definition record_change (limit : nat) (timestamp old_key new_key : string) (u : t) : t :=
  let history := key_history u ++ [(timestamp, old_key, new_key)] in
  mk new_key (if limit <? length history then drop 1 history else history).

(** The listener called with each change in turn. *)
Definition told (limit : nat) (changes : list entry) (u : t) : t :=
  foldl (fun u c => record_change limit c.1.1 c.1.2 c.2 u) u changes.

End KeyHistory.

Module KeyMonitorUI.

(** [KeyMonitorUI.on_key_change]: the last 10 changes. *)
Definition on_key_change : string -> string -> string -> KeyHistory.t -> KeyHistory.t :=
  KeyHistory.record_change 10.

End KeyMonitorUI.

Module AudioSource.

(** [AudioSource.on_key_change]: the last 5 changes. *)
Definition on_key_change : string -> string -> string -> KeyHistory.t -> KeyHistory.t :=
  KeyHistory.record_change 5.

End AudioSource.

Module KeyHistoryFacts.

Import KeyHistory.

Lemma told_history (limit : nat) (changes : list entry) : forall u,
  length (key_history u) <= limit ->
  key_history (told limit changes u)
  = drop (length (key_history u ++ changes) - limit) (key_history u ++ changes).
Proof.
  induction changes as [|c rest IH]; intros u Hu; cbn [told foldl].
  - rewrite app_nil_r. replace (length (key_history u) - limit) with 0 by lia.
    reflexivity.
  - fold (told limit rest (record_change limit c.1.1 c.1.2 c.2 u)).
    destruct c as [[ts old] new]. cbn [fst snd].
    set (h := key_history u) in *. set (c := (ts, old, new)).
    assert (Hh : key_history (record_change limit ts old new u) = h ++ [c] /\
                 length h + 1 <= limit \/
                 key_history (record_change limit ts old new u) = drop 1 (h ++ [c]) /\
                 length h = limit).
    { unfold record_change. cbn [key_history]. fold h. fold c.
      rewrite length_app. cbn [length].
      destruct (Nat.ltb_spec limit (length h + 1)); [right | left]; split;
        try reflexivity; lia. }
    destruct Hh as [[Hh Hl] | [Hh Hl]].
    + rewrite IH by (rewrite Hh, length_app; cbn; lia).
      rewrite Hh, <- app_assoc. reflexivity.
    + rewrite IH by (rewrite Hh, length_drop, length_app; cbn; lia).
      rewrite Hh.
      replace (drop 1 (h ++ [c]) ++ rest) with (drop 1 (h ++ c :: rest))
        by (clear; destruct h as [|a h]; [reflexivity|];
            change (h ++ c :: rest = (h ++ [c]) ++ rest);
            now rewrite <- app_assoc).
      rewrite drop_drop. f_equal.
      rewrite length_drop, !length_app. cbn [length]. lia.
Qed.

Lemma told_current (limit : nat) (changes : list entry) : forall u,
  current_key (told limit changes u)
  = from_option (fun c : entry => c.2) (current_key u) (last changes).
Proof.
  induction changes as [|c rest IH]; intros u; cbn [told foldl]; [reflexivity|].
  fold (told limit rest (record_change limit c.1.1 c.1.2 c.2 u)).
  rewrite IH, last_cons. now destruct (last rest).
Qed.

(** X30.  The listeners of the two monitors keep the most recent changes
    only, in the order they came: after any number of calls the history
    of [KeyMonitorUI] is the last 10 changes and that of [AudioSource] the
    last 5 (all of them while there are fewer), and the key shown is the
    new key of the last change, or ["Unknown"] before the first. *)
Theorem key_history_holds_the_latest_changes (changes : list entry) :
  let ui := foldl (fun u c => KeyMonitorUI.on_key_change c.1.1 c.1.2 c.2 u)
                  init changes in
  let source := foldl (fun u c => AudioSource.on_key_change c.1.1 c.1.2 c.2 u)
                      init changes in
  key_history ui = drop (length changes - 10) changes /\
  key_history source = drop (length changes - 5) changes /\
  length (key_history ui) = Nat.min 10 (length changes) /\
  length (key_history source) = Nat.min 5 (length changes) /\
  current_key ui = from_option (fun c : entry => c.2) "Unknown" (last changes) /\
  current_key source = from_option (fun c : entry => c.2) "Unknown" (last changes).
Proof.
  cbv zeta. unfold KeyMonitorUI.on_key_change, AudioSource.on_key_change.
  fold (told 10 changes init). fold (told 5 changes init).
  rewrite !told_current, !told_history by (cbn; lia).
  cbn [key_history init app current_key]. rewrite !length_drop.
  repeat split; lia.
Qed.

End KeyHistoryFacts.
